(* ===== verification/_CoqProject ===== *)
-Q . S2P
Prelude.v
PyStr.v
PyDict.v
KeySpace.v
Json.v
Prog.v
Gcs.v
Codec.v
JsonLex.v
JsonText.v
Http.v
Proxy.v
Samples.v
Save.v
Retrieve.v
RetrieveAll.v
Delete.v
Concurrent.v
Isolation.v
Naming.v
Races.v
Scenarios.v
Model.v
