(* ===== verification/Prelude.v ===== *)
(** * Verification of the MyFormSnapper cloud functions

    ** The program

    The repository holds four HTTP functions written in Python.  Three of
    them keep the embeddings of a user's documents in one bucket of an
    object store:

    - [save_embeddings] (src/cloud-function-embeddings/save-embeddings/main.py)
      validates the request, creates the bucket when it is missing, and
      writes two objects, [users/<user>/documents/<doc>/chunks.json] and
      [.../metadata.json], with [json.dumps(_, indent=2)];
    - [retrieve_embeddings] (.../retrieve-embeddings/main.py) reads one
      document by the names of its two objects, or every document of a
      user by listing the prefix [users/<user>/documents/], grouping the
      names by their 4th part and decoding what each group holds;
    - [delete_embeddings] (.../delete-embeddings/main.py) lists the prefix
      of a document or of a user, deletes every listed object, and counts
      the documents.

    The fourth, [scrape_linkedin] (src/cloud-function-linkedin/main.py),
    posts the body of the request to one fixed URL and relays the answer.

    Every function answers the CORS preflight first, wraps its body in
    [try]/[except Exception] and turns an exception into a 500 answer.
    The functions share no memory: what one call leaves for the next is
    the content of the store.

    ** The files

    - [Prelude] (this file): the libraries, the tactics and hint databases
      of the development, results ([Ok]/[Err]) and facts on strings.
    - [PyStr]: [str.split], [str.join], [str.startswith] and [in] on
      strings.
    - [PyDict]: a [dict] with string keys as an insertion-ordered list of
      pairs, with lookup and assignment.
    - [KeySpace]: the f-strings that build object names and prefixes
      ([chunks_blob_name], [metadata_blob_name], [user_prefix],
      [document_prefix], [storage_url]) and the [split('/')] that takes a
      listed name apart ([blob_parts], [blob_document], [blob_doc_id]).
    - [Json]: decoded JSON as Python values ([json]), exceptions ([exn]),
      and the builtins the handlers apply to request data, on every value:
      truth ([truthy]), [in] ([py_in]), subscript ([py_getitem]), [.get]
      ([py_get]), [isinstance(_, list)], [len], [str]/[repr],
      [list.extend] ([py_extend]).
    - [Prog]: a handler as a finite tree of service calls ([prog]) with
      [bind], [catch] for [try]/[except], [for_each] and [for_fold] for
      loops; the interpreter [run]; the program logic [ensures] and
      [calls_only]; behavioural equality with its [Proper] instances.
    - [Gcs]: the calls of the storage client ([storeE]), the store as a map
      from bucket names to maps from object names to text, the meaning of
      each call ([store_call]) and a cloud that fails when a schedule of
      faults says so ([cloud_call]).
    - [Codec]: the interface [JsonCodec] of [json.dumps]/[json.loads] the
      handlers are written against.
    - [JsonLex], [JsonText]: the encoder with indent ([dump]) and the
      decoder ([loads], [parse_value]) that implement the interface.
    - [Http]: [request], [response] and the answers all functions share.
    - [Proxy]: [scrape_linkedin] over the call of the HTTP client
      ([httpE]).
    - [Samples]: the concrete requests and stores the theorems are applied
      to.
    - [Save], [Retrieve], [Delete]: one file a function; the definition
      named after the function is the whole handler, the definitions it is
      composed of are the blocks of the source in their order.
    - [RetrieveAll]: the all-documents branch of [retrieve_embeddings] as a
      fold over the content of the bucket: on every bucket the fold over
      the groups of the listing ([read_group], [read_groups]); the
      documents of a listing ([docs_of]), what is read for one of them by
      the names of its two objects ([read_document]) and for all
      ([read_all]), and the buckets on which the two folds agree
      ([tidy]).
    - [Concurrent]: requests in flight at the same time: a pool of
      handlers over one cloud, a step relation that lets one handler make
      its next call, and schedules that name an interleaving.
    - [Isolation]: the calls of a handler stay under the prefix of the
      user of its request ([writes_within], [under_user]), given what the
      store promises of a listing ([listed_promise]).
    - [Naming]: the invariant of the store that every object is named
      [users/<user>/documents/<doc>/<file>] ([named]), the requests that
      keep it ([clean]) and what it gives Retrieve.
    - [Races]: the schedules of the pool that exhibit the races of the
      handlers, for every pair of requests for one document.
    - [Scenarios]: sequences of calls against one store.
    - [Model]: the service without object names, as a library that maps
      a user and a document id to chunks and metadata ([library],
      [lib_save], [lib_delete], [lib_delete_user], [lib_run]); the buckets
      that represent a library ([represents]); the operations of a client
      ([op], [op_handler], [run_ops]).

    ** What is proved

    - Key space: the parser recovers (document, file) from a built name
      exactly when the ids hold no slash; names are injective and a prefix
      selects exactly the objects of its user or document, among
      slash-free ids; examples show what goes wrong with a slash.
    - Codec: decoding an encoded value gives the value back, at any
      indentation and with white space around the text.
    - Each handler: the answer and the final store on every branch of a
      well-formed request on a reliable store (200, 400, 404), the answer
      under chosen faults (a failed second upload, a failed bucket test),
      and for every request and every schedule of faults: the handler
      answers, Retrieve changes nothing, Save removes nothing, Delete
      writes nothing.
    - Retrieve of all documents: the grouping loop files every listed name
      under its document and file ([filed]); on every bucket the handler
      answers [read_groups], the fold over the groups of the listing (a
      refinement, errors included), its [documentsCount] is the number
      of documents for which the listing names a metadata file
      ([has_file]), and a listing of names that are never read
      ([unread]) is answered with the empty result; on a tidy bucket the
      handler answers [read_all], the fold of [read_document] over the
      documents in listing order; with both objects for every document
      the answer is the concatenation of the chunks and one metadata a
      document.
    - Isolation: a request of a user writes and deletes under the prefix
      of that user only, Delete because the store lists names under the
      listed prefix only ([calls_given] in [Prog] is the program logic
      for calls that are allowed given a promise on the answers); so what
      is outside the prefix is unchanged after one request and along
      every interleaving of requests, under every schedule of faults, and
      users whose ids hold no separator are kept apart.
    - Naming: a Save whose ids hold no separator, every Retrieve and every
      Delete write well-formed names only, so a well-named store stays
      well-named after one request and along every interleaving of
      requests under every schedule of faults; a well-named bucket is
      tidy for every separator-free user, so Retrieve of all documents
      refines [read_all] on whatever such requests leave.
    - Sequences: Save then Retrieve reads back what was saved; Save, Delete,
      Retrieve ends in 404; Delete of all then Retrieve of all is empty; a
      call about one document or user leaves the objects of the others,
      among ids without separator.  With a separator in an id this
      fails, for every such id: a saved document whose id has a second
      part is hidden from Retrieve of all documents, and Delete of all
      documents of a user removes the objects of every user whose id
      extends [<user>/documents/].
    - Refinement: on a reliable store and for ids without separator, each
      handler answers what the library answers and leaves a bucket that
      represents the library after the operation ([op_step]); so does
      every sequence of operations ([ops_refine]); Retrieve of all
      documents answers the documents of the user in the library, in
      some order; two documents saved for a user who had none are
      retrieved as two.  Faults are outside this theorem: a failed second
      upload leaves a bucket that represents no library.
    - Concurrency: what every call of a handler keeps holds along every
      interleaving and under every schedule of faults, by induction on the
      steps (Retrieves change nothing, Saves and Retrieves remove nothing,
      Deletes and Retrieves write nothing); schedules exhibit the races
      the handlers do not guard against, for every pair of requests for
      one document: two Saves both answer 200 and leave the chunks of
      one beside the metadata of the other; a Delete that lists between
      the uploads of a Save leaves the metadata without the chunks, so
      that both answer 200 and the document is not found.
    - Proxy: what is posted, how often, and the answer for every outcome
      of the remote.

    Theorems with hypotheses are applied to the data of [Samples] by
    lemmas named [_witness]; the definitions are executable, so these and
    the examples are checked by evaluation.

    ** Bounds

    Handlers are finite trees, so [run] needs no fuel.  The decoder
    [parse_value] recurses on a fuel, one unit a value, item or pair;
    [loads] gives it the length of the text plus one, which
    [json_size_dump] shows is enough for any text of the encoder; on
    another text, running out of fuel is reported as a decoding error.
    Text and strings range over code points below 256.  A float is the
    text of its literal: it is printed as that text, and it is falsy
    when the digits of its mantissa are all zero ([float_zero]).
    Integers are unbounded, as in Python.

    ** What is not modelled

    [print] (output only), the construction of the storage client and the
    registration with the functions framework, and the serialisation of a
    response body by [jsonify].  The store serves one call at a time: a
    call is atomic, and concurrency is the interleaving of calls.  A
    listing is one call that returns every name; the client fetches it
    page by page while the loop runs.  A call addresses an object by its
    name; the client deletes and downloads a listed blob at the
    generation that was listed, so a deletion of an object that was
    overwritten since its listing fails there and succeeds here.  That
    failure is a fault of the schedule of faults, so the theorems that
    hold under every schedule of faults cover it; one handler running
    alone writes nothing between its listing and its deletions, and
    neither do the schedules of [Races].  A dict is a list of pairs in
    insertion order; a list with a repeated key stands for no dict of
    Python, and the theorems on requests hold for such lists as well. *)

From Stdlib Require Export Ascii String.
From stdpp Require Export base tactics option list strings gmap sorting pretty.

(** ** Hint database and tactics of the development *)

Create HintDb docstore discriminated.
Create Rewrite HintDb pystr.

(** Case analysis on the scrutinee of the first [match] or [if] of the
    goal, keeping the equation. *)
Ltac case_scrutinee :=
  match goal with
  | |- context [match ?x with _ => _ end] =>
      lazymatch x with
      | context [match _ with _ => _ end] => fail
      | _ => let E := fresh "E" in destruct x eqn:E
      end
  end.

(** Closed goals on concrete data: evaluate, then conclude. *)
Ltac by_compute := vm_compute; first [reflexivity | done | lia | by repeat split].

(** ** Results: a value or an error *)

Inductive result (E A : Type) : Type :=
| Ok (a : A)
| Err (e : E).
Arguments Ok {E A} a.
Arguments Err {E A} e.

Definition result_bind {E A B} (r : result E A) (k : A → result E B) : result E B :=
  match r with
  | Ok a => k a
  | Err e => Err e
  end.

Definition is_ok {E A} (r : result E A) : bool :=
  match r with Ok _ => true | Err _ => false end.

Declare Scope result_scope.
Delimit Scope result_scope with result.
Notation "x ←? r ; k" := (result_bind r (λ x, k))
  (at level 20, r at level 100, k at level 200, right associativity,
   format "x  ←?  r ;  '/' k") : result_scope.

#[export] Instance result_eq_dec `{EqDecision E, EqDecision A} : EqDecision (result E A).
Proof. solve_decision. Defined.

Lemma result_bind_ok {E A B} (r : result E A) (k : A → result E B) b :
  result_bind r k = Ok b ↔ ∃ a, r = Ok a ∧ k a = Ok b.
Proof. destruct r; naive_solver. Qed.

Lemma result_bind_assoc {E A B C} (r : result E A)
    (k : A → result E B) (h : B → result E C) :
  result_bind (result_bind r k) h = result_bind r (λ a, result_bind (k a) h).
Proof. by destruct r. Qed.

(** ** Strings *)

Lemma string_app_nil_l (s : string) : EmptyString +:+ s = s.
Proof. done. Qed.

Lemma string_app_cons c (s t : string) : String c s +:+ t = String c (s +:+ t).
Proof. done. Qed.

Lemma string_app_nil_r (s : string) : s +:+ EmptyString = s.
Proof. induction s as [|c s IH]; [done|]. by rewrite string_app_cons, IH. Qed.

Lemma string_app_assoc (s t u : string) : (s +:+ t) +:+ u = s +:+ (t +:+ u).
Proof. induction s as [|c s IH]; [done|]. by rewrite !string_app_cons, IH. Qed.

Lemma string_app_length (s t : string) :
  String.length (s +:+ t) = String.length s + String.length t.
Proof. induction s as [|c s IH]; [done|]. rewrite string_app_cons. cbn. by rewrite IH. Qed.

(** [String.prefix p s] holds exactly when [s] extends [p]. *)
Lemma string_prefix_spec (p s : string) :
  String.prefix p s = true ↔ ∃ r, s = p +:+ r.
Proof.
  revert s. induction p as [|c p IH]; intros s.
  - split; [by exists s|by destruct s].
  - destruct s as [|c' s]; cbn.
    + split; [done|]. by intros [r ?].
    + destruct (ascii_dec c c') as [->|Hc].
      * rewrite IH. split; intros [r Hr]; exists r.
        -- by rewrite string_app_cons, Hr.
        -- rewrite string_app_cons in Hr. by injection Hr.
      * split; [done|]. intros [r Hr]. rewrite string_app_cons in Hr.
        injection Hr as ??. by subst.
Qed.

#[export] Hint Rewrite string_app_nil_l string_app_nil_r string_app_assoc : pystr.

(** ** Lists *)

(** Counting through a map: the elements that satisfy [P] are as many as
    the images that satisfy [Q], when [P] is [Q] of the image on the
    list. *)
Lemma length_filter_fmap {A B} (g : A → B) (P : A → Prop) (Q : B → Prop)
    `{∀ x, Decision (P x), ∀ y, Decision (Q y)} (l : list A) :
  Forall (λ x, P x ↔ Q (g x)) l →
  length (filter P l) = length (filter Q (g <$> l)).
Proof.
  induction 1 as [|x l Hx _ IH]; [done|]. rewrite fmap_cons, !filter_cons.
  destruct (decide (P x)), (decide (Q (g x))); cbn; [by rewrite IH|tauto..|done].
Qed.
