(* ===== verification/PyStr.v ===== *)
(** * PyStr: the Python [str] operations the handlers use

    The handlers build object names with f-strings (concatenation), take
    them apart with [name.split('/')], and the object store selects names
    with a prefix test.  This file models those three operations on
    [string] and proves the facts the key-space needs: [split] has a left
    inverse [join], it distributes over a separator, and it is the identity
    on a string without separator. *)

From S2P Require Import Prelude.

(** ** Operations *)

(** [s.split(sep)] for a one-character separator: every occurrence of
    [sep] ends a part, so the result has one part more than [s] has
    separators and is never empty. *)
Fixpoint split (sep : ascii) (s : string) : list string :=
  match s with
  | EmptyString => [EmptyString]
  | String c s' =>
      if decide (c = sep) then EmptyString :: split sep s'
      else match split sep s' with
           | [] => [String c EmptyString]
           | p :: ps => String c p :: ps
           end
  end.

(** [sep.join(parts)], the inverse of [split] (used in statements only). *)
Fixpoint join (sep : ascii) (parts : list string) : string :=
  match parts with
  | [] => EmptyString
  | [p] => p
  | p :: ps => p +:+ String sep (join sep ps)
  end.

(** [c in s] for a character [c]. *)
Fixpoint has_char (c : ascii) (s : string) : bool :=
  match s with
  | EmptyString => false
  | String c' s' => bool_decide (c' = c) || has_char c s'
  end.

(** Number of occurrences of [c] in [s] ([s.count(c)]). *)
Fixpoint count_char (c : ascii) (s : string) : nat :=
  match s with
  | EmptyString => 0
  | String c' s' => (if decide (c' = c) then 1 else 0) + count_char c s'
  end.

(** [s.startswith(p)]: the test the object store applies to a listing
    prefix. *)
Definition startswith (s p : string) : bool := String.prefix p s.

(** [needle in hay] for two strings: substring containment. *)
Fixpoint str_contains (needle hay : string) : bool :=
  String.prefix needle hay ||
  match hay with
  | EmptyString => false
  | String _ hay' => str_contains needle hay'
  end.

(** A string is free of [c] when [c] does not occur in it. *)
Definition char_free (c : ascii) (s : string) : Prop := has_char c s = false.

#[export] Instance char_free_dec c s : Decision (char_free c s).
Proof. unfold char_free. apply _. Defined.

(** ** [startswith] *)

Lemma startswith_spec s p : startswith s p = true ↔ ∃ r, s = p +:+ r.
Proof. apply string_prefix_spec. Qed.

Lemma startswith_app p r : startswith (p +:+ r) p = true.
Proof. apply startswith_spec. eauto. Qed.

Lemma startswith_app_l p q s :
  startswith (p +:+ s) (p +:+ q) = startswith s q.
Proof.
  unfold startswith. induction p as [|c p IH]; [done|].
  rewrite !string_app_cons. cbn. by destruct (ascii_dec c c).
Qed.

Lemma startswith_trans s p q :
  startswith s p = true → startswith p q = true → startswith s q = true.
Proof.
  rewrite !startswith_spec. intros [r ->] [r' ->].
  exists (r' +:+ r). by rewrite string_app_assoc.
Qed.

(** ** [has_char] and [count_char] *)

Lemma has_char_app c s t : has_char c (s +:+ t) = has_char c s || has_char c t.
Proof.
  induction s as [|c' s IH]; [done|].
  rewrite string_app_cons. cbn. rewrite IH. by rewrite orb_assoc.
Qed.

Lemma char_free_app c s t : char_free c (s +:+ t) ↔ char_free c s ∧ char_free c t.
Proof. unfold char_free. rewrite has_char_app. apply orb_false_iff. Qed.

Lemma has_char_count c s : has_char c s = false ↔ count_char c s = 0.
Proof.
  induction s as [|c' s IH]; [done|]. cbn.
  case_decide; [rewrite bool_decide_eq_true_2 by done
               |rewrite bool_decide_eq_false_2 by done]; cbn; [lia|done].
Qed.

(** ** [split] *)

Lemma split_nonempty sep s : split sep s ≠ [].
Proof.
  destruct s as [|c s]; [done|]. cbn.
  case_decide; [done|]. by destruct (split sep s).
Qed.

Lemma split_cons_sep sep s : split sep (String sep s) = EmptyString :: split sep s.
Proof. cbn. by rewrite decide_True. Qed.

Lemma split_cons_other sep c s :
  c ≠ sep →
  split sep (String c s) =
    String c (hd EmptyString (split sep s)) :: tail (split sep s).
Proof.
  intros Hc. cbn. rewrite decide_False by done.
  pose proof (split_nonempty sep s). by destruct (split sep s).
Qed.

(** A string without separator is its only part. *)
Lemma split_char_free sep s : char_free sep s → split sep s = [s].
Proof.
  unfold char_free. induction s as [|c s IH]; [done|]. cbn.
  intros [Hc Hs]%orb_false_iff. apply bool_decide_eq_false in Hc.
  rewrite decide_False by done. by rewrite IH.
Qed.

(** [split] distributes over a separator: the parts of [a/b] are the
    parts of [a] followed by the parts of [b], whatever [a] and [b] hold. *)
Lemma split_app_sep sep a b :
  split sep (a +:+ String sep b) = split sep a ++ split sep b.
Proof.
  induction a as [|c a IH].
  - by rewrite string_app_nil_l, split_cons_sep.
  - rewrite string_app_cons. destruct (decide (c = sep)) as [->|Hc].
    + by rewrite !split_cons_sep, IH.
    + rewrite !split_cons_other, IH by done.
      pose proof (split_nonempty sep a). by destruct (split sep a).
Qed.

(** The number of parts is the number of separators plus one. *)
Lemma length_split sep s : length (split sep s) = S (count_char sep s).
Proof.
  induction s as [|c s IH]; [done|]. cbn.
  case_decide; cbn; [by rewrite IH|].
  pose proof (split_nonempty sep s). destruct (split sep s); naive_solver.
Qed.

(** No part holds a separator. *)
Lemma split_parts_free sep s : Forall (char_free sep) (split sep s).
Proof.
  induction s as [|c s IH]; [by repeat constructor|]. cbn.
  case_decide; [by constructor|].
  pose proof (split_nonempty sep s).
  destruct (split sep s) as [|p ps]; [done|].
  apply Forall_cons in IH as [Hp Hps]. constructor; [|done].
  unfold char_free in *. cbn. by rewrite Hp, bool_decide_eq_false_2.
Qed.

(** ** [join] *)

Lemma join_cons sep p q ps :
  join sep (p :: q :: ps) = p +:+ String sep (join sep (q :: ps)).
Proof. done. Qed.

(** [join] undoes [split]. *)
Lemma join_split sep s : join sep (split sep s) = s.
Proof.
  induction s as [|c s IH]; [done|]. cbn.
  pose proof (split_nonempty sep s).
  case_decide; subst.
  - destruct (split sep s) as [|p ps]; [done|].
    by rewrite join_cons, string_app_nil_l, IH.
  - destruct (split sep s) as [|p [|q ps]]; [done|..].
    + cbn in *. by subst.
    + rewrite join_cons in *. rewrite string_app_cons. by rewrite IH.
Qed.

(** [split] undoes [join] on separator-free parts. *)
Lemma split_join sep parts :
  parts ≠ [] → Forall (char_free sep) parts →
  split sep (join sep parts) = parts.
Proof.
  induction parts as [|p [|q ps] IH]; intros Hne Hfree; [done|..].
  - apply split_char_free. by apply Forall_cons in Hfree as [? _].
  - apply Forall_cons in Hfree as [Hp Hps].
    rewrite join_cons, split_app_sep, IH by done.
    by rewrite split_char_free.
Qed.

(** ** [str_contains] *)

Lemma str_contains_spec needle hay :
  str_contains needle hay = true ↔ ∃ l r, hay = l +:+ needle +:+ r.
Proof.
  induction hay as [|c hay IH]; cbn [str_contains].
  - rewrite orb_false_r, string_prefix_spec. split.
    + intros [r Hr]. exists EmptyString, r. by rewrite string_app_nil_l.
    + intros (l & r & Hlr). destruct l; [|done]. eauto.
  - rewrite orb_true_iff, IH, string_prefix_spec. split.
    + intros [[r Hr]|(l & r & ->)].
      * exists EmptyString, r. by rewrite string_app_nil_l.
      * by exists (String c l), r.
    + intros ([|c' l] & r & Hlr).
      * left. exists r. by rewrite string_app_nil_l in Hlr.
      * right. rewrite string_app_cons in Hlr. injection Hlr as -> ->. eauto.
Qed.

Lemma str_contains_refl s : str_contains s s = true.
Proof.
  apply str_contains_spec. exists EmptyString, EmptyString.
  by rewrite string_app_nil_l, string_app_nil_r.
Qed.

(** ** Cancellation at the first separator *)

(** Two strings that agree up to their first separator agree on both
    sides of it. *)
Lemma app_sep_inj c a a' r r' :
  char_free c a → char_free c a' →
  a +:+ String c r = a' +:+ String c r' → a = a' ∧ r = r'.
Proof.
  unfold char_free. revert a'. induction a as [|x a IH]; intros [|x' a'] Ha Ha';
    rewrite ?string_app_cons, ?string_app_nil_l; cbn in *; intros [= ]; subst.
  - done.
  - by rewrite bool_decide_eq_true_2 in Ha'.
  - by rewrite bool_decide_eq_true_2 in Ha.
  - apply orb_false_iff in Ha as [_ Ha], Ha' as [_ Ha'].
    by destruct (IH a' Ha Ha') as [-> ->].
Qed.

(** A prefix test across a separator splits into equality before it and a
    prefix test after it. *)
Lemma startswith_sep c a a' r r' :
  char_free c a → char_free c a' →
  startswith (a' +:+ String c r') (a +:+ String c r) = true ↔
  a = a' ∧ startswith r' r = true.
Proof.
  intros Ha Ha'. rewrite !startswith_spec. split.
  - intros [x Hx]. rewrite string_app_assoc, string_app_cons in Hx.
    apply app_sep_inj in Hx as [-> ->]; eauto.
  - intros [-> [x ->]]. exists x.
    by rewrite string_app_assoc, string_app_cons.
Qed.
