(* ===== verification/PyDict.v ===== *)
(** * PyDict: Python dicts with string keys

    A Python [dict] keeps its keys in insertion order; assigning to a key
    that is present replaces the value where the key stands, assigning to
    a new key appends it.  The decoded JSON objects and the grouping of a
    listing by document both rely on that order, so a dict is modelled as
    a list of pairs with these two operations. *)

From S2P Require Import Prelude.

Section dict.
Context {V : Type}.

(** [d.get(key)] as an option. *)
Fixpoint dict_lookup (key : string) (d : list (string * V)) : option V :=
  match d with
  | [] => None
  | (k, v) :: d' => if decide (k = key) then Some v else dict_lookup key d'
  end.

(** [d[key] = v] *)
Fixpoint dict_set (key : string) (v : V) (d : list (string * V)) : list (string * V) :=
  match d with
  | [] => [(key, v)]
  | (k, x) :: d' =>
      if decide (k = key) then (k, v) :: d' else (k, x) :: dict_set key v d'
  end.

Lemma dict_lookup_Some_elem key d v :
  dict_lookup key d = Some v → (key, v) ∈ d.
Proof.
  induction d as [|[k x] d IH]; [done|]. cbn.
  case_decide; [intros [= ->]; subst; left|right; auto].
Qed.

Lemma dict_lookup_None key d : dict_lookup key d = None ↔ key ∉ d.*1.
Proof.
  induction d as [|[k x] d IH]; cbn.
  - split; [intros _; apply not_elem_of_nil|done].
  - rewrite not_elem_of_cons. case_decide; naive_solver.
Qed.

Lemma dict_lookup_is_Some key d : is_Some (dict_lookup key d) ↔ key ∈ d.*1.
Proof.
  rewrite <-not_eq_None_Some, dict_lookup_None.
  destruct (decide (key ∈ d.*1)); naive_solver.
Qed.

(** With distinct keys, lookup finds every pair of the dict. *)
Lemma dict_lookup_elem key d v :
  NoDup d.*1 → (key, v) ∈ d → dict_lookup key d = Some v.
Proof.
  induction d as [|[k x] d IH]; cbn; [by intros _ ?%elem_of_nil|].
  intros [Hk Hd]%NoDup_cons [[= -> ->]|Hin]%elem_of_cons.
  - by rewrite decide_True.
  - rewrite decide_False; [by apply IH|]. intros ->. apply Hk.
    apply list_elem_of_fmap. by exists (key, v).
Qed.

Lemma dict_lookup_set_eq key v d : dict_lookup key (dict_set key v d) = Some v.
Proof.
  induction d as [|[k x] d IH]; cbn; [by rewrite decide_True|].
  case_decide; cbn; [by rewrite decide_True|by rewrite decide_False].
Qed.

Lemma dict_lookup_set_ne key key' v d :
  key ≠ key' → dict_lookup key' (dict_set key v d) = dict_lookup key' d.
Proof.
  intros Hne. induction d as [|[k x] d IH]; cbn; [by rewrite decide_False|].
  case_decide; subst; cbn; [by rewrite !decide_False|].
  case_decide; [done|apply IH].
Qed.

Lemma dict_lookup_set key key' v d :
  dict_lookup key' (dict_set key v d) =
    if decide (key = key') then Some v else dict_lookup key' d.
Proof.
  case_decide; subst; [apply dict_lookup_set_eq|by apply dict_lookup_set_ne].
Qed.

(** Assigning to a present key keeps the keys and their order. *)
Lemma dict_set_keys_present key v d :
  key ∈ d.*1 → (dict_set key v d).*1 = d.*1.
Proof.
  induction d as [|[k x] d IH]; cbn; [by intros ?%elem_of_nil|].
  intros Hin. case_decide; subst; cbn; [done|]. f_equal. apply IH.
  by apply elem_of_cons in Hin as [|].
Qed.

(** Assigning to a new key appends it. *)
Lemma dict_set_fresh key v d : key ∉ d.*1 → dict_set key v d = d ++ [(key, v)].
Proof.
  induction d as [|[k x] d IH]; cbn; [done|].
  intros [Hne Hin]%not_elem_of_cons. rewrite decide_False by done.
  f_equal. by apply IH.
Qed.

Lemma dict_set_keys_fresh key v d :
  key ∉ d.*1 → (dict_set key v d).*1 = d.*1 ++ [key].
Proof.
  induction d as [|[k x] d IH]; cbn; [done|].
  intros [Hne Hin]%not_elem_of_cons. rewrite decide_False by done.
  cbn. f_equal. by apply IH.
Qed.

Lemma dict_set_keys key v d :
  (dict_set key v d).*1 = if decide (key ∈ d.*1) then d.*1 else d.*1 ++ [key].
Proof.
  case_decide; [by apply dict_set_keys_present|by apply dict_set_keys_fresh].
Qed.

Lemma NoDup_dict_set key v d : NoDup d.*1 → NoDup (dict_set key v d).*1.
Proof.
  intros Hd. rewrite dict_set_keys. case_decide; [done|].
  apply NoDup_app. split_and!; [done| |apply NoDup_singleton].
  intros k Hk ->%list_elem_of_singleton. done.
Qed.

Lemma elem_of_dict_set_keys key key' v d :
  key' ∈ (dict_set key v d).*1 ↔ key' = key ∨ key' ∈ d.*1.
Proof.
  rewrite dict_set_keys. case_decide; [naive_solver|].
  rewrite elem_of_app, list_elem_of_singleton. naive_solver.
Qed.

End dict.
