(* ===== verification/KeySpace.v ===== *)
(** * KeySpace: object names of a user's documents

    Every stored object lives at
    [users/{userId}/documents/{documentId}/{chunks.json|metadata.json}].
    The three handlers build these names and the listing prefixes with
    f-strings, and the two listing loops recover the document id and the
    file name from the 4th and 5th part of [name.split('/')].  This file
    holds the builders, the parser, and the facts that relate them: what
    the parser returns on a built name for every pair of ids, when that is
    the id the name was built from, and which names a prefix selects. *)

From S2P Require Import Prelude PyStr.

(** ** Builders *)

Definition BUCKET_NAME : string := "myformsnapper-embeddings".

(** [f'users/{user_id}/documents/{document_id}/chunks.json'] *)
Definition chunks_blob_name (user_id document_id : string) : string :=
  "users/" +:+ user_id +:+ "/documents/" +:+ document_id +:+ "/chunks.json".

(** [f'users/{user_id}/documents/{document_id}/metadata.json'] *)
Definition metadata_blob_name (user_id document_id : string) : string :=
  "users/" +:+ user_id +:+ "/documents/" +:+ document_id +:+ "/metadata.json".

(** [f'users/{user_id}/documents/'], the prefix of a user's listing. *)
Definition user_prefix (user_id : string) : string :=
  "users/" +:+ user_id +:+ "/documents/".

(** [f'users/{user_id}/documents/{document_id}/'], the prefix of one
    document's listing. *)
Definition document_prefix (user_id document_id : string) : string :=
  "users/" +:+ user_id +:+ "/documents/" +:+ document_id +:+ "/".

(** [f'gs://{BUCKET_NAME}/{chunks_blob_name}'] *)
Definition storage_url (blob_name : string) : string :=
  "gs://" +:+ BUCKET_NAME +:+ "/" +:+ blob_name.

(** The name of file [file] of a document: both builders are instances. *)
Definition object_name (user_id document_id file : string) : string :=
  "users/" +:+ user_id +:+ "/documents/" +:+ document_id +:+ "/" +:+ file.

(** ** Parser *)

(** [parts = blob.name.split('/')] *)
Definition blob_parts (name : string) : list string := split "/" name.

(** [if len(parts) >= 5: doc_id = parts[3]; file_type = parts[4]] *)
Definition blob_document (name : string) : option (string * string) :=
  let parts := blob_parts name in
  if decide (5 ≤ length parts) then
    doc_id ← parts !! 3; file_type ← parts !! 4; Some (doc_id, file_type)
  else None.

(** The id under which the listing loops group a name. *)
Definition blob_doc_id (name : string) : option string :=
  fst <$> blob_document name.

Abbreviation slash_free := (char_free "/").

(** ** Builders as instances of [object_name] *)

Lemma chunks_blob_name_object u d :
  chunks_blob_name u d = object_name u d "chunks.json".
Proof. done. Qed.

Lemma metadata_blob_name_object u d :
  metadata_blob_name u d = object_name u d "metadata.json".
Proof. done. Qed.

Lemma object_name_document_prefix u d f :
  object_name u d f = document_prefix u d +:+ f.
Proof. unfold object_name, document_prefix. by rewrite !string_app_assoc. Qed.

Lemma document_prefix_user_prefix u d :
  document_prefix u d = user_prefix u +:+ d +:+ "/".
Proof. unfold document_prefix, user_prefix. by rewrite !string_app_assoc. Qed.

Lemma object_name_user_prefix u d f :
  object_name u d f = user_prefix u +:+ d +:+ "/" +:+ f.
Proof. unfold object_name, user_prefix. by rewrite !string_app_assoc. Qed.

(** ** Parts of a built name *)

(** The parts of a built name, for arbitrary ids: the parts of the user id
    sit between ["users"] and ["documents"], the parts of the document id
    and of the file name follow. *)
Lemma blob_parts_object_name u d f :
  blob_parts (object_name u d f) =
    "users" :: split "/" u ++ "documents" :: split "/" d ++ split "/" f.
Proof.
  unfold blob_parts, object_name.
  change ("users/" +:+ ?x) with ("users" +:+ String "/" x).
  change ("/documents/" +:+ ?x) with (String "/" ("documents" +:+ String "/" x)).
  change ("/" +:+ ?x) with (String "/" x).
  by rewrite !split_app_sep.
Qed.

Lemma blob_parts_slash_free u d f :
  slash_free u → slash_free d → slash_free f →
  blob_parts (object_name u d f) = ["users"; u; "documents"; d; f].
Proof.
  intros Hu Hd Hf. rewrite blob_parts_object_name.
  by rewrite !split_char_free.
Qed.

(** With a separator-free user id the 4th part is the first part of the
    document id, and the 5th the part that follows it. *)
Lemma blob_document_object_name u d f :
  slash_free u →
  blob_document (object_name u d f) =
    Some (hd "" (split "/" d), hd "" (tail (split "/" d) ++ split "/" f)).
Proof.
  intros Hu. unfold blob_document. rewrite blob_parts_object_name.
  rewrite (split_char_free _ u) by done.
  pose proof (split_nonempty "/" d). pose proof (split_nonempty "/" f).
  destruct (split "/" d) as [|p [|q ps]], (split "/" f) as [|g gs];
    try done; cbn; rewrite ?length_app; cbn;
    by rewrite decide_True by lia.
Qed.

(** ** Prefixes *)

Lemma startswith_empty s : startswith s "" = true.
Proof. by destruct s. Qed.

Lemma user_prefix_object_name u d f :
  startswith (object_name u d f) (user_prefix u) = true.
Proof. rewrite object_name_user_prefix. apply startswith_app. Qed.

Lemma document_prefix_object_name u d f :
  startswith (object_name u d f) (document_prefix u d) = true.
Proof. rewrite object_name_document_prefix. apply startswith_app. Qed.

Lemma user_prefix_document_prefix u d :
  startswith (document_prefix u d) (user_prefix u) = true.
Proof. rewrite document_prefix_user_prefix. apply startswith_app. Qed.

(** The prefix of a user reaches the objects of every user whose id
    extends [<user>/documents/]. *)
Lemma user_prefix_nested u x d f :
  startswith (object_name (u +:+ "/documents/" +:+ x) d f) (user_prefix u) = true.
Proof.
  apply startswith_spec. exists (x +:+ "/documents/" +:+ d +:+ "/" +:+ f).
  unfold object_name, user_prefix. by rewrite !string_app_assoc.
Qed.

(** ** The parser on built names *)

(** C2. Grouping recovers the document exactly when its id has no
    separator: for a separator-free user id, the listing loops read back
    [(document_id, "chunks.json")] from the name Save built if and only if
    [document_id] holds no ['/']. *)
Theorem blob_document_chunks_blob_name u d :
  slash_free u →
  blob_document (chunks_blob_name u d) = Some (d, "chunks.json") ↔ slash_free d.
Proof.
  intros Hu. rewrite chunks_blob_name_object, blob_document_object_name by done.
  split.
  - intros [= Hd Hf]. pose proof (split_parts_free "/" d) as Hfree.
    pose proof (split_nonempty "/" d).
    destruct (split "/" d) as [|p ps]; [done|].
    apply Forall_cons in Hfree as [Hp _]. cbn in Hd. by subst.
  - intros Hd. by rewrite split_char_free.
Qed.

Lemma blob_document_chunks_blob_name_witness :
  blob_document (chunks_blob_name "user_123" "doc_456")
    = Some ("doc_456", "chunks.json") ↔ slash_free "doc_456".
Proof. apply (blob_document_chunks_blob_name "user_123" "doc_456"). reflexivity. Defined.

(** The same for the metadata object. *)
Theorem blob_document_metadata_blob_name u d :
  slash_free u →
  blob_document (metadata_blob_name u d) = Some (d, "metadata.json") ↔ slash_free d.
Proof.
  intros Hu. rewrite metadata_blob_name_object, blob_document_object_name by done.
  split.
  - intros [= Hd Hf]. pose proof (split_parts_free "/" d) as Hfree.
    pose proof (split_nonempty "/" d).
    destruct (split "/" d) as [|p ps]; [done|].
    apply Forall_cons in Hfree as [Hp _]. cbn in Hd. by subst.
  - intros Hd. by rewrite split_char_free.
Qed.

Lemma blob_document_metadata_blob_name_witness :
  blob_document (metadata_blob_name "user_123" "doc_456")
    = Some ("doc_456", "metadata.json") ↔ slash_free "doc_456".
Proof. apply (blob_document_metadata_blob_name "user_123" "doc_456"). reflexivity. Defined.

(** A document id with a separator is grouped under its first part, and
    its file is read as the part that follows. *)
Example blob_document_slash :
  blob_document (chunks_blob_name "u" "a/b") = Some ("a", "b").
Proof. reflexivity. Qed.

(** ** Which names a prefix selects *)

(** A document's prefix selects the objects of that document and of no
    other, among separator-free ids. *)
Theorem document_prefix_selects u d u' d' f :
  slash_free u → slash_free d → slash_free u' → slash_free d' →
  startswith (object_name u' d' f) (document_prefix u d) = true ↔ u = u' ∧ d = d'.
Proof.
  intros Hu Hd Hu' Hd'. unfold object_name, document_prefix.
  rewrite startswith_app_l.
  change ("/documents/" +:+ ?x) with (String "/" ("documents/" +:+ x)).
  rewrite startswith_sep, startswith_app_l by done.
  change ("/" +:+ ?x) with (String "/" x).
  change (String "/" "") with (String "/" ("" +:+ "")).
  rewrite (startswith_sep "/" d d' "" f) by done.
  rewrite startswith_empty. naive_solver.
Qed.

Lemma document_prefix_selects_witness :
  startswith (object_name "bob" "doc_1" "chunks.json") (document_prefix "alice" "doc_1") = true
  ↔ "alice" = "bob" ∧ "doc_1" = "doc_1".
Proof. apply document_prefix_selects; reflexivity. Defined.

(** A user's prefix selects the objects of that user and of no other,
    among separator-free user ids (the document id is arbitrary). *)
Theorem user_prefix_selects u u' d' f :
  slash_free u → slash_free u' →
  startswith (object_name u' d' f) (user_prefix u) = true ↔ u = u'.
Proof.
  intros Hu Hu'. unfold object_name, user_prefix. rewrite startswith_app_l.
  change ("/documents/" +:+ ?x) with (String "/" ("documents/" +:+ x)).
  change (String "/" "documents/") with (String "/" ("documents/" +:+ "")).
  rewrite startswith_sep, startswith_app_l, startswith_empty by done.
  naive_solver.
Qed.

Lemma user_prefix_selects_witness :
  startswith (object_name "bob" "a/b" "chunks.json") (user_prefix "alice") = true
  ↔ "alice" = "bob".
Proof. apply user_prefix_selects; reflexivity. Defined.

(** Without that restriction a user's prefix reaches into another user's
    objects: the listing of user ["x"] holds the chunks of document ["d"]
    of user ["x/documents/q"]. *)
Example user_prefix_leaks :
  startswith (chunks_blob_name "x/documents/q" "d") (user_prefix "x") = true.
Proof. reflexivity. Qed.

(** ** Names are injective *)

(** Distinct documents have distinct objects, among separator-free ids. *)
Theorem object_name_inj u d f u' d' f' :
  slash_free u → slash_free d → slash_free u' → slash_free d' →
  object_name u d f = object_name u' d' f' → u = u' ∧ d = d' ∧ f = f'.
Proof.
  intros Hu Hd Hu' Hd'. unfold object_name. intros H%(inj _).
  change ("/documents/" +:+ ?x) with (String "/" ("documents/" +:+ x)) in H.
  apply app_sep_inj in H as [-> H%(inj _)]; [|done..].
  change ("/" +:+ ?x) with (String "/" x) in H.
  by apply app_sep_inj in H as [-> ->].
Qed.

Lemma object_name_inj_witness :
  "u1" = "u1" ∧ "d1" = "d1" ∧ "chunks.json" = "chunks.json".
Proof.
  apply (object_name_inj "u1" "d1" "chunks.json" "u1" "d1" "chunks.json");
    reflexivity.
Defined.

(** The last part of a built name is its file name. *)
Lemma last_blob_parts u d f :
  slash_free f → last (blob_parts (object_name u d f)) = Some f.
Proof.
  intros Hf. rewrite blob_parts_object_name, (split_char_free _ f) by done.
  rewrite !app_comm_cons, app_assoc. apply last_snoc.
Qed.

(** The two objects of a document never share a name. *)
Lemma chunks_metadata_distinct u d u' d' :
  chunks_blob_name u d ≠ metadata_blob_name u' d'.
Proof.
  intros H%(f_equal (last ∘ blob_parts)). cbn in H.
  rewrite chunks_blob_name_object, metadata_blob_name_object in H.
  by rewrite !last_blob_parts in H.
Qed.
