(* ===== verification/Json.v ===== *)
(** * Json: Python values of a decoded JSON body, and the builtins on them

    [request.get_json] and [json.loads] deliver Python objects: [None],
    [bool], [int], [float], [str], [list] and [dict].  The handlers apply
    Python builtins to them before any validation has happened: truth
    tests ([if not request_json], [if document_id]), [in], subscripting,
    [.get], [isinstance(_, list)], [len], f-string formatting and
    [list.extend].  Each is defined here on every value, with the exception
    Python raises where it raises one.

    Strings range over code points below 256 (one [ascii] each).  A float
    is kept as the literal [repr] prints for it: the handlers never compute
    with floats, they store and return them. *)

From S2P Require Import Prelude PyStr PyDict.

(** ** Values *)

Inductive json : Type :=
| JNull
| JBool (b : bool)
| JInt (n : Z)
| JFloat (lit : string)
| JStr (s : string)
| JArr (items : list json)
| JObj (fields : list (string * json)).

(** ** Exceptions *)

Inductive exn_class : Type :=
| TypeError
| KeyError
| AttributeError
| JSONDecodeError
| NotFound
| Conflict
| ServiceUnavailable
| ConnectionError.

(** An exception: its class and [str(e)]. *)
Record exn : Type := Exn { exn_class_of : exn_class; exn_str : string }.

#[export] Instance exn_class_eq_dec : EqDecision exn_class.
Proof. solve_decision. Defined.
#[export] Instance exn_eq_dec : EqDecision exn.
Proof. solve_decision. Defined.

(** The result of a Python expression: a value or a raised exception. *)
Abbreviation res := (result exn).

(** ** Structure of values *)

(** Induction with the hypothesis on every item and every field. *)
Section json_ind.
Context (P : json → Prop).
Context (Hnull : P JNull) (Hbool : ∀ b, P (JBool b)) (Hint : ∀ n, P (JInt n)).
Context (Hfloat : ∀ l, P (JFloat l)) (Hstr : ∀ s, P (JStr s)).
Context (Harr : ∀ xs, Forall P xs → P (JArr xs)).
Context (Hobj : ∀ kvs, Forall (λ kv, P kv.2) kvs → P (JObj kvs)).

Fixpoint json_ind' (v : json) : P v :=
  match v with
  | JNull => Hnull
  | JBool b => Hbool b
  | JInt n => Hint n
  | JFloat l => Hfloat l
  | JStr s => Hstr s
  | JArr xs =>
      Harr xs ((fix go xs : Forall P xs :=
                  match xs with
                  | [] => @List.Forall_nil _ _
                  | x :: xs => @List.Forall_cons _ _ x xs (json_ind' x) (go xs)
                  end) xs)
  | JObj kvs =>
      Hobj kvs ((fix go kvs : Forall (λ kv, P kv.2) kvs :=
                   match kvs with
                   | [] => @List.Forall_nil _ _
                   | kv :: kvs => @List.Forall_cons _ _ kv kvs (json_ind' kv.2) (go kvs)
                   end) kvs)
  end.
End json_ind.

Fixpoint json_eqb (v w : json) : bool :=
  match v, w with
  | JNull, JNull => true
  | JBool a, JBool b => bool_decide (a = b)
  | JInt a, JInt b => bool_decide (a = b)
  | JFloat a, JFloat b => bool_decide (a = b)
  | JStr a, JStr b => bool_decide (a = b)
  | JArr xs, JArr ys =>
      (fix go xs ys :=
         match xs, ys with
         | [], [] => true
         | x :: xs, y :: ys => json_eqb x y && go xs ys
         | _, _ => false
         end) xs ys
  | JObj xs, JObj ys =>
      (fix go xs ys :=
         match xs, ys with
         | [], [] => true
         | (k, x) :: xs, (l, y) :: ys =>
             bool_decide (k = l) && json_eqb x y && go xs ys
         | _, _ => false
         end) xs ys
  | _, _ => false
  end.

Lemma json_eqb_eq v w : json_eqb v w = true ↔ v = w.
Proof.
  revert w. induction v as [| | | | |xs IH|kvs IH] using json_ind';
    intros [| | | | |ys|ys]; cbn; rewrite ?bool_decide_eq_true;
    try (split; congruence).
  - revert ys. induction IH as [|x xs Hx _ IHxs]; intros [|y ys];
      try (split; congruence).
    rewrite andb_true_iff, Hx, IHxs. split; [intros [-> [= ->]]|intros [= -> ->]]; done.
  - revert ys. induction IH as [|[k x] xs Hx _ IHxs]; intros [|[l y] ys];
      try (split; congruence).
    rewrite !andb_true_iff, bool_decide_eq_true. cbn in Hx. rewrite Hx, IHxs.
    split; [intros [[-> ->] [= ->]]|intros [= -> -> ->]]; done.
Qed.

#[export] Instance json_eq_dec : EqDecision json.
Proof.
  intros v w. destruct (json_eqb v w) eqn:E.
  - left. by apply json_eqb_eq.
  - right. intros H%json_eqb_eq. congruence.
Defined.

(** ** Builtins *)

(** [type(v).__name__], as Python's error messages print it. *)
Definition type_name (v : json) : string :=
  match v with
  | JNull => "NoneType"
  | JBool _ => "bool"
  | JInt _ => "int"
  | JFloat _ => "float"
  | JStr _ => "str"
  | JArr _ => "list"
  | JObj _ => "dict"
  end.

(** The part of a float literal before its exponent. *)
Fixpoint mantissa (lit : string) : string :=
  match lit with
  | EmptyString => EmptyString
  | String c rest =>
      if bool_decide (c = "e" ∨ c = "E")%char then EmptyString
      else String c (mantissa rest)
  end.

Fixpoint all_chars (P : ascii → bool) (s : string) : bool :=
  match s with
  | EmptyString => true
  | String c rest => P c && all_chars P rest
  end.

(** A float literal that denotes zero, however it is written ([0.0],
    [-0.0], [0.00], [0e5]): its mantissa has a digit and no digit other
    than 0.  The literals [nan], [inf] and [-inf] do not. *)
Definition float_zero (lit : string) : bool :=
  has_char "0" (mantissa lit)
  && all_chars (λ c, bool_decide (c ∈ ["0"; "-"; "+"; "."]%char)) (mantissa lit).

(** [bool(v)]: the truth test of [if v] and [not v]. *)
Definition truthy (v : json) : bool :=
  match v with
  | JNull => false
  | JBool b => b
  | JInt n => negb (bool_decide (n = 0%Z))
  | JFloat lit => negb (float_zero lit)
  | JStr s => negb (bool_decide (s = ""))
  | JArr xs => negb (bool_decide (xs = []))
  | JObj kvs => negb (bool_decide (kvs = []))
  end.

(** [repr(s)] of a string: single quotes unless the string holds one and
    no double quote; backslash, the quote, tab, newline and return are
    escaped, and the non-printable code points are written [\xNN]. *)
Definition hex_digit (n : N) : ascii :=
  match n with
  | 0 => "0" | 1 => "1" | 2 => "2" | 3 => "3" | 4 => "4" | 5 => "5"
  | 6 => "6" | 7 => "7" | 8 => "8" | 9 => "9" | 10 => "a" | 11 => "b"
  | 12 => "c" | 13 => "d" | 14 => "e" | _ => "f"
  end%N%char.

Definition printable (c : ascii) : bool :=
  let n := N_of_ascii c in
  negb ((n <? 32) || ((127 <=? n) && (n <=? 160)) || (n =? 173))%N.

Definition repr_char (quote c : ascii) : string :=
  if decide (c = "\"%char) then "\\"
  else if decide (c = quote) then String "\" (String quote "")
  else if decide (c = "009"%char) then "\t"
  else if decide (c = "010"%char) then "\n"
  else if decide (c = "013"%char) then "\r"
  else if printable c then String c ""
  else let n := N_of_ascii c in
       String "\" (String "x" (String (hex_digit (n / 16)) (String (hex_digit (n mod 16)) "")))%N.

Fixpoint repr_chars (quote : ascii) (s : string) : string :=
  match s with
  | EmptyString => EmptyString
  | String c s' => repr_char quote c +:+ repr_chars quote s'
  end.

Definition dquote : ascii := "034"%char.

Definition repr_str (s : string) : string :=
  let quote := if has_char "'" s && negb (has_char dquote s) then dquote else "'"%char in
  String quote (repr_chars quote s) +:+ String quote "".

(** [', '.join(parts)] *)
Fixpoint comma_join (parts : list string) : string :=
  match parts with
  | [] => ""
  | [p] => p
  | p :: ps => p +:+ ", " +:+ comma_join ps
  end.

(** [repr(v)] *)
Fixpoint py_repr (v : json) : string :=
  match v with
  | JNull => "None"
  | JBool true => "True"
  | JBool false => "False"
  | JInt n => pretty n
  | JFloat lit => lit
  | JStr s => repr_str s
  | JArr xs => "[" +:+ comma_join (map py_repr xs) +:+ "]"
  | JObj kvs =>
      "{" +:+ comma_join (map (λ kv, repr_str kv.1 +:+ ": " +:+ py_repr kv.2) kvs) +:+ "}"
  end.

(** [str(v)], which is what [f'{v}'] inserts: a string as it is, anything
    else as its [repr]. *)
Definition py_str (v : json) : string :=
  match v with
  | JStr s => s
  | _ => py_repr v
  end.

(** [key in v] for a string [key]: membership among the keys of a dict or
    the items of a list, containment in a string, [TypeError] otherwise. *)
Definition py_in (key : string) (v : json) : res bool :=
  match v with
  | JObj kvs => Ok (bool_decide (is_Some (dict_lookup key kvs)))
  | JArr xs => Ok (bool_decide (JStr key ∈ xs))
  | JStr s => Ok (str_contains key s)
  | _ => Err (Exn TypeError ("argument of type '" +:+ type_name v +:+ "' is not iterable"))
  end.

(** [v[key]] for a string [key]. *)
Definition py_getitem (v : json) (key : string) : res json :=
  match v with
  | JObj kvs =>
      match dict_lookup key kvs with
      | Some x => Ok x
      | None => Err (Exn KeyError (repr_str key))
      end
  | JArr _ => Err (Exn TypeError "list indices must be integers or slices, not str")
  | JStr _ => Err (Exn TypeError "string indices must be integers, not 'str'")
  | _ => Err (Exn TypeError ("'" +:+ type_name v +:+ "' object is not subscriptable"))
  end.

(** [v.get(key)]: the field, [None] for a missing one; only a dict has the
    method. *)
Definition py_get (v : json) (key : string) : res json :=
  match v with
  | JObj kvs => Ok (default JNull (dict_lookup key kvs))
  | _ => Err (Exn AttributeError
                ("'" +:+ type_name v +:+ "' object has no attribute 'get'"))
  end.

(** [isinstance(v, list)] *)
Definition isinstance_list (v : json) : bool :=
  match v with JArr _ => true | _ => false end.

(** [len(v)] *)
Definition py_len (v : json) : res nat :=
  match v with
  | JArr xs => Ok (length xs)
  | JObj kvs => Ok (length kvs)
  | JStr s => Ok (String.length s)
  | _ => Err (Exn TypeError ("object of type '" +:+ type_name v +:+ "' has no len()"))
  end.

(** The characters of a string as one-character strings. *)
Fixpoint str_chars (s : string) : list json :=
  match s with
  | EmptyString => []
  | String c s' => JStr (String c "") :: str_chars s'
  end.

(** [iter(v)], which [acc.extend(v)] consumes: the items of a list, the
    keys of a dict, the characters of a string. *)
Definition py_iter (v : json) : res (list json) :=
  match v with
  | JArr xs => Ok xs
  | JObj kvs => Ok (JStr <$> kvs.*1)
  | JStr s => Ok (str_chars s)
  | _ => Err (Exn TypeError ("'" +:+ type_name v +:+ "' object is not iterable"))
  end.

(** [acc.extend(v)] *)
Definition py_extend (acc : list json) (v : json) : res (list json) :=
  match py_iter v with
  | Ok xs => Ok (acc ++ xs)
  | Err e => Err e
  end.

(** ** Facts *)

Example truthy_floats :
  truthy <$> [JFloat "0.0"; JFloat "-0.0"; JFloat "0.00"; JFloat "0e0"; JFloat "-0.0E+5";
              JFloat "1e-3"; JFloat "0.25"; JFloat "10.0"; JFloat "nan"; JFloat "-inf"]
  = [false; false; false; false; false; true; true; true; true; true].
Proof. reflexivity. Qed.

Lemma truthy_JObj_cons k v kvs : truthy (JObj ((k, v) :: kvs)) = true.
Proof. done. Qed.

Lemma truthy_JStr s : truthy (JStr s) = true ↔ s ≠ "".
Proof. cbn. rewrite negb_true_iff, bool_decide_eq_false. done. Qed.

Lemma truthy_JArr xs : truthy (JArr xs) = true ↔ xs ≠ [].
Proof. cbn. rewrite negb_true_iff, bool_decide_eq_false. done. Qed.

Lemma py_str_JStr s : py_str (JStr s) = s.
Proof. done. Qed.

Lemma py_in_dict key kvs :
  py_in key (JObj kvs) = Ok (bool_decide (key ∈ kvs.*1)).
Proof.
  cbn. f_equal. apply bool_decide_ext.
  rewrite <-not_eq_None_Some, dict_lookup_None.
  destruct (decide (key ∈ kvs.*1)); naive_solver.
Qed.

(** A key that is [in] a dict can be read, and [.get] agrees with it. *)
Lemma py_getitem_in key kvs :
  py_in key (JObj kvs) = Ok true →
  ∃ v, py_getitem (JObj kvs) key = Ok v ∧ py_get (JObj kvs) key = Ok v.
Proof.
  cbn. intros [= [v Hv]%bool_decide_eq_true]. exists v. by rewrite Hv.
Qed.

Lemma py_extend_list acc xs : py_extend acc (JArr xs) = Ok (acc ++ xs).
Proof. done. Qed.

(** A request that is not a dict and passes the truth test never yields a
    field: subscripting raises. *)
Lemma py_getitem_not_dict v key :
  (∀ kvs, v ≠ JObj kvs) → ∃ e, py_getitem v key = Err e ∧ exn_class_of e = TypeError.
Proof. destruct v; cbn; naive_solver. Qed.
