(* ===== verification/Prog.v ===== *)
(** * Prog: handlers as trees of service calls

    A handler is straight-line Python around calls to a remote service,
    with [try]/[except] and [for] loops over finite lists.  It is modelled
    as a finite tree: a leaf returns a value or raises an exception, a node
    is one call together with what the handler does with its answer, which
    is a value or an exception raised by the call.  The type of calls [E]
    is a parameter: the storage handlers use the calls of the object store,
    the proxy those of an HTTP client.

    A tree is run against a state by a function that answers each call;
    [run] is total because the tree is finite, so every handler returns.
    Two programs are behaviourally equal ([≈]) for an answering function
    when they give the same result and final state from every state. *)

From S2P Require Import Prelude PyStr Json.

(** ** Programs *)

Inductive prog (E : Type → Type) (A : Type) : Type :=
| Ret (a : A)
| Raise (e : exn)
| Vis {R : Type} (ev : E R) (k : res R → prog E A).
Arguments Ret {E A} a.
Arguments Raise {E A} e.
Arguments Vis {E A R} ev k.

Section programs.
Context {E : Type → Type}.

(** Sequencing: [x = p; k x].  An exception of [p] skips [k]. *)
Fixpoint bind {A B} (p : prog E A) (k : A → prog E B) : prog E B :=
  match p with
  | Ret a => k a
  | Raise e => Raise e
  | Vis ev c => Vis ev (λ r, bind (c r) k)
  end.

(** [try: p  except Exception as e: h e] *)
Fixpoint catch {A} (p : prog E A) (h : exn → prog E A) : prog E A :=
  match p with
  | Ret a => Ret a
  | Raise e => h e
  | Vis ev c => Vis ev (λ r, catch (c r) h)
  end.

(** A Python expression that may raise. *)
Definition lift {A} (r : res A) : prog E A :=
  match r with
  | Ok a => Ret a
  | Err e => Raise e
  end.

(** One call: its value, or its exception raised in the caller. *)
Definition call {R} (ev : E R) : prog E R := Vis ev lift.

(** [for x in xs: body x] *)
Fixpoint for_each {X} (xs : list X) (body : X → prog E unit) : prog E unit :=
  match xs with
  | [] => Ret ()
  | x :: xs' => bind (body x) (λ _, for_each xs' body)
  end.

(** A loop that updates local variables [acc]:
    [for x in xs: acc = body acc x]. *)
Fixpoint for_fold {X A} (xs : list X) (acc : A) (body : A → X → prog E A) : prog E A :=
  match xs with
  | [] => Ret acc
  | x :: xs' => bind (body acc x) (λ acc', for_fold xs' acc' body)
  end.

(** A program that makes no call: it returns or raises at once. *)
Definition calls_free {A} (p : prog E A) : Prop :=
  match p with
  | Ret _ | Raise _ => True
  | Vis _ _ => False
  end.

End programs.

#[export] Instance prog_ret {E} : MRet (prog E) := λ A, Ret.
#[export] Instance prog_bind {E} : MBind (prog E) := λ A B k p, bind p k.

(** ** Running a program *)

Section running.
Context {E : Type → Type} {S : Type}.
Context (answer : ∀ R, E R → S → res R * S).

Fixpoint run {A} (p : prog E A) (s : S) : res A * S :=
  match p with
  | Ret a => (Ok a, s)
  | Raise e => (Err e, s)
  | Vis ev k => let '(r, s') := answer _ ev s in run (k r) s'
  end.

(** The state after a run, and its result. *)
Definition exec {A} (p : prog E A) (s : S) : S := (run p s).2.
Definition eval {A} (p : prog E A) (s : S) : res A := (run p s).1.

Lemma run_ret {A} (a : A) s : run (Ret a) s = (Ok a, s).
Proof. done. Qed.

Lemma run_raise {A} e s : run (Raise e : prog E A) s = (Err e, s).
Proof. done. Qed.

Lemma run_lift {A} (r : res A) s : run (lift r) s = (r, s).
Proof. by destruct r. Qed.

Lemma run_call {R} (ev : E R) s : run (call ev) s = answer R ev s.
Proof. cbn. destruct (answer R ev s) as [r s']. apply run_lift. Qed.

Lemma run_bind {A B} (p : prog E A) (k : A → prog E B) s :
  run (bind p k) s =
    match run p s with
    | (Ok a, s') => run (k a) s'
    | (Err e, s') => (Err e, s')
    end.
Proof.
  revert s. induction p as [a|e|R ev c IH]; intros s; cbn; [done..|].
  destruct (answer R ev s) as [r s']. apply IH.
Qed.

Lemma run_mbind {A B} (p : prog E A) (k : A → prog E B) s :
  run (p ≫= k) s =
    match run p s with
    | (Ok a, s') => run (k a) s'
    | (Err e, s') => (Err e, s')
    end.
Proof. apply run_bind. Qed.

Lemma run_catch {A} (p : prog E A) (h : exn → prog E A) s :
  run (catch p h) s =
    match run p s with
    | (Ok a, s') => (Ok a, s')
    | (Err e, s') => run (h e) s'
    end.
Proof.
  revert s. induction p as [a|e|R ev c IH]; intros s; cbn; [done| |].
  - by destruct (run (h e) s).
  - destruct (answer R ev s) as [r s']. apply IH.
Qed.

Lemma run_for_each_nil {X} (body : X → prog E unit) s :
  run (for_each [] body) s = (Ok (), s).
Proof. done. Qed.

Lemma run_for_each_cons {X} x (xs : list X) (body : X → prog E unit) s :
  run (for_each (x :: xs) body) s =
    match run (body x) s with
    | (Ok _, s') => run (for_each xs body) s'
    | (Err e, s') => (Err e, s')
    end.
Proof. cbn [for_each]. apply run_bind. Qed.

Lemma run_for_fold_cons {X A} x (xs : list X) (acc : A) body s :
  run (for_fold (x :: xs) acc body) s =
    match run (body acc x) s with
    | (Ok acc', s') => run (for_fold xs acc' body) s'
    | (Err e, s') => (Err e, s')
    end.
Proof. cbn [for_fold]. apply run_bind. Qed.

(** A loop whose turns leave the state as it is and compute their result
    from it is a fold. *)
Fixpoint fold_res {X A} (f : A → X → res A) (xs : list X) (acc : A) : res A :=
  match xs with
  | [] => Ok acc
  | x :: xs' =>
      match f acc x with
      | Ok acc' => fold_res f xs' acc'
      | Err e => Err e
      end
  end.

Lemma run_for_fold_pure {X A} (P : X → Prop) (f : A → X → res A) xs acc body s :
  Forall P xs →
  (∀ acc x, P x → run (body acc x) s = (f acc x, s)) →
  run (for_fold xs acc body) s = (fold_res f xs acc, s).
Proof.
  intros Hxs Hbody. revert acc.
  induction Hxs as [|x xs Hx _ IH]; intros acc; [done|].
  rewrite run_for_fold_cons, Hbody by done. cbn [fold_res].
  by destruct (f acc x).
Qed.

Lemma fold_res_fmap {X Y A} (g : X → Y) (f : A → Y → res A) xs acc :
  fold_res (λ acc x, f acc (g x)) xs acc = fold_res f (g <$> xs) acc.
Proof.
  revert acc. induction xs as [|x xs IH]; intros acc; [done|].
  cbn. by destruct (f acc (g x)).
Qed.

Lemma fold_res_ext {X A} (P : X → Prop) (f g : A → X → res A) xs acc :
  Forall P xs → (∀ acc x, P x → f acc x = g acc x) →
  fold_res f xs acc = fold_res g xs acc.
Proof.
  intros Hxs Hfg. revert acc.
  induction Hxs as [|x xs Hx _ IH]; intros acc; [done|].
  cbn [fold_res]. rewrite Hfg by done. by destruct (g acc x).
Qed.

(** A program without calls leaves every state as it is. *)
Lemma run_calls_free {A} (p : prog E A) s : calls_free p → (run p s).2 = s.
Proof. by destruct p. Qed.

(** ** Behavioural equality *)

Definition beh_eq {A} (p q : prog E A) : Prop := ∀ s, run p s = run q s.

#[export] Instance beh_eq_equivalence {A} : Equivalence (@beh_eq A).
Proof.
  split.
  - by intros p s.
  - intros p q H s. by rewrite H.
  - intros p q r H1 H2 s. by rewrite H1, H2.
Qed.

#[export] Instance run_proper {A} :
  Proper (beh_eq ==> (=) ==> (=)) (@run A).
Proof. intros p q H s ? <-. apply H. Qed.

#[export] Instance bind_proper {A B} :
  Proper (beh_eq ==> pointwise_relation A beh_eq ==> beh_eq) (@bind E A B).
Proof.
  intros p q Hpq k k' Hk s. rewrite !run_bind, (Hpq s).
  destruct (run q s) as [[a|e] s']; [apply Hk|done].
Qed.

#[export] Instance catch_proper {A} :
  Proper (beh_eq ==> pointwise_relation exn beh_eq ==> beh_eq) (@catch E A).
Proof.
  intros p q Hpq h h' Hh s. rewrite !run_catch, (Hpq s).
  destruct (run q s) as [[a|e] s']; [done|apply Hh].
Qed.

Lemma bind_ret_r {A} (p : prog E A) : beh_eq (bind p Ret) p.
Proof. intros s. rewrite run_bind. by destruct (run p s) as [[a|e] s']. Qed.

Lemma bind_assoc {A B C} (p : prog E A) (k : A → prog E B) (h : B → prog E C) :
  beh_eq (bind (bind p k) h) (bind p (λ a, bind (k a) h)).
Proof.
  intros s. rewrite !run_bind. destruct (run p s) as [[a|e] s']; [|done].
  by rewrite run_bind.
Qed.

Lemma catch_raise_r {A} (p : prog E A) : beh_eq (catch p Raise) p.
Proof. intros s. rewrite run_catch. by destruct (run p s) as [[a|e] s']. Qed.

(** A handler that catches everything never raises. *)
Lemma run_catch_total {A} (p : prog E A) (h : exn → prog E A) s :
  (∀ e s', is_ok (run (h e) s').1 = true) → is_ok (run (catch p h) s).1 = true.
Proof.
  intros Hh. rewrite run_catch. destruct (run p s) as [[a|e] s']; [done|apply Hh].
Qed.

(** ** What a program returns *)

(** Every value the program returns satisfies [Q]. *)
Definition ensures {A} (p : prog E A) (Q : A → Prop) : Prop :=
  ∀ s a s', run p s = (Ok a, s') → Q a.

Lemma ensures_ret {A} (a : A) (Q : A → Prop) : Q a → ensures (Ret a) Q.
Proof. by intros Ha s a' s' [= <- _]. Qed.

Lemma ensures_raise {A} e (Q : A → Prop) : ensures (Raise e) Q.
Proof. by intros s a s'. Qed.

Lemma ensures_lift {A} (r : res A) (Q : A → Prop) :
  (∀ a, r = Ok a → Q a) → ensures (lift r) Q.
Proof. intros Hr s a s'. rewrite run_lift. intros [= -> _]. by apply Hr. Qed.

Lemma ensures_weaken {A} (p : prog E A) (Q Q' : A → Prop) :
  ensures p Q → (∀ a, Q a → Q' a) → ensures p Q'.
Proof. intros Hp HQ s a s' Hrun. eapply HQ, Hp, Hrun. Qed.

Lemma ensures_bind {A B} (p : prog E A) (k : A → prog E B)
    (R : A → Prop) (Q : B → Prop) :
  ensures p R → (∀ a, R a → ensures (k a) Q) → ensures (bind p k) Q.
Proof.
  intros Hp Hk s b s'. rewrite run_bind.
  destruct (run p s) as [[a|e] s1] eqn:Hrun; [|done].
  apply Hk. eapply Hp, Hrun.
Qed.

Lemma ensures_mbind {A B} (p : prog E A) (k : A → prog E B) (Q : B → Prop) :
  (∀ a, ensures (k a) Q) → ensures (p ≫= k) Q.
Proof. intros Hk. apply (ensures_bind p k (λ _, True)); [done|auto]. Qed.

Lemma ensures_mbind_lift {A B} (r : res A) (k : A → prog E B) (Q : B → Prop) :
  (∀ a, r = Ok a → ensures (k a) Q) → ensures (lift r ≫= k) Q.
Proof.
  intros Hk. apply (ensures_bind _ k (λ a, r = Ok a)); [|done].
  by apply ensures_lift.
Qed.

Lemma ensures_catch {A} (p : prog E A) (h : exn → prog E A) (Q : A → Prop) :
  ensures p Q → (∀ e, ensures (h e) Q) → ensures (catch p h) Q.
Proof.
  intros Hp Hh s a s'. rewrite run_catch.
  destruct (run p s) as [[a'|e] s1] eqn:Hrun; [|apply Hh].
  intros [= <- <-]. eapply Hp, Hrun.
Qed.

(** ** Programs that catch everything *)

(** A program whose handler returns never raises. *)
Lemma run_catch_ret {A} (p : prog E A) (f : exn → A) s :
  ∃ a, (run (catch p (λ e, Ret (f e))) s).1 = Ok a.
Proof. rewrite run_catch. destruct (run p s) as [[a|e] s']; eauto. Qed.

(** ** The calls of a program *)

(** Every call the program can make is [allowed]. *)
Fixpoint calls_only {A} (allowed : ∀ R, E R → Prop) (p : prog E A) : Prop :=
  match p with
  | Ret _ | Raise _ => True
  | Vis ev k => allowed _ ev ∧ ∀ r, calls_only allowed (k r)
  end.

Section calls_only_facts.
Context (allowed : ∀ R, E R → Prop).

Lemma calls_only_lift {A} (r : res A) : calls_only allowed (lift r).
Proof. by destruct r. Qed.

Lemma calls_only_call {R} (ev : E R) : allowed R ev → calls_only allowed (call ev).
Proof. intros Hev. split; [done|]. apply calls_only_lift. Qed.

Lemma calls_only_bind {A B} (p : prog E A) (k : A → prog E B) :
  calls_only allowed p → (∀ a, calls_only allowed (k a)) →
  calls_only allowed (bind p k).
Proof.
  intros Hp Hk. induction p as [a|e|R ev c IH]; cbn; [done..|].
  destruct Hp as [Hev Hc]. split; [done|]. intros r. by apply IH.
Qed.

Lemma calls_only_mbind {A B} (p : prog E A) (k : A → prog E B) :
  calls_only allowed p → (∀ a, calls_only allowed (k a)) →
  calls_only allowed (p ≫= k).
Proof. apply calls_only_bind. Qed.

(** What follows a pure step is only met with the value of the step. *)
Lemma calls_only_lift_mbind {A B} (r : res A) (k : A → prog E B) :
  (∀ a, r = Ok a → calls_only allowed (k a)) →
  calls_only allowed (lift r ≫= k).
Proof. destruct r; [|done]. intros Hk. by apply Hk. Qed.

Lemma calls_only_catch {A} (p : prog E A) (h : exn → prog E A) :
  calls_only allowed p → (∀ e, calls_only allowed (h e)) →
  calls_only allowed (catch p h).
Proof.
  intros Hp Hh. induction p as [a|e|R ev c IH]; cbn; [done..|].
  destruct Hp as [Hev Hc]. split; [done|]. intros r. by apply IH.
Qed.

Lemma calls_only_for_each {X} (xs : list X) (body : X → prog E unit) :
  (∀ x, calls_only allowed (body x)) → calls_only allowed (for_each xs body).
Proof.
  intros Hbody. induction xs as [|x xs IH]; [done|].
  cbn [for_each]. by apply calls_only_bind.
Qed.

Lemma calls_only_for_fold {X A} (xs : list X) (acc : A) body :
  (∀ acc x, calls_only allowed (body acc x)) →
  calls_only allowed (for_fold xs acc body).
Proof.
  intros Hbody. revert acc. induction xs as [|x xs IH]; intros acc; [done|].
  cbn [for_fold]. by apply calls_only_bind.
Qed.

(** A property of the state that every allowed call keeps is kept by the
    program, whatever it returns. *)
Lemma calls_only_preserves {A} (p : prog E A) (I : S → Prop) :
  (∀ R ev s, allowed R ev → I s → I (answer R ev s).2) →
  calls_only allowed p → ∀ s, I s → I (run p s).2.
Proof.
  intros Hstep. induction p as [a|e|R ev c IH]; cbn; [done..|].
  intros [Hev Hc] s Hs. specialize (Hstep R ev s Hev Hs).
  destruct (answer R ev s) as [r s1]. by apply IH.
Qed.

End calls_only_facts.

Lemma calls_only_weaken {A} (allowed allowed' : ∀ R, E R → Prop) (p : prog E A) :
  (∀ R ev, allowed R ev → allowed' R ev) →
  calls_only allowed p → calls_only allowed' p.
Proof.
  intros Himpl. induction p as [a|e|R ev c IH]; cbn; [done..|].
  intros [Hev Hc]. split; [by apply Himpl|]. intros r. by apply IH.
Qed.

(** ** Calls under a promise of the service

    What a program does with the answer of a call may be allowed only
    because of what the service promises of its answers: a handler that
    deletes what a listing returned deletes under the listed prefix
    because the listing returns names under it. *)

(** Every call the program can make is [allowed], as long as the answers
    it gets are as [promised]. *)
Fixpoint calls_given {A} (promised : ∀ R, E R → res R → Prop)
    (allowed : ∀ R, E R → Prop) (p : prog E A) : Prop :=
  match p with
  | Ret _ | Raise _ => True
  | Vis ev k => allowed _ ev ∧ ∀ r, promised _ ev r → calls_given promised allowed (k r)
  end.

Section calls_given_facts.
Context (promised : ∀ R, E R → res R → Prop) (allowed : ∀ R, E R → Prop).

Lemma calls_only_given {A} (p : prog E A) :
  calls_only allowed p → calls_given promised allowed p.
Proof.
  induction p as [a|e|R ev c IH]; cbn; [done..|].
  intros [Hev Hc]. split; [done|]. intros r _. by apply IH.
Qed.

Lemma calls_given_weaken {A} (allowed' : ∀ R, E R → Prop) (p : prog E A) :
  (∀ R ev, allowed R ev → allowed' R ev) →
  calls_given promised allowed p → calls_given promised allowed' p.
Proof.
  intros Himpl. induction p as [a|e|R ev c IH]; cbn; [done..|].
  intros [Hev Hc]. split; [by apply Himpl|]. intros r Hr. by apply IH, Hc.
Qed.

Lemma calls_given_lift {A} (r : res A) : calls_given promised allowed (lift r).
Proof. by destruct r. Qed.

Lemma calls_given_bind {A B} (p : prog E A) (k : A → prog E B) :
  calls_given promised allowed p → (∀ a, calls_given promised allowed (k a)) →
  calls_given promised allowed (p ≫= k).
Proof.
  intros Hp Hk. induction p as [a|e|R ev c IH]; cbn; [done..|].
  destruct Hp as [Hev Hc]. split; [done|]. intros r Hr. by apply IH, Hc.
Qed.

Lemma calls_given_lift_mbind {A B} (r : res A) (k : A → prog E B) :
  (∀ a, r = Ok a → calls_given promised allowed (k a)) →
  calls_given promised allowed (lift r ≫= k).
Proof. destruct r; [|done]. intros Hk. by apply Hk. Qed.

(** What follows a call is only met with an answer as promised. *)
Lemma calls_given_call_mbind {R B} (ev : E R) (k : R → prog E B) :
  allowed R ev →
  (∀ a, promised R ev (Ok a) → calls_given promised allowed (k a)) →
  calls_given promised allowed (call ev ≫= k).
Proof.
  intros Hev Hk. split; [done|]. intros [a|e] Hr; [|done]. by apply Hk.
Qed.

Lemma calls_given_catch {A} (p : prog E A) (h : exn → prog E A) :
  calls_given promised allowed p → (∀ e, calls_given promised allowed (h e)) →
  calls_given promised allowed (catch p h).
Proof.
  intros Hp Hh. induction p as [a|e|R ev c IH]; cbn; [done..|].
  destruct Hp as [Hev Hc]. split; [done|]. intros r Hr. by apply IH, Hc.
Qed.

Lemma calls_given_for_each {X} (xs : list X) (body : X → prog E unit) :
  (∀ x, x ∈ xs → calls_given promised allowed (body x)) →
  calls_given promised allowed (for_each xs body).
Proof.
  intros Hbody. induction xs as [|x xs IH]; [done|]. cbn [for_each].
  apply calls_given_bind; [apply Hbody; left|intros _].
  apply IH. intros y Hy. apply Hbody. by right.
Qed.

(** A property of the state under which the service keeps its promise and
    that every allowed call keeps, is kept by the program. *)
Lemma calls_given_preserves {A} (p : prog E A) (I : S → Prop) :
  (∀ R ev s, I s → promised R ev (answer R ev s).1) →
  (∀ R ev s, allowed R ev → I s → I (answer R ev s).2) →
  calls_given promised allowed p → ∀ s, I s → I (run p s).2.
Proof.
  intros Hpromise Hstep. induction p as [a|e|R ev c IH]; cbn; [done..|].
  intros [Hev Hc] s Hs. specialize (Hstep R ev s Hev Hs).
  specialize (Hpromise R ev s Hs).
  destruct (answer R ev s) as [r s1]. by apply IH; [apply Hc|].
Qed.

End calls_given_facts.

End running.

Infix "≈{ h }" := (beh_eq h) (at level 70, no associativity, only parsing).

#[export] Hint Rewrite @run_ret @run_raise @run_lift @run_call @run_bind
  @run_mbind @run_catch : pystr.
