(* ===== verification/Gcs.v ===== *)
(** * Gcs: the object store the handlers call

    The handlers reach Google Cloud Storage through [storage_client]: they
    test and create the bucket, test, upload, download, list and delete
    objects.  The client library is not part of the repository; this file
    states what each call does to a store, as the library documents it:
    - a store maps bucket names to buckets, a bucket maps object names to
      text;
    - [exists] on a bucket or an object answers without raising; an object
      of a missing bucket does not exist;
    - [create_bucket] raises [Conflict] for an existing name;
    - upload overwrites; upload, download, listing and delete raise
      [NotFound] for a missing bucket, download and delete for a missing
      object;
    - listing returns the names with the prefix in lexicographic order.
    Any call can also fail for reasons outside the store (network, quota):
    the state carries a schedule of faults, consumed one entry per call, so
    that the error paths of the handlers can be run. *)

From S2P Require Import Prelude PyStr Json Prog.

(** ** Calls *)

Inductive storeE : Type → Type :=
| BucketExists (bucket : string) : storeE bool
| CreateBucket (bucket location : string) : storeE unit
| BlobExists (bucket name : string) : storeE bool
| UploadFromString (bucket name data content_type : string) : storeE unit
| DownloadAsText (bucket name : string) : storeE string
| ListBlobs (bucket prefix : string) : storeE (list string)
| DeleteBlob (bucket name : string) : storeE unit.

(** ** State *)

Abbreviation objects := (gmap string string).
Abbreviation store := (gmap string objects).

Record cloud : Type := Cloud {
  buckets : store;
  faults : list (option exn);
}.

(** ** What a call does *)

Definition not_found (what : string) : exn :=
  Exn NotFound ("404 " +:+ what +:+ " not found").

Definition conflict (bucket : string) : exn :=
  Exn Conflict ("409 bucket " +:+ bucket +:+ " already exists").

(** The names of a bucket that start with [prefix], in lexicographic
    order. *)
Definition list_names (prefix : string) (objs : objects) : list string :=
  merge_sort String.le
    (filter (λ name, startswith name prefix = true) (map_to_list objs).*1).

Definition store_call {R} (ev : storeE R) (st : store) : res R * store :=
  match ev in storeE R return res R * store with
  | BucketExists b => (Ok (bool_decide (is_Some (st !! b))), st)
  | CreateBucket b _ =>
      match st !! b with
      | Some _ => (Err (conflict b), st)
      | None => (Ok (), <[b := ∅]> st)
      end
  | BlobExists b name =>
      (Ok (bool_decide (is_Some (st !! b ≫= (.!! name)))), st)
  | UploadFromString b name data _ =>
      match st !! b with
      | Some objs => (Ok (), <[b := <[name := data]> objs]> st)
      | None => (Err (not_found b), st)
      end
  | DownloadAsText b name =>
      match st !! b ≫= (.!! name) with
      | Some data => (Ok data, st)
      | None => (Err (not_found name), st)
      end
  | ListBlobs b prefix =>
      match st !! b with
      | Some objs => (Ok (list_names prefix objs), st)
      | None => (Err (not_found b), st)
      end
  | DeleteBlob b name =>
      match st !! b with
      | Some objs =>
          match objs !! name with
          | Some _ => (Ok (), <[b := delete name objs]> st)
          | None => (Err (not_found name), st)
          end
      | None => (Err (not_found b), st)
      end
  end.

(** A call against the cloud: the next entry of the fault schedule decides
    whether it reaches the store. *)
Definition cloud_call (R : Type) (ev : storeE R) (c : cloud) : res R * cloud :=
  match faults c with
  | Some e :: fs => (Err e, Cloud (buckets c) fs)
  | None :: fs =>
      let '(r, st) := store_call ev (buckets c) in (r, Cloud st fs)
  | [] =>
      let '(r, st) := store_call ev (buckets c) in (r, Cloud st [])
  end.

(** Running a handler against the cloud. *)
Abbreviation run_cloud := (run cloud_call).

(** A cloud whose calls all reach the store. *)
Definition reliable (st : store) : cloud := Cloud st [].

(** The objects of a bucket, none for a missing bucket. *)
Definition bucket_objects (b : string) (st : store) : objects :=
  default ∅ (st !! b).

(** ** Listing *)

Section list_names_facts.
Context (prefix : string) (objs : objects).

Lemma elem_of_list_names name :
  name ∈ list_names prefix objs ↔
  is_Some (objs !! name) ∧ startswith name prefix = true.
Proof.
  unfold list_names. rewrite merge_sort_Permutation, list_elem_of_filter.
  rewrite list_elem_of_fmap. split.
  - intros [Hp [[k v] [-> Hkv%elem_of_map_to_list]]]. eauto.
  - intros [[v Hv] Hp]. split; [done|]. exists (name, v).
    by rewrite elem_of_map_to_list.
Qed.

Lemma NoDup_list_names : NoDup (list_names prefix objs).
Proof.
  unfold list_names. rewrite merge_sort_Permutation.
  apply NoDup_filter, NoDup_fst_map_to_list.
Qed.

Lemma Sorted_list_names : StronglySorted String.le (list_names prefix objs).
Proof. apply StronglySorted_merge_sort; apply _. Qed.

(** The listing is the only sorted list of the selected names. *)
Lemma list_names_unique l :
  StronglySorted String.le l → NoDup l →
  (∀ name, name ∈ l ↔ is_Some (objs !! name) ∧ startswith name prefix = true) →
  list_names prefix objs = l.
Proof.
  intros Hsorted Hnodup Helem.
  apply (StronglySorted_unique String.le); [apply Sorted_list_names|done|].
  apply NoDup_Permutation; [apply NoDup_list_names|done|].
  intros name. by rewrite elem_of_list_names, Helem.
Qed.

Lemma list_names_nil :
  list_names prefix objs = [] ↔
  ∀ name, is_Some (objs !! name) → startswith name prefix = false.
Proof.
  split.
  - intros Hnil name Hname. destruct (startswith name prefix) eqn:E; [|done].
    assert (name ∈ list_names prefix objs) as Hin by by apply elem_of_list_names.
    rewrite Hnil in Hin. by apply elem_of_nil in Hin.
  - intros Hnone. apply list_names_unique; [constructor|constructor|].
    intros name. rewrite elem_of_nil. split; [done|].
    intros [Hsome Hp]. by rewrite (Hnone name Hsome) in Hp.
Qed.

End list_names_facts.

Lemma list_names_empty prefix : list_names prefix ∅ = [].
Proof. apply list_names_nil. intros name [v Hv]. by rewrite lookup_empty in Hv. Qed.

(** The first object under a prefix is the listing of the prefix. *)
Lemma list_names_insert_fresh prefix objs name data :
  list_names prefix objs = [] → startswith name prefix = true →
  list_names prefix (<[name := data]> objs) = [name].
Proof.
  intros Hnil Hname. apply list_names_unique; [by repeat constructor|apply NoDup_singleton|].
  intros name'. rewrite list_elem_of_singleton, lookup_insert_is_Some. split.
  - intros ->. auto.
  - intros [[->|[_ Hsome]] Hstart]; [done|].
    by rewrite (proj1 (list_names_nil _ _) Hnil name' Hsome) in Hstart.
Qed.

(** ** Calls on a reliable cloud *)

Lemma cloud_call_reliable {R} (ev : storeE R) st :
  cloud_call R ev (reliable st) =
    ((store_call ev st).1, reliable (store_call ev st).2).
Proof. unfold cloud_call, reliable. cbn. by destruct (store_call ev st). Qed.

Lemma cloud_call_fault {R} (ev : storeE R) e st fs :
  cloud_call R ev (Cloud st (Some e :: fs)) = (Err e, Cloud st fs).
Proof. done. Qed.

Lemma cloud_call_pass {R} (ev : storeE R) st fs :
  cloud_call R ev (Cloud st (None :: fs)) =
    ((store_call ev st).1, Cloud (store_call ev st).2 fs).
Proof. unfold cloud_call. cbn. by destruct (store_call ev st). Qed.

Lemma run_call_fault {R} (ev : storeE R) e st fs :
  run_cloud (call ev) (Cloud st (Some e :: fs)) = (Err e, Cloud st fs).
Proof. by rewrite run_call. Qed.

Lemma run_call_pass {R} (ev : storeE R) st fs :
  run_cloud (call ev) (Cloud st (None :: fs)) =
    ((store_call ev st).1, Cloud (store_call ev st).2 fs).
Proof. by rewrite run_call, cloud_call_pass. Qed.

(** No call changes the set of buckets other than by creating one, and no
    call removes a bucket. *)
Lemma store_call_buckets {R} (ev : storeE R) st b :
  is_Some (st !! b) → is_Some ((store_call ev st).2 !! b).
Proof.
  intros Hb. destruct ev; cbn; try done;
    repeat case_match; cbn; try done;
    destruct (decide (bucket = b)) as [->|];
    rewrite ?lookup_insert_eq, ?lookup_insert_ne by done; eauto.
Qed.

(** ** Removing a prefix *)

(** The objects whose name does not start with [prefix]. *)
Definition remove_prefix (prefix : string) (objs : objects) : objects :=
  filter (λ kv, startswith kv.1 prefix = false) objs.

Lemma lookup_remove_prefix prefix objs name :
  remove_prefix prefix objs !! name =
    if startswith name prefix then None else objs !! name.
Proof.
  unfold remove_prefix. destruct (startswith name prefix) eqn:E.
  - apply map_lookup_filter_None. right. intros v _ Hf. cbn [fst] in Hf. congruence.
  - destruct (objs !! name) as [v|] eqn:Hv.
    + by apply map_lookup_filter_Some.
    + apply map_lookup_filter_None. by left.
Qed.

Lemma list_names_remove_prefix prefix objs :
  list_names prefix (remove_prefix prefix objs) = [].
Proof.
  apply list_names_nil. intros name [v Hv]. rewrite lookup_remove_prefix in Hv.
  by destruct (startswith name prefix).
Qed.

(** Deleting names one by one. *)
Definition delete_names (names : list string) (objs : objects) : objects :=
  foldl (λ o name, delete name o) objs names.

Lemma lookup_delete_names names objs name :
  delete_names names objs !! name =
    if decide (name ∈ names) then None else objs !! name.
Proof.
  unfold delete_names. revert objs.
  induction names as [|n names IH]; intros objs; cbn.
  - by rewrite decide_False by apply not_elem_of_nil.
  - rewrite IH. destruct (decide (name = n)) as [->|Hne].
    + rewrite lookup_delete_eq, (decide_True (P := n ∈ n :: names)) by left.
      by case_decide.
    + rewrite lookup_delete_ne by done.
      destruct (decide (name ∈ names)) as [Hin|Hin].
      * by rewrite decide_True by by right.
      * rewrite decide_False; [done|]. by intros [|]%elem_of_cons.
Qed.

(** Deleting the listing of a prefix removes the prefix. *)
Lemma delete_names_list_names prefix objs :
  delete_names (list_names prefix objs) objs = remove_prefix prefix objs.
Proof.
  apply map_eq. intros name.
  rewrite lookup_delete_names, lookup_remove_prefix.
  destruct (startswith name prefix) eqn:E, (objs !! name) as [v|] eqn:Hv.
  - rewrite decide_True; [done|]. apply elem_of_list_names. eauto.
  - by case_decide.
  - rewrite decide_False; [done|]. rewrite elem_of_list_names.
    intros [_ ?]. congruence.
  - by case_decide.
Qed.

(** ** Calls that only read *)

Definition read_call (R : Type) (ev : storeE R) : Prop :=
  match ev with
  | BucketExists _ | BlobExists _ _ | DownloadAsText _ _ | ListBlobs _ _ => True
  | _ => False
  end.

Lemma read_call_store {R} (ev : storeE R) st :
  read_call R ev → (store_call ev st).2 = st.
Proof. destruct ev; try done; intros _; cbn; by repeat case_match. Qed.

Lemma read_call_buckets {R} (ev : storeE R) c :
  read_call R ev → buckets (cloud_call R ev c).2 = buckets c.
Proof.
  intros Hev. unfold cloud_call. pose proof (read_call_store ev (buckets c) Hev).
  destruct (faults c) as [|[e|] fs]; [|done|];
    by destruct (store_call ev (buckets c)).
Qed.

(** A program of reading calls leaves the buckets as they are, whatever
    the answers and the faults. *)
Lemma calls_only_read {A} (p : prog storeE A) c :
  calls_only read_call p → buckets (run_cloud p c).2 = buckets c.
Proof.
  intros Hp.
  apply (calls_only_preserves cloud_call read_call p (λ c', buckets c' = buckets c));
    [|done..].
  intros R ev s Hev <-. by apply read_call_buckets.
Qed.

(** ** Single calls on a store *)

Section store_calls.
Context (st : store) (b : string).

Lemma store_bucket_exists :
  store_call (BucketExists b) st = (Ok (bool_decide (is_Some (st !! b))), st).
Proof. done. Qed.

Lemma store_create_bucket loc :
  st !! b = None → store_call (CreateBucket b loc) st = (Ok (), <[b := ∅]> st).
Proof. intros Hb. cbn. by rewrite Hb. Qed.

Lemma store_create_bucket_conflict loc :
  is_Some (st !! b) → store_call (CreateBucket b loc) st = (Err (conflict b), st).
Proof. intros [objs Hb]. cbn. by rewrite Hb. Qed.

Lemma store_upload_missing name data ct :
  st !! b = None →
  store_call (UploadFromString b name data ct) st = (Err (not_found b), st).
Proof. intros Hb. cbn. by rewrite Hb. Qed.

Context (objs : objects) (Hb : st !! b = Some objs).

Lemma store_blob_exists name :
  store_call (BlobExists b name) st = (Ok (bool_decide (is_Some (objs !! name))), st).
Proof. cbn. by rewrite Hb. Qed.

Lemma store_upload name data ct :
  store_call (UploadFromString b name data ct) st =
    (Ok (), <[b := <[name := data]> objs]> st).
Proof. cbn. by rewrite Hb. Qed.

Lemma store_download name data :
  objs !! name = Some data →
  store_call (DownloadAsText b name) st = (Ok data, st).
Proof. intros Hn. cbn. rewrite Hb. cbn. by rewrite Hn. Qed.

Lemma store_download_missing name :
  objs !! name = None →
  store_call (DownloadAsText b name) st = (Err (not_found name), st).
Proof. intros Hn. cbn. rewrite Hb. cbn. by rewrite Hn. Qed.

Lemma store_list_blobs prefix :
  store_call (ListBlobs b prefix) st = (Ok (list_names prefix objs), st).
Proof. cbn. by rewrite Hb. Qed.

Lemma store_delete_blob name :
  is_Some (objs !! name) →
  store_call (DeleteBlob b name) st = (Ok (), <[b := delete name objs]> st).
Proof. intros [data Hn]. cbn. by rewrite Hb, Hn. Qed.

End store_calls.

(** ** Stepping through a run *)

Lemma run_call_reliable {R} (ev : storeE R) st :
  run_cloud (call ev) (reliable st) =
    ((store_call ev st).1, reliable (store_call ev st).2).
Proof. by rewrite run_call, cloud_call_reliable. Qed.

(** Simplify a run: push [run] through sequencing and [try], answer the
    calls whose outcome the context determines. *)
Ltac run_simpl :=
  repeat first
    [ rewrite run_mbind | rewrite run_bind | rewrite run_catch
    | rewrite run_ret | rewrite run_raise | rewrite run_lift
    | rewrite run_call_reliable | rewrite run_call_pass | rewrite run_call_fault
    | rewrite store_bucket_exists
    | erewrite store_upload by (first [eassumption | apply lookup_insert_eq])
    | erewrite store_blob_exists by (first [eassumption | apply lookup_insert_eq])
    | erewrite store_list_blobs by (first [eassumption | apply lookup_insert_eq])
    | erewrite store_download by (first [eassumption | apply lookup_insert_eq | done])
    | rewrite store_create_bucket by done
    | progress cbn [fst snd negb] ].
