(* ===== verification/Codec.v ===== *)
(** * Codec: what the handlers need of [json.dumps] and [json.loads]

    Save writes [json.dumps(value, indent=2)] and Retrieve reads the text
    back with [json.loads].  The handlers depend on one fact about the
    pair: decoding an encoded value gives the value back.  The interface
    states it, for the values the encoder is defined on; the handlers and
    their theorems are written against the interface, and [JsonText]
    provides the encoder and decoder that satisfy it. *)

From S2P Require Import Prelude PyStr Json.

Class JsonCodec : Type := {
  (** [json.dumps(v, indent=n)] *)
  json_dumps : nat → json → string;
  (** [json.loads(text)]: the value, or [JSONDecodeError] *)
  json_loads : string → res json;
  (** the values [json.loads] can deliver *)
  json_ok : json → bool;
  json_loads_dumps n v : json_ok v = true → json_loads (json_dumps n v) = Ok v;
}.

Section codec.
Context `{JsonCodec}.

(** The encoder is injective on its domain, at any indentation. *)
Lemma json_dumps_inj n v w :
  json_ok v = true → json_ok w = true →
  json_dumps n v = json_dumps n w → v = w.
Proof.
  intros Hv Hw Heq. enough (Ok v = Ok w :> res json) by congruence.
  by rewrite <-(json_loads_dumps n v), <-(json_loads_dumps n w), Heq.
Qed.

(** The text Save stores does not depend on the indentation for what
    Retrieve reads back. *)
Lemma json_loads_dumps_indent n m v :
  json_ok v = true → json_loads (json_dumps n v) = json_loads (json_dumps m v).
Proof. intros Hv. by rewrite !json_loads_dumps. Qed.

End codec.
