(* ===== verification/JsonLex.v ===== *)
(** * JsonLex: the tokens of JSON text

    [json.dumps] and [json.loads] agree on three kinds of token: white
    space, string literals and number literals.  This file holds the
    encoder and the scanner of each, as the [json] module implements
    them for [ensure_ascii=True] and [strict=True], and the round trips:
    scanning an encoded string gives the string back, scanning a printed
    integer gives the integer back, and a scanned number is not changed by
    what follows it as long as that cannot continue a number.

    Text and strings range over code points below 256.  An escape
    [\uXXXX] of a larger code point is refused by the scanner, where Python
    builds a string that this model cannot hold. *)

From S2P Require Import Prelude PyStr PyDict Json.

(** ** Scanner results *)

Inductive parsed (A : Type) : Type :=
| NoFuel
| Bad (msg : string)
| Good (a : A) (rest : string).
Arguments NoFuel {A}.
Arguments Bad {A} msg.
Arguments Good {A} a rest.

Definition parsed_map {A B} (f : A → B) (p : parsed A) : parsed B :=
  match p with
  | NoFuel => NoFuel
  | Bad msg => Bad msg
  | Good a rest => Good (f a) rest
  end.

(** ** White space *)

Definition is_ws (c : ascii) : bool :=
  bool_decide (c = " "%char ∨ c = "009"%char ∨ c = "010"%char ∨ c = "013"%char).

Fixpoint skip_ws (s : string) : string :=
  match s with
  | String c s' => if is_ws c then skip_ws s' else s
  | EmptyString => EmptyString
  end.

(** [' ' * n] *)
Fixpoint spaces (n : nat) : string :=
  match n with
  | 0 => EmptyString
  | S n' => String " " (spaces n')
  end.

(** ['\n' + ' ' * (indent * level)] *)
Definition newline_indent (indent level : nat) : string :=
  String "010" (spaces (indent * level)).

(** The first character of [s] is not white space. *)
Definition starts_solid (s : string) : Prop :=
  match s with
  | String c _ => is_ws c = false
  | EmptyString => True
  end.

Lemma skip_ws_solid s : starts_solid s → skip_ws s = s.
Proof. destruct s as [|c s]; [done|]. cbn. by intros ->. Qed.

Lemma skip_ws_spaces n s : skip_ws (spaces n +:+ s) = skip_ws s.
Proof. induction n as [|n IH]; [done|]. by rewrite <-IH. Qed.

Lemma skip_ws_newline_indent indent level s :
  skip_ws (newline_indent indent level +:+ s) = skip_ws s.
Proof. unfold newline_indent. rewrite string_app_cons. cbn. apply skip_ws_spaces. Qed.

(** ** String literals *)

Definition backslash : ascii := "\"%char.

(** The characters [ensure_ascii] writes as they are: [' '] to ['~'],
    without the quote and the backslash. *)
Definition is_plain (c : ascii) : bool :=
  let n := N_of_ascii c in
  (32 <=? n)%N && (n <=? 126)%N
  && negb (bool_decide (c = dquote)) && negb (bool_decide (c = backslash)).

Definition escape_char (c : ascii) : string :=
  if decide (c = dquote) then String backslash (String dquote "")
  else if decide (c = backslash) then String backslash (String backslash "")
  else if decide (c = "010"%char) then String backslash "n"
  else if decide (c = "013"%char) then String backslash "r"
  else if decide (c = "009"%char) then String backslash "t"
  else if decide (c = "008"%char) then String backslash "b"
  else if decide (c = "012"%char) then String backslash "f"
  else if is_plain c then String c ""
  else
    let n := N_of_ascii c in
    String backslash
      (String "u" (String "0" (String "0"
         (String (hex_digit (n / 16)) (String (hex_digit (n mod 16)) "")))))%N.

Fixpoint escape (s : string) : string :=
  match s with
  | EmptyString => EmptyString
  | String c s' => escape_char c +:+ escape s'
  end.

(** [py_encode_basestring_ascii(s)] *)
Definition dump_string (s : string) : string :=
  String dquote (escape s +:+ String dquote "").

Definition hex_value (c : ascii) : option N :=
  let n := N_of_ascii c in
  if (48 <=? n)%N && (n <=? 57)%N then Some (n - 48)%N
  else if (97 <=? n)%N && (n <=? 102)%N then Some (n - 87)%N
  else if (65 <=? n)%N && (n <=? 70)%N then Some (n - 55)%N
  else None.

Definition hex4_value (h1 h2 h3 h4 : ascii) : option N :=
  a ← hex_value h1; b ← hex_value h2; c ← hex_value h3; d ← hex_value h4;
  Some (((a * 16 + b) * 16 + c) * 16 + d)%N.

(** The character of a one-letter escape. *)
Definition unescape (e : ascii) : option ascii :=
  if decide (e = dquote) then Some dquote
  else if decide (e = backslash) then Some backslash
  else if decide (e = "/"%char) then Some "/"%char
  else if decide (e = "b"%char) then Some "008"%char
  else if decide (e = "f"%char) then Some "012"%char
  else if decide (e = "n"%char) then Some "010"%char
  else if decide (e = "r"%char) then Some "013"%char
  else if decide (e = "t"%char) then Some "009"%char
  else None.

Definition push (c : ascii) (p : parsed string) : parsed string :=
  parsed_map (String c) p.

(** [py_scanstring] after the opening quote: the string up to the closing
    quote, and the text after it. *)
Fixpoint scan_string (s : string) : parsed string :=
  match s with
  | EmptyString => Bad "Unterminated string starting at"
  | String c s1 =>
      if decide (c = dquote) then Good EmptyString s1
      else if decide (c = backslash) then
        match s1 with
        | EmptyString => Bad "Unterminated string starting at"
        | String e s2 =>
            if decide (e = "u"%char) then
              match s2 with
              | String h1 (String h2 (String h3 (String h4 s3))) =>
                  match hex4_value h1 h2 h3 h4 with
                  | Some n =>
                      if (n <? 256)%N then push (ascii_of_N n) (scan_string s3)
                      else Bad "code point outside the model"
                  | None => Bad "Invalid \uXXXX escape"
                  end
              | _ => Bad "Invalid \uXXXX escape"
              end
            else
              match unescape e with
              | Some c' => push c' (scan_string s2)
              | None => Bad "Invalid \escape"
              end
        end
      else if (N_of_ascii c <? 32)%N then Bad "Invalid control character at"
      else push c (scan_string s1)
  end.

(** One encoded character is scanned back. *)
Lemma scan_string_escape_char c t :
  scan_string (escape_char c +:+ t) = push c (scan_string t).
Proof. destruct c as [[] [] [] [] [] [] [] []]; reflexivity. Qed.

(** Scanning an encoded string gives the string back and stops after
    the closing quote. *)
Lemma scan_string_escape s rest :
  scan_string (escape s +:+ String dquote rest) = Good s rest.
Proof.
  induction s as [|c s IH]; [done|]. cbn [escape].
  by rewrite string_app_assoc, scan_string_escape_char, IH.
Qed.

Lemma scan_dump_string s rest :
  match dump_string s +:+ rest with
  | String c t => c = dquote ∧ scan_string t = Good s rest
  | EmptyString => False
  end.
Proof.
  unfold dump_string. rewrite string_app_cons, string_app_assoc, string_app_cons.
  split; [done|]. apply scan_string_escape.
Qed.

(** ** Number literals *)

Definition is_digit (c : ascii) : bool :=
  let n := N_of_ascii c in (48 <=? n)%N && (n <=? 57)%N.

Definition digit_value (c : ascii) : N := (N_of_ascii c - 48)%N.

(** The longest prefix of digits, and the rest. *)
Fixpoint span_digits (s : string) : string * string :=
  match s with
  | String c s' =>
      if is_digit c
      then let '(d, r) := span_digits s' in (String c d, r)
      else (EmptyString, s)
  | EmptyString => (EmptyString, EmptyString)
  end.

(** [int(digits)] with an accumulator. *)
Fixpoint digits_value (s : string) (acc : N) : N :=
  match s with
  | String c s' => digits_value s' (acc * 10 + digit_value c)%N
  | EmptyString => acc
  end.

(** An optional leading [c]: the sign read, and the text after it. *)
Definition strip_char (c : ascii) (s : string) : string * string :=
  match s with
  | String c' s' => if decide (c' = c) then (String c "", s') else (EmptyString, s)
  | EmptyString => (EmptyString, s)
  end.

(** [int(token)] for an optional minus and digits. *)
Definition int_of_token (tok : string) : Z :=
  let '(sign, d) := strip_char "-" tok in
  if decide (sign = EmptyString) then Z.of_N (digits_value d 0)
  else (- Z.of_N (digits_value d 0))%Z.

(** The integer part: an optional minus, then a zero or a digit sequence
    without leading zero. *)
Definition scan_int (s : string) : option (string * string) :=
  let '(sign, s1) := strip_char "-" s in
  match s1 with
  | String c s2 =>
      if decide (c = "0"%char) then Some (sign +:+ "0", s2)
      else if is_digit c
      then let '(d, r) := span_digits s2 in Some (sign +:+ String c d, r)
      else None
  | EmptyString => None
  end.

(** The optional fraction: a point and at least one digit. *)
Definition scan_frac (s : string) : string * string :=
  match s with
  | String c s1 =>
      if decide (c = "."%char) then
        match span_digits s1 with
        | (EmptyString, _) => (EmptyString, s)
        | (d, r) => (String "." d, r)
        end
      else (EmptyString, s)
  | EmptyString => (EmptyString, s)
  end.

(** The optional exponent: [e] or [E], an optional sign, at least one
    digit. *)
Definition scan_exp (s : string) : string * string :=
  match s with
  | String e s1 =>
      if bool_decide (e = "e"%char ∨ e = "E"%char) then
        let '(sign, s2) :=
          match strip_char "+" s1 with
          | (EmptyString, _) => strip_char "-" s1
          | found => found
          end in
        match span_digits s2 with
        | (EmptyString, _) => (EmptyString, s)
        | (d, r) => (String e (sign +:+ d), r)
        end
      else (EmptyString, s)
  | EmptyString => (EmptyString, s)
  end.

(** A number: an [int] without fraction and exponent, a [float]
    otherwise, kept as the literal. *)
Definition scan_number (s : string) : option (json * string) :=
  match scan_int s with
  | None => None
  | Some (i, s1) =>
      let '(f, s2) := scan_frac s1 in
      let '(e, s3) := scan_exp s2 in
      if decide (f = EmptyString ∧ e = EmptyString)
      then Some (JInt (int_of_token i), s3)
      else Some (JFloat (i +:+ f +:+ e), s3)
  end.

(** Text that cannot continue a number: the end, or a character that is
    not a digit, a point, an exponent mark or a sign. *)
Definition ends_number (rest : string) : Prop :=
  match rest with
  | String c _ =>
      is_digit c = false ∧ c ≠ "."%char ∧ c ≠ "e"%char ∧ c ≠ "E"%char
      ∧ c ≠ "+"%char ∧ c ≠ "-"%char
  | EmptyString => True
  end.

Lemma span_digits_app s rest :
  ends_number rest →
  span_digits (s +:+ rest) = ((span_digits s).1, (span_digits s).2 +:+ rest).
Proof.
  intros Hrest. induction s as [|c s IH].
  - destruct rest as [|c r]; [done|]. destruct Hrest as [Hd _].
    rewrite string_app_nil_l. cbn [span_digits fst snd]. by rewrite Hd.
  - rewrite string_app_cons. cbn [span_digits]. destruct (is_digit c); [|done].
    rewrite IH. by destruct (span_digits s).
Qed.

Lemma strip_char_app c s rest :
  (∀ c' r, rest = String c' r → c' ≠ c) →
  strip_char c (s +:+ rest) = ((strip_char c s).1, (strip_char c s).2 +:+ rest).
Proof.
  intros Hrest. destruct s as [|c' s].
  - rewrite string_app_nil_l. destruct rest as [|c' r]; [done|]. cbn.
    by rewrite decide_False by eauto.
  - rewrite string_app_cons. cbn. by case_decide.
Qed.

Lemma scan_int_app s rest i r :
  ends_number rest →
  scan_int s = Some (i, r) → scan_int (s +:+ rest) = Some (i, r +:+ rest).
Proof.
  intros Hrest. unfold scan_int. rewrite strip_char_app; last first.
  { intros c' r' ->. by destruct Hrest as (_ & _ & _ & _ & _ & ?). }
  destruct (strip_char "-" s) as [sign [|c s2]]; [done|]. cbn [fst snd].
  rewrite string_app_cons. case_decide; [by intros [= <- <-]|].
  destruct (is_digit c); [|done]. rewrite span_digits_app by done.
  destruct (span_digits s2) as [d r2]. by intros [= <- <-].
Qed.

Lemma scan_frac_app s rest :
  ends_number rest →
  scan_frac (s +:+ rest) = ((scan_frac s).1, (scan_frac s).2 +:+ rest).
Proof.
  intros Hrest. destruct s as [|c s].
  - rewrite string_app_nil_l. destruct rest as [|c r]; [done|]. cbn.
    destruct Hrest as (_ & ? & _). by rewrite decide_False.
  - rewrite string_app_cons. cbn [scan_frac]. case_decide; [|done].
    rewrite span_digits_app by done. by destruct (span_digits s) as [[|??] ?].
Qed.

Lemma scan_exp_app s rest :
  ends_number rest →
  scan_exp (s +:+ rest) = ((scan_exp s).1, (scan_exp s).2 +:+ rest).
Proof.
  intros Hrest. destruct s as [|e s].
  - rewrite string_app_nil_l. destruct rest as [|c r]; [done|]. cbn.
    destruct Hrest as (_ & _ & ? & ? & _).
    by rewrite bool_decide_eq_false_2 by naive_solver.
  - rewrite string_app_cons. cbn [scan_exp]. case_bool_decide; [|done].
    rewrite !strip_char_app; [|intros c' r' ->; by destruct Hrest as (_&_&_&_&?&?)..].
    destruct (strip_char "+" s) as [[|??] ?]; cbn [fst snd];
      [destruct (strip_char "-" s) as [??]; cbn [fst snd]|];
      rewrite span_digits_app by done;
      by destruct (span_digits _) as [[|??] ?].
Qed.

(** What follows a number does not change it, as long as it cannot
    continue a number. *)
Lemma scan_number_app s rest v r :
  ends_number rest →
  scan_number s = Some (v, r) → scan_number (s +:+ rest) = Some (v, r +:+ rest).
Proof.
  intros Hrest. unfold scan_number.
  destruct (scan_int s) as [[i s1]|] eqn:Hint; [|done].
  rewrite (scan_int_app _ _ _ _ Hrest Hint), scan_frac_app by done.
  destruct (scan_frac s1) as [f s2]. cbn [fst snd].
  rewrite scan_exp_app by done. destruct (scan_exp s2) as [e s3]. cbn [fst snd].
  case_decide; by intros [= <- <-].
Qed.

(** ** Printed integers *)

Fixpoint all_digits (s : string) : bool :=
  match s with
  | String c s' => is_digit c && all_digits s'
  | EmptyString => true
  end.

Lemma all_digits_app a b : all_digits (a +:+ b) = all_digits a && all_digits b.
Proof.
  induction a as [|c a IH]; [done|].
  rewrite string_app_cons. cbn. by rewrite IH, andb_assoc.
Qed.

Lemma span_all_digits s : all_digits s = true → span_digits s = (s, EmptyString).
Proof.
  induction s as [|c s IH]; [done|]. cbn [all_digits span_digits].
  intros [-> Hs]%andb_true_iff. by rewrite IH.
Qed.

Lemma digits_value_app a b acc :
  digits_value (a +:+ b) acc = digits_value b (digits_value a acc).
Proof.
  revert acc. induction a as [|c a IH]; intros acc; [done|].
  rewrite string_app_cons. cbn. apply IH.
Qed.

Lemma pretty_N_char_digit y :
  (y < 10)%N →
  is_digit (pretty_N_char y) = true ∧ digit_value (pretty_N_char y) = y
  ∧ (pretty_N_char y = "0"%char → y = 0%N).
Proof.
  intros Hy.
  assert (y = 0 ∨ y = 1 ∨ y = 2 ∨ y = 3 ∨ y = 4 ∨ y = 5 ∨ y = 6 ∨ y = 7
          ∨ y = 8 ∨ y = 9)%N as Hcases by lia.
  repeat (destruct Hcases as [->|Hcases]; [by vm_compute|]). by subst.
Qed.

Lemma pretty_N_go_app x s : pretty_N_go x s = pretty_N_go x EmptyString +:+ s.
Proof.
  revert s. induction (N.lt_wf_0 x) as [x _ IH]. intros s.
  destruct (decide (x = 0%N)) as [->|Hx]; [done|].
  assert (x `div` 10 < x)%N as Hlt by (apply N.div_lt; lia).
  rewrite !(pretty_N_go_step x) by lia.
  rewrite (IH _ Hlt (String _ s)), (IH _ Hlt (String _ EmptyString)).
  by rewrite string_app_assoc.
Qed.

Lemma pretty_N_go_snoc x :
  (0 < x)%N →
  pretty_N_go x EmptyString =
    pretty_N_go (x `div` 10) EmptyString
    +:+ String (pretty_N_char (x `mod` 10)) EmptyString.
Proof. intros Hx. by rewrite pretty_N_go_step, pretty_N_go_app. Qed.

Lemma all_digits_pretty_N_go x : all_digits (pretty_N_go x EmptyString) = true.
Proof.
  induction (N.lt_wf_0 x) as [x _ IH].
  destruct (decide (x = 0%N)) as [->|Hx]; [done|].
  rewrite pretty_N_go_snoc, all_digits_app, IH by (try apply N.div_lt; lia).
  cbn. destruct (pretty_N_char_digit (x `mod` 10)) as [-> _]; [|done].
  by apply N.mod_lt.
Qed.

Lemma digits_value_pretty_N_go x : digits_value (pretty_N_go x EmptyString) 0 = x.
Proof.
  induction (N.lt_wf_0 x) as [x _ IH].
  destruct (decide (x = 0%N)) as [->|Hx]; [done|].
  rewrite pretty_N_go_snoc, digits_value_app, IH by (try apply N.div_lt; lia).
  cbn. destruct (pretty_N_char_digit (x `mod` 10)) as (_ & -> & _).
  { by apply N.mod_lt. }
  pose proof (N.div_mod x 10). lia.
Qed.

(** A positive number is printed with a leading digit other than zero. *)
Lemma pretty_N_go_head x :
  (0 < x)%N →
  ∃ c t, pretty_N_go x EmptyString = String c t
         ∧ is_digit c = true ∧ c ≠ "0"%char ∧ c ≠ "-"%char.
Proof.
  induction (N.lt_wf_0 x) as [x _ IH]. intros Hx.
  rewrite pretty_N_go_snoc by done.
  destruct (decide (x `div` 10 = 0)%N) as [Hdiv|Hdiv].
  - rewrite Hdiv, pretty_N_go_0, string_app_nil_l.
    assert (x `mod` 10 = x)%N as Hmod by (apply N.mod_small, N.div_small_iff; lia).
    destruct (pretty_N_char_digit (x `mod` 10)) as (Hd & _ & Hz).
    { by apply N.mod_lt. }
    eexists _, _. split_and!; [done|done|intros H0; apply Hz in H0; lia|].
    intros Hminus. by rewrite Hminus in Hd.
  - destruct (IH (x `div` 10)%N) as (c & t & -> & ?); [apply N.div_lt; lia|by apply N.neq_0_lt_0|].
    rewrite string_app_cons. by eexists _, _.
Qed.

Lemma int_of_token_digits c t :
  c ≠ "-"%char → int_of_token (String c t) = Z.of_N (digits_value (String c t) 0).
Proof. intros Hc. unfold int_of_token, strip_char. by rewrite decide_False. Qed.

Lemma int_of_token_minus s :
  int_of_token (String "-" s) = (- Z.of_N (digits_value s 0))%Z.
Proof. done. Qed.

Lemma scan_int_digits c t :
  is_digit c = true → c ≠ "0"%char → c ≠ "-"%char → all_digits t = true →
  scan_int (String c t) = Some (String c t, EmptyString)
  ∧ scan_int (String "-" (String c t)) = Some (String "-" (String c t), EmptyString).
Proof.
  intros Hd H0 Hm Hall. unfold scan_int, strip_char.
  rewrite (decide_True (P := "-"%char = "-"%char)) by done.
  rewrite (decide_False (P := c = "-"%char)) by done. cbv iota.
  rewrite (decide_False (P := c = "0"%char)) by done.
  rewrite Hd, (span_all_digits t Hall).
  by rewrite (decide_False (P := c = "0"%char)).
Qed.

Lemma scan_number_int i :
  scan_int i = Some (i, EmptyString) →
  scan_number i = Some (JInt (int_of_token i), EmptyString).
Proof.
  intros Hi. unfold scan_number. rewrite Hi. cbn [scan_frac scan_exp].
  by rewrite decide_True.
Qed.

(** A printed integer is scanned back as that integer, with nothing left
    over. *)
Lemma scan_number_pretty (n : Z) :
  scan_number (pretty n) = Some (JInt n, EmptyString).
Proof.
  assert (∀ p, let s := pretty_N_go (N.pos p) EmptyString in
    scan_number s = Some (JInt (Z.pos p), EmptyString)
    ∧ scan_number (String "-" s) = Some (JInt (Z.neg p), EmptyString)) as Hp.
  { intros p s. subst s.
    destruct (pretty_N_go_head (N.pos p)) as (c & t & Heq & Hd & H0 & Hm); [lia|].
    pose proof (all_digits_pretty_N_go (N.pos p)) as Hall.
    pose proof (digits_value_pretty_N_go (N.pos p)) as Hval.
    rewrite Heq in Hall, Hval |- *. cbn [all_digits] in Hall.
    apply andb_true_iff in Hall as [_ Hall].
    destruct (scan_int_digits c t Hd H0 Hm Hall) as [Hpos Hneg].
    rewrite (scan_number_int _ Hpos), (scan_number_int _ Hneg).
    by rewrite int_of_token_minus, int_of_token_digits, Hval. }
  destruct n as [|p|p]; [done|apply Hp..].
Qed.
