(* ===== verification/JsonText.v ===== *)
(** * JsonText: [json.dumps(value, indent=n)] and [json.loads(text)]

    The encoder writes a value as indented JSON text; the decoder reads
    JSON text back.  Both follow the [json] module: the encoder its
    [_make_iterencode] with an indent (item separator [","], key separator
    [": "], one item a line), the decoder its scanner ([scan_once],
    [JSONObject], [JSONArray]) with white space skipped where the grammar
    allows it, duplicate keys resolved as [dict] does and the whole text
    consumed.

    The decoder recurses on a fuel, one unit a value, item or pair; the
    length of the text is enough for any text the encoder writes
    ([json_size_dump]).  The main theorem is the round trip
    [parse_value_dump]; with it the pair is an instance of the interface
    of [Codec].

    A float is kept as the text of its literal, so the decoder returns the
    literal it read where Python returns the number it denotes. *)

From S2P Require Import Prelude PyStr PyDict Json Codec JsonLex.

(** ** The encoder *)

(** [sep.join(parts)] *)
Fixpoint sep_join (sep : string) (parts : list string) : string :=
  match parts with
  | [] => ""
  | [p] => p
  | p :: ps => p +:+ sep +:+ sep_join sep ps
  end.

(** [float.__repr__] with the three values JSON has no literal for. *)
Definition dump_float (lit : string) : string :=
  if decide (lit = "nan") then "NaN"
  else if decide (lit = "inf") then "Infinity"
  else if decide (lit = "-inf") then "-Infinity"
  else lit.

(** The text between the brackets of a container that is not empty: the
    items one a line at the next level, then the closing line. *)
Definition dump_block (indent level : nat) (items : list string) : string :=
  newline_indent indent (S level)
  +:+ sep_join ("," +:+ newline_indent indent (S level)) items
  +:+ newline_indent indent level.

(** [json.dumps(v, indent=indent)] at nesting depth [level]. *)
Fixpoint dump (indent level : nat) (v : json) : string :=
  match v with
  | JNull => "null"
  | JBool true => "true"
  | JBool false => "false"
  | JInt n => pretty n
  | JFloat lit => dump_float lit
  | JStr s => dump_string s
  | JArr [] => "[]"
  | JArr xs => "[" +:+ dump_block indent level (map (dump indent (S level)) xs) +:+ "]"
  | JObj [] => "{}"
  | JObj kvs =>
      "{" +:+ dump_block indent level
                (map (λ kv, dump_string kv.1 +:+ ": " +:+ dump indent (S level) kv.2) kvs)
      +:+ "}"
  end.

(** ** The decoder *)

(** The text after [c], when the text starts with [c]. *)
Definition expect (c : ascii) (s : string) : option string :=
  match s with
  | String c' r => if decide (c' = c) then Some r else None
  | EmptyString => None
  end.

(** The text after [p], when the text starts with [p]. *)
Fixpoint strip_prefix (p s : string) : option string :=
  match p with
  | EmptyString => Some s
  | String c p' => r ← expect c s; strip_prefix p' r
  end.

(** The values without structure, in the order [scan_once] tries them. *)
Definition parse_literal (s : string) : option (json * string) :=
  match strip_prefix "null" s with
  | Some r => Some (JNull, r)
  | None =>
  match strip_prefix "true" s with
  | Some r => Some (JBool true, r)
  | None =>
  match strip_prefix "false" s with
  | Some r => Some (JBool false, r)
  | None =>
  match scan_number s with
  | Some vr => Some vr
  | None =>
  match strip_prefix "NaN" s with
  | Some r => Some (JFloat "nan", r)
  | None =>
  match strip_prefix "Infinity" s with
  | Some r => Some (JFloat "inf", r)
  | None =>
  match strip_prefix "-Infinity" s with
  | Some r => Some (JFloat "-inf", r)
  | None => None
  end end end end end end end.

(** [dict(pairs)]: a later pair replaces the value of an earlier one with
    its key. *)
Definition dict_of_pairs (pairs : list (string * json)) : list (string * json) :=
  foldl (λ d kv, dict_set kv.1 kv.2 d) [] pairs.

Definition parsed_bind {A B} (p : parsed A) (k : A → string → parsed B) : parsed B :=
  match p with
  | NoFuel => NoFuel
  | Bad msg => Bad msg
  | Good a rest => k a rest
  end.

(** [scan_once], [JSONArray] after the first item's white space and
    [JSONObject] at a key. *)
Fixpoint parse_value (fuel : nat) (s : string) : parsed json :=
  match fuel with
  | 0 => NoFuel
  | S fuel =>
      match s with
      | EmptyString => Bad "Expecting value"
      | String c r =>
          if decide (c = dquote) then parsed_map JStr (scan_string r)
          else if decide (c = "{"%char) then
            match expect "}" (skip_ws r) with
            | Some r' => Good (JObj []) r'
            | None =>
                parsed_map (λ kvs, JObj (dict_of_pairs kvs))
                           (parse_pairs fuel (skip_ws r))
            end
          else if decide (c = "["%char) then
            match expect "]" (skip_ws r) with
            | Some r' => Good (JArr []) r'
            | None => parsed_map JArr (parse_items fuel (skip_ws r))
            end
          else
            match parse_literal s with
            | Some (v, r') => Good v r'
            | None => Bad "Expecting value"
            end
      end
  end
with parse_items (fuel : nat) (s : string) : parsed (list json) :=
  match fuel with
  | 0 => NoFuel
  | S fuel =>
      parsed_bind (parse_value fuel s) (λ v r,
        match skip_ws r with
        | String c r' =>
            if decide (c = ","%char)
            then parsed_map (cons v) (parse_items fuel (skip_ws r'))
            else if decide (c = "]"%char) then Good [v] r'
            else Bad "Expecting ',' delimiter"
        | EmptyString => Bad "Expecting ',' delimiter"
        end)
  end
with parse_pairs (fuel : nat) (s : string) : parsed (list (string * json)) :=
  match fuel with
  | 0 => NoFuel
  | S fuel =>
      match expect dquote s with
      | None => Bad "Expecting property name enclosed in double quotes"
      | Some r =>
          parsed_bind (scan_string r) (λ key r,
            match expect ":" (skip_ws r) with
            | None => Bad "Expecting ':' delimiter"
            | Some r =>
                parsed_bind (parse_value fuel (skip_ws r)) (λ v r,
                  match skip_ws r with
                  | String c r' =>
                      if decide (c = ","%char)
                      then parsed_map (cons (key, v)) (parse_pairs fuel (skip_ws r'))
                      else if decide (c = "}"%char) then Good [(key, v)] r'
                      else Bad "Expecting ',' delimiter"
                  | EmptyString => Bad "Expecting ',' delimiter"
                  end)
            end)
      end
  end.

(** [json.loads(text)]: one value, white space around it and nothing
    else. *)
Definition loads (text : string) : res json :=
  match parse_value (S (String.length text)) (skip_ws text) with
  | Good v rest =>
      if decide (skip_ws rest = EmptyString) then Ok v
      else Err (Exn JSONDecodeError "Extra data")
  | Bad msg => Err (Exn JSONDecodeError msg)
  | NoFuel => Err (Exn JSONDecodeError "Expecting value")
  end.

(** ** The values the decoder delivers *)

(** A float literal the decoder reads back as it stands. *)
Definition float_lit_ok (lit : string) : bool :=
  bool_decide (lit = "nan" ∨ lit = "inf" ∨ lit = "-inf"
               ∨ scan_number lit = Some (JFloat lit, EmptyString)).

(** The values of [json.loads]: floats with a literal of their own,
    objects without a repeated key. *)
Fixpoint json_valid (v : json) : bool :=
  match v with
  | JFloat lit => float_lit_ok lit
  | JArr xs => forallb json_valid xs
  | JObj kvs =>
      bool_decide (NoDup kvs.*1) && forallb (λ kv, json_valid kv.2) kvs
  | _ => true
  end.

(** The fuel a value needs: one unit a value and one an item. *)
Fixpoint json_size (v : json) : nat :=
  match v with
  | JArr xs => S (list_sum (map (λ x, S (json_size x)) xs))
  | JObj kvs => S (list_sum (map (λ kv, S (json_size kv.2)) kvs))
  | _ => 1
  end.

(** ** Facts about the encoder *)

Lemma sep_join_cons sep p q ps :
  sep_join sep (p :: q :: ps) = p +:+ sep +:+ sep_join sep (q :: ps).
Proof. done. Qed.

(** Text that starts a value or a key: its first character is neither
    white space nor a closing bracket. *)
Definition solid (s : string) : Prop :=
  ∃ c t, s = String c t ∧ is_ws c = false ∧ c ≠ "]"%char ∧ c ≠ "}"%char.

Lemma solid_app s rest : solid s → solid (s +:+ rest).
Proof. intros (c & t & -> & Hc). by exists c, (t +:+ rest). Qed.

Lemma skip_ws_solid_app s rest : solid s → skip_ws (s +:+ rest) = s +:+ rest.
Proof.
  intros (c & t & -> & Hc & _). rewrite string_app_cons. cbn. by rewrite Hc.
Qed.

Lemma expect_solid_app c s rest :
  c = "]"%char ∨ c = "}"%char → solid s → expect c (s +:+ rest) = None.
Proof.
  intros Hc (c' & t & -> & _ & ? & ?). rewrite string_app_cons. cbn.
  rewrite decide_False; [done|]. by destruct Hc as [-> | ->].
Qed.

(** A number starts with a minus or a digit. *)
Lemma scan_number_head s v r :
  scan_number s = Some (v, r) →
  ∃ c t, s = String c t ∧ (c = "-"%char ∨ is_digit c = true).
Proof.
  unfold scan_number, scan_int, strip_char. destruct s as [|c t]; [done|].
  intros Hscan. exists c, t. split; [done|].
  destruct (decide (c = "-"%char)) as [|Hc]; [by left|right].
  destruct (decide (c = "0"%char)) as [->|H0]; [done|].
  by destruct (is_digit c).
Qed.

Lemma number_head_solid c t : c = "-"%char ∨ is_digit c = true → solid (String c t).
Proof.
  intros Hc. exists c, t. split; [done|].
  destruct Hc as [->|Hc]; [done|]. split_and!; [|by intros ->..].
  destruct (is_ws c) eqn:Hws; [|done].
  apply bool_decide_eq_true in Hws. by destruct Hws as [->|[->|[->| ->]]].
Qed.

Lemma solid_pretty (n : Z) : solid (pretty n).
Proof.
  pose proof (scan_number_pretty n) as Hn.
  destruct (scan_number_head _ _ _ Hn) as (c & t & -> & Hc).
  by apply number_head_solid.
Qed.

Lemma solid_dump_float lit : float_lit_ok lit = true → solid (dump_float lit).
Proof.
  intros Hlit. apply bool_decide_eq_true in Hlit. unfold dump_float.
  repeat case_decide; [by eexists _, _..|].
  destruct Hlit as [?|[?|[?|Hscan]]]; [done..|].
  destruct (scan_number_head _ _ _ Hscan) as (c & t & -> & Hc).
  by apply number_head_solid.
Qed.

(** The encoder writes no white space in front of a value. *)
Lemma solid_dump indent level v : json_valid v = true → solid (dump indent level v).
Proof.
  destruct v as [| [] | n | lit | s | [|x xs] | [|kv kvs]]; cbn [dump json_valid];
    intros Hv; try (by eexists _, _).
  - apply solid_pretty.
  - by apply solid_dump_float.
Qed.

Lemma skip_ws_dump indent level v rest :
  json_valid v = true →
  skip_ws (dump indent level v +:+ rest) = dump indent level v +:+ rest.
Proof. intros Hv. by apply skip_ws_solid_app, solid_dump. Qed.

(** ** Decoding what the encoder writes: values without structure *)

Lemma strip_prefix_head c c' p t : c ≠ c' → strip_prefix (String c' p) (String c t) = None.
Proof. intros Hc. cbn. by rewrite decide_False. Qed.

Lemma strip_prefix_app p rest : strip_prefix p (p +:+ rest) = Some rest.
Proof.
  induction p as [|c p IH]; [done|].
  rewrite string_app_cons. cbn. by rewrite decide_True.
Qed.

(** A number is decoded by the number scanner. *)
Lemma parse_value_number fuel s v r :
  scan_number s = Some (v, r) → parse_value (S fuel) s = Good v r.
Proof.
  intros Hscan. destruct (scan_number_head _ _ _ Hscan) as (c & t & -> & Hc).
  assert (∀ c', is_digit c' = false → c' ≠ "-"%char → c ≠ c') as Hne.
  { intros c' Hd Hm ->. destruct Hc; congruence. }
  cbn [parse_value]. rewrite !decide_False by (by apply Hne).
  unfold parse_literal. rewrite !strip_prefix_head by (by apply Hne).
  by rewrite Hscan.
Qed.

Lemma parse_value_dump_float fuel lit rest :
  float_lit_ok lit = true → ends_number rest →
  parse_value (S fuel) (dump_float lit +:+ rest) = Good (JFloat lit) rest.
Proof.
  intros Hlit Hrest. apply bool_decide_eq_true in Hlit. unfold dump_float.
  repeat case_decide; subst; [reflexivity..|].
  destruct Hlit as [?|[?|[?|Hscan]]]; [done..|].
  apply parse_value_number.
  by rewrite (scan_number_app _ _ _ _ Hrest Hscan).
Qed.

Lemma parse_value_dump_string fuel s rest :
  parse_value (S fuel) (dump_string s +:+ rest) = Good (JStr s) rest.
Proof.
  pose proof (scan_dump_string s rest) as Hscan.
  destruct (dump_string s +:+ rest) as [|c t]; [done|].
  destruct Hscan as [-> Hscan]. cbn [parse_value].
  rewrite decide_True by done. by rewrite Hscan.
Qed.

(** ** Decoding what the encoder writes: containers *)

Lemma solid_sep_join sep p ps : solid p → solid (sep_join sep (p :: ps)).
Proof. destruct ps; [done|]. rewrite sep_join_cons. apply solid_app. Qed.

Lemma ends_number_newline_indent indent level s :
  ends_number (newline_indent indent level +:+ s).
Proof. unfold newline_indent. by rewrite string_app_cons. Qed.

(** After the last item: the closing line, then the closing bracket. *)
Lemma skip_ws_closing indent level c rest :
  is_ws c = false →
  skip_ws (newline_indent indent level +:+ String c rest) = String c rest.
Proof. intros Hc. rewrite skip_ws_newline_indent. cbn. by rewrite Hc. Qed.

(** After the separator: the line of the next item. *)
Lemma skip_ws_next indent level s rest :
  solid s → skip_ws (newline_indent indent level +:+ s +:+ rest) = s +:+ rest.
Proof. intros Hs. by rewrite skip_ws_newline_indent, skip_ws_solid_app. Qed.

Section containers.
Context (indent : nat).

(** The round trip of one value, at any depth and in front of any text
    that does not continue a number. *)
Definition decodes (v : json) : Prop :=
  ∀ fuel level rest,
    json_size v ≤ fuel → ends_number rest →
    parse_value fuel (dump indent level v +:+ rest) = Good v rest.

Definition items_size (xs : list json) : nat :=
  list_sum (map (λ x, S (json_size x)) xs).

Definition pairs_size (kvs : list (string * json)) : nat :=
  list_sum (map (λ kv, S (json_size kv.2)) kvs).

Definition dump_pair (level : nat) (kv : string * json) : string :=
  dump_string kv.1 +:+ ": " +:+ dump indent level kv.2.

Lemma solid_dump_pair level kv : solid (dump_pair level kv).
Proof. by eexists _, _. Qed.

Lemma parse_items_dump level x xs rest fuel :
  Forall decodes (x :: xs) → forallb json_valid (x :: xs) = true →
  items_size (x :: xs) ≤ fuel →
  parse_items fuel
    (sep_join ("," +:+ newline_indent indent (S level))
              (map (dump indent (S level)) (x :: xs))
     +:+ newline_indent indent level +:+ String "]" rest)
  = Good (x :: xs) rest.
Proof.
  revert x fuel. induction xs as [|y ys IH]; intros x fuel Hdec Hvalid Hfuel;
    apply Forall_cons in Hdec as [Hx Hdec];
    apply andb_true_iff in Hvalid as [Hvx Hvalid];
    (destruct fuel as [|fuel]; [cbn in Hfuel; lia|]);
    unfold items_size in *; simpl in Hfuel; cbn [parse_items map].
  - cbn [sep_join]. rewrite Hx by (done || lia || apply ends_number_newline_indent).
    cbn [parsed_bind]. by rewrite skip_ws_closing.
  - rewrite sep_join_cons, !string_app_assoc, string_app_cons, string_app_nil_l.
    rewrite Hx by (done || lia). cbn [parsed_bind].
    rewrite (skip_ws_solid (String "," _)), decide_True by done.
    rewrite skip_ws_next by (apply solid_sep_join, solid_dump;
                             by apply andb_true_iff in Hvalid as [? _]).
    change (dump indent (S level) y :: map ?f ys) with (map f (y :: ys)).
    rewrite (IH y fuel) by (done || (simpl; lia)). done.
Qed.

Lemma expect_dump_string k rest :
  expect dquote (dump_string k +:+ rest) = Some (escape k +:+ String dquote rest).
Proof.
  unfold dump_string. rewrite string_app_cons, string_app_assoc, string_app_cons.
  cbn. by rewrite decide_True.
Qed.

(** One pair: the key, the colon, the value, and then whatever the text
    after the pair asks for. *)
Lemma parse_pairs_dump_pair fuel level k v rest :
  decodes v → json_valid v = true → json_size v ≤ fuel → ends_number rest →
  parse_pairs (S fuel) (dump_pair level (k, v) +:+ rest) =
    match skip_ws rest with
    | String c r' =>
        if decide (c = ","%char)
        then parsed_map (cons (k, v)) (parse_pairs fuel (skip_ws r'))
        else if decide (c = "}"%char) then Good [(k, v)] r'
        else Bad "Expecting ',' delimiter"
    | EmptyString => Bad "Expecting ',' delimiter"
    end.
Proof.
  intros Hv Hvalid Hfuel Hrest. unfold dump_pair. cbn [parse_pairs fst snd].
  rewrite !string_app_assoc, expect_dump_string, scan_string_escape.
  cbn [parsed_bind]. rewrite !string_app_cons, string_app_nil_l.
  rewrite (skip_ws_solid (String ":" _)) by done. cbn [expect].
  rewrite decide_True by done.
  change (skip_ws (String " " ?s)) with (skip_ws s).
  by rewrite skip_ws_dump, Hv.
Qed.

Lemma parse_pairs_dump level kv kvs rest fuel :
  Forall (λ kv, decodes kv.2) (kv :: kvs) →
  forallb (λ kv, json_valid kv.2) (kv :: kvs) = true →
  pairs_size (kv :: kvs) ≤ fuel →
  parse_pairs fuel
    (sep_join ("," +:+ newline_indent indent (S level))
              (map (dump_pair (S level)) (kv :: kvs))
     +:+ newline_indent indent level +:+ String "}" rest)
  = Good (kv :: kvs) rest.
Proof.
  revert kv fuel. induction kvs as [|kv' kvs IH]; intros [k v] fuel Hdec Hvalid Hfuel;
    apply Forall_cons in Hdec as [Hv Hdec];
    apply andb_true_iff in Hvalid as [Hvv Hvalid];
    (destruct fuel as [|fuel]; [cbn in Hfuel; lia|]);
    unfold pairs_size in *; simpl in Hfuel.
  - cbn [sep_join map].
    rewrite parse_pairs_dump_pair
      by (done || lia || apply ends_number_newline_indent).
    by rewrite skip_ws_closing.
  - cbn [map]. rewrite sep_join_cons, !string_app_assoc, string_app_cons, string_app_nil_l.
    rewrite parse_pairs_dump_pair by (done || lia).
    rewrite (skip_ws_solid (String "," _)), decide_True by done.
    rewrite skip_ws_next by apply solid_sep_join, solid_dump_pair.
    change (dump_pair (S level) kv' :: map ?f kvs) with (map f (kv' :: kvs)).
    rewrite (IH kv' fuel) by (done || (simpl; lia)). done.
Qed.

End containers.

(** ** The round trip *)

Lemma Forall_forallb {A} (f : A → bool) (P : A → Prop) (xs : list A) :
  Forall (λ x, f x = true → P x) xs → forallb f xs = true → Forall P xs.
Proof.
  induction 1 as [|x xs Hx _ IH]; [done|]. cbn.
  intros [??]%andb_true_iff. constructor; auto.
Qed.

Lemma dict_of_pairs_app (acc kvs : list (string * json)) :
  NoDup (acc ++ kvs).*1 →
  foldl (λ d kv, dict_set kv.1 kv.2 d) acc kvs = acc ++ kvs.
Proof.
  revert acc. induction kvs as [|[k v] kvs IH]; intros acc Hnodup.
  - by rewrite app_nil_r.
  - cbn [foldl fst snd]. rewrite cons_middle, app_assoc in Hnodup |- *.
    assert (k ∉ acc.*1) as Hk.
    { rewrite !fmap_app in Hnodup. apply NoDup_app in Hnodup as (Hnodup & _ & _).
      apply NoDup_app in Hnodup as (_ & Hk & _). set_solver. }
    rewrite dict_set_fresh by done. by apply IH.
Qed.

(** Pairs without a repeated key are the dict they build. *)
Lemma dict_of_pairs_NoDup kvs : NoDup kvs.*1 → dict_of_pairs kvs = kvs.
Proof. apply (dict_of_pairs_app []). Qed.

Lemma parse_value_dump_arr indent x xs :
  Forall (decodes indent) (x :: xs) → forallb json_valid (x :: xs) = true →
  decodes indent (JArr (x :: xs)).
Proof.
  intros Hdec Hvalid [|fuel] level rest Hfuel Hrest; [cbn in Hfuel; lia|].
  cbn [dump]. unfold dump_block.
  rewrite !string_app_assoc, !string_app_cons, !string_app_nil_l.
  cbn [parse_value]. rewrite !decide_False, decide_True by done.
  assert (solid (sep_join ("," +:+ newline_indent indent (S level))
                          (map (dump indent (S level)) (x :: xs)))) as Hsolid.
  { apply solid_sep_join, solid_dump. by apply andb_true_iff in Hvalid as [? _]. }
  rewrite skip_ws_next, expect_solid_app by auto.
  change (String "," ?s) with ("," +:+ s).
  rewrite parse_items_dump; [done..|]. cbn in Hfuel. unfold items_size. cbn. lia.
Qed.

Lemma parse_value_dump_obj indent kv kvs :
  Forall (λ kv, decodes indent kv.2) (kv :: kvs) →
  forallb (λ kv, json_valid kv.2) (kv :: kvs) = true →
  NoDup (kv :: kvs).*1 →
  decodes indent (JObj (kv :: kvs)).
Proof.
  intros Hdec Hvalid Hnodup [|fuel] level rest Hfuel Hrest; [cbn in Hfuel; lia|].
  cbn [dump]. unfold dump_block.
  rewrite !string_app_assoc, !string_app_cons, !string_app_nil_l.
  cbn [parse_value]. rewrite decide_False, decide_True by done.
  assert (solid (sep_join ("," +:+ newline_indent indent (S level))
                          (map (dump_pair indent (S level)) (kv :: kvs)))) as Hsolid.
  { apply solid_sep_join, solid_dump_pair. }
  change (λ kv0 : string * json, dump_string kv0.1 +:+ ": " +:+ dump indent (S level) kv0.2)
    with (dump_pair indent (S level)).
  rewrite skip_ws_next, expect_solid_app by auto.
  change (String "," ?s) with ("," +:+ s).
  rewrite parse_pairs_dump; [|done..|].
  - cbn [parsed_map]. by rewrite dict_of_pairs_NoDup.
  - cbn in Hfuel. unfold pairs_size. cbn. lia.
Qed.

(** Decoding the text of a value gives the value back, whatever follows
    the text, as long as that cannot continue a number; a fuel of the
    value's size is enough. *)
Theorem parse_value_dump indent v : json_valid v = true → decodes indent v.
Proof.
  induction v as [|b|n|lit|s|xs IH|kvs IH] using json_ind'; intros Hvalid.
  1-5: intros [|fuel] level rest Hfuel Hrest; [cbn in Hfuel; lia|].
  - reflexivity.
  - by destruct b.
  - apply parse_value_number.
    apply (scan_number_app _ _ _ _ Hrest (scan_number_pretty n)).
  - by apply parse_value_dump_float.
  - apply parse_value_dump_string.
  - destruct xs as [|x xs].
    + by intros [|fuel] level rest Hfuel Hrest; [cbn in Hfuel; lia|].
    + cbn [json_valid] in Hvalid. apply parse_value_dump_arr; [|done].
      by eapply Forall_forallb.
  - destruct kvs as [|kv kvs].
    + by intros [|fuel] level rest Hfuel Hrest; [cbn in Hfuel; lia|].
    + cbn [json_valid] in Hvalid. apply andb_true_iff in Hvalid as [Hnodup Hvalid].
      apply bool_decide_eq_true in Hnodup.
      apply parse_value_dump_obj; [|done..].
      by eapply (Forall_forallb (λ kv, json_valid kv.2)).
Qed.

(** ** The fuel of [loads] *)

Lemma list_sum_map_le {A} (f g : A → nat) (xs : list A) :
  Forall (λ x, f x ≤ g x) xs → list_sum (map f xs) ≤ list_sum (map g xs).
Proof. induction 1; simpl; lia. Qed.

Lemma length_sep_join sep parts :
  1 ≤ String.length sep →
  list_sum (map (λ p, S (String.length p)) parts)
  ≤ S (String.length (sep_join sep parts)).
Proof.
  intros Hsep. induction parts as [|p [|q ps] IH]; [simpl; lia..|].
  rewrite sep_join_cons, !string_app_length.
  change (list_sum (map ?f (p :: ?l))) with (f p + list_sum (map f l)).
  cbn beta. lia.
Qed.

Lemma length_dump_block indent level items :
  list_sum (map (λ p, S (String.length p)) items) + 1
  ≤ String.length (dump_block indent level items).
Proof.
  unfold dump_block, newline_indent.
  pose proof (length_sep_join (String "," (String "010" (spaces (indent * S level)))) items).
  rewrite !string_app_length, !string_app_cons, string_app_nil_l. cbn [String.length] in *. lia.
Qed.

Lemma length_solid s : solid s → 1 ≤ String.length s.
Proof. intros (c & t & -> & _). cbn. lia. Qed.

(** The text of a value is at least as long as the fuel the value
    needs. *)
Lemma json_size_dump indent v :
  json_valid v = true → ∀ level, json_size v ≤ String.length (dump indent level v).
Proof.
  induction v as [|b|n|lit|s|xs IH|kvs IH] using json_ind'; intros Hvalid level.
  1-5: by apply length_solid, solid_dump.
  - destruct xs as [|x xs]; [cbn; lia|]. cbn [json_valid] in Hvalid.
    pose proof (length_dump_block indent level (map (dump indent (S level)) (x :: xs))) as Hlen.
    rewrite map_map in Hlen.
    assert (items_size (x :: xs)
            ≤ list_sum (map (λ x, S (String.length (dump indent (S level) x))) (x :: xs))).
    { apply list_sum_map_le.
      eapply Forall_impl; [apply (Forall_forallb json_valid _ _ IH Hvalid)|].
      intros y Hy. by apply le_n_S. }
    cbn [dump json_size]. rewrite !string_app_length. unfold items_size in *. lia.
  - destruct kvs as [|kv kvs]; [cbn; lia|]. cbn [json_valid] in Hvalid.
    apply andb_true_iff in Hvalid as [_ Hvalid].
    pose proof (length_dump_block indent level
                  (map (dump_pair indent (S level)) (kv :: kvs))) as Hlen.
    rewrite map_map in Hlen.
    assert (pairs_size (kv :: kvs)
            ≤ list_sum (map (λ kv, S (String.length (dump_pair indent (S level) kv)))
                            (kv :: kvs))).
    { apply list_sum_map_le.
      eapply Forall_impl;
        [apply (Forall_forallb (λ kv, json_valid kv.2) _ _ IH Hvalid)|].
      intros [k y] Hy. unfold dump_pair. cbn beta. cbn [snd] in *.
      rewrite !string_app_length. specialize (Hy (S level)). lia. }
    cbn [dump json_size]. rewrite !string_app_length. unfold pairs_size in *.
    change (λ kv0 : string * json, dump_string kv0.1 +:+ ": " +:+ dump indent (S level) kv0.2)
      with (dump_pair indent (S level)). lia.
Qed.

(** ** The codec *)

(** [json.loads(json.dumps(v, indent=n)) == v] *)
Theorem loads_dump indent v : json_valid v = true → loads (dump indent 0 v) = Ok v.
Proof.
  intros Hvalid. unfold loads.
  rewrite <-(string_app_nil_r (dump indent 0 v)) at 2.
  pose proof (json_size_dump indent v Hvalid 0).
  rewrite skip_ws_dump by done. by rewrite parse_value_dump by (done || lia).
Qed.

(** White space only. *)
Fixpoint blank (s : string) : bool :=
  match s with
  | String c s' => is_ws c && blank s'
  | EmptyString => true
  end.

Lemma skip_ws_blank_app ws s : blank ws = true → skip_ws (ws +:+ s) = skip_ws s.
Proof.
  induction ws as [|c ws IH]; [done|]. rewrite string_app_cons. cbn.
  intros [-> Hws]%andb_true_iff. auto.
Qed.

Lemma ends_number_blank ws : blank ws = true → ends_number ws.
Proof.
  destruct ws as [|c ws]; [done|]. cbn. intros [Hc _]%andb_true_iff.
  apply bool_decide_eq_true in Hc. by destruct Hc as [->|[->|[->| ->]]].
Qed.

(** C15. [json.loads] reads back what [json.dumps] wrote, with any white
    space before and after it. *)
Theorem loads_dump_padded indent v before after :
  json_valid v = true → blank before = true → blank after = true →
  loads (before +:+ dump indent 0 v +:+ after) = Ok v.
Proof.
  intros Hvalid Hbefore Hafter. unfold loads.
  pose proof (json_size_dump indent v Hvalid 0).
  rewrite skip_ws_blank_app, skip_ws_dump by done.
  rewrite parse_value_dump;
    [|done|rewrite !string_app_length; lia|by apply ends_number_blank].
  rewrite <-(string_app_nil_r after), skip_ws_blank_app by done. done.
Qed.

#[export] Instance json_text : JsonCodec := {|
  json_dumps indent v := dump indent 0 v;
  json_loads := loads;
  json_ok := json_valid;
  json_loads_dumps := loads_dump;
|}.

(** ** The codec on concrete text *)

Lemma parse_value_dump_witness :
  parse_value 5 (dump 2 1 (JArr [JInt (-7); JFloat "2.5e3"]) +:+ ", true]") =
    Good (JArr [JInt (-7); JFloat "2.5e3"]) ", true]".
Proof. apply (parse_value_dump 2 (JArr [JInt (-7); JFloat "2.5e3"])); by_compute. Defined.

Lemma loads_dump_witness :
  loads (dump 2 0 (JObj [("a", JArr [JNull; JStr "x/y"]); ("b", JFloat "inf")])) =
    Ok (JObj [("a", JArr [JNull; JStr "x/y"]); ("b", JFloat "inf")]).
Proof. apply loads_dump. by_compute. Defined.

Lemma loads_dump_padded_witness :
  loads (" " +:+ dump 2 0 (JObj [("a", JArr [JNull; JStr "x/y"]); ("b", JFloat "-inf")])
         +:+ String "010" "") =
    Ok (JObj [("a", JArr [JNull; JStr "x/y"]); ("b", JFloat "-inf")]).
Proof. by apply (loads_dump_padded 2 _ " " (String "010" "")). Defined.

Lemma json_size_dump_witness :
  json_size (JArr [JArr []; JInt 10]) ≤ String.length (dump 0 0 (JArr [JArr []; JInt 10])).
Proof. apply json_size_dump. by_compute. Defined.

(** The layout of [indent=2]: one item a line, two spaces a level, empty
    containers closed at once. *)
Example dump_layout :
  dump 2 0 (JArr [JInt 1; JArr []; JArr [JBool true; JFloat "-0.5"]; JObj []]) =
"[
  1,
  [],
  [
    true,
    -0.5
  ],
  {}
]".
Proof. reflexivity. Qed.

(** White space around the tokens is skipped, a number with a fraction
    or an exponent is a float, and a repeated key keeps its first place
    and its last value. *)
Example loads_text :
  loads (" { " +:+ dump_string "k" +:+ " : [1 , 2.0, -3e2 ],"
         +:+ dump_string "n" +:+ ":null, " +:+ dump_string "k" +:+ ": false } ") =
    Ok (JObj [("k", JBool false); ("n", JNull)]).
Proof. by_compute. Qed.

(** Text that is not JSON is refused: a trailing comma, a number with a
    leading zero followed by digits, text after the value. *)
Example loads_refused :
  loads "[1, 2,]" = Err (Exn JSONDecodeError "Expecting value")
  ∧ loads "012" = Err (Exn JSONDecodeError "Extra data")
  ∧ loads "[] []" = Err (Exn JSONDecodeError "Extra data")
  ∧ loads "" = Err (Exn JSONDecodeError "Expecting value").
Proof. repeat split; by_compute. Qed.

(** A value with a repeated key is outside the round trip: the encoder
    writes both pairs and the decoder keeps one. *)
Example loads_dump_repeated_key :
  loads (dump 2 0 (JObj [("k", JInt 1); ("k", JInt 2)])) = Ok (JObj [("k", JInt 2)]).
Proof. by_compute. Qed.
