(* ===== verification/Http.v ===== *)
(** * Http: requests and responses of the four functions

    Each function receives a Flask request and returns a triple
    [(body, status, headers)].  Of the request the handlers read the method
    and the decoded JSON body; [get_json(silent=True)] gives [None] for a
    body that is missing or not JSON.  The body of a response is empty (the
    CORS preflight) or [jsonify] of a dict. *)

From S2P Require Import Prelude PyStr PyDict Json.

Record request : Type := Request {
  method : string;
  body : option json;
}.

(** [request.get_json(silent=True)] *)
Definition get_json (r : request) : json := default JNull (body r).

Inductive payload : Type :=
| Empty
| Jsonify (v : json).

Record response : Type := Response {
  payload_of : payload;
  status : nat;
  headers : list (string * string);
}.

#[export] Instance payload_eq_dec : EqDecision payload.
Proof. solve_decision. Defined.
#[export] Instance response_eq_dec : EqDecision response.
Proof. solve_decision. Defined.

(** The headers of the answer to [OPTIONS]. *)
Definition preflight_headers : list (string * string) :=
  [("Access-Control-Allow-Origin", "*");
   ("Access-Control-Allow-Methods", "POST");
   ("Access-Control-Allow-Headers", "Content-Type");
   ("Access-Control-Max-Age", "3600")].

(** [return ('', 204, headers)] *)
Definition preflight : response := Response Empty 204 preflight_headers.

(** The headers of every other answer. *)
Definition cors_headers : list (string * string) :=
  [("Access-Control-Allow-Origin", "*")].

(** [(jsonify({'success': False, 'error': msg}), code, headers)] *)
Definition failure (code : nat) (msg : string) : response :=
  Response (Jsonify (JObj [("success", JBool false); ("error", JStr msg)]))
           code cors_headers.

(** [f'Document {document_id} not found'], status 404. *)
Definition document_not_found (document_id : json) : response :=
  failure 404 ("Document " +:+ py_str document_id +:+ " not found").

(** [(jsonify(fields), 200, headers)] *)
Definition success (fields : list (string * json)) : response :=
  Response (Jsonify (JObj fields)) 200 cors_headers.

(** [len(xs)] as a JSON number. *)
Definition JLen {A} (xs : list A) : json := JInt (Z.of_nat (length xs)).

(** A field of a JSON response body. *)
Definition field (name : string) (r : response) : option json :=
  match payload_of r with
  | Jsonify (JObj fields) => dict_lookup name fields
  | _ => None
  end.

Lemma status_failure code msg : status (failure code msg) = code.
Proof. done. Qed.

Lemma status_success fields : status (success fields) = 200.
Proof. done. Qed.

Lemma field_failure_success code msg : field "success" (failure code msg) = Some (JBool false).
Proof. done. Qed.

Lemma field_failure_error code msg : field "error" (failure code msg) = Some (JStr msg).
Proof. done. Qed.

Lemma failure_inj code msg code' msg' :
  failure code msg = failure code' msg' → code = code' ∧ msg = msg'.
Proof. by intros [= -> ->]. Qed.
