(* ===== verification/Proxy.v ===== *)
(** * Proxy: the [scrape_linkedin] function

    [scrape_linkedin] posts the decoded body of the request to one fixed
    URL and relays the JSON the remote answers.  The remote is a function
    from the posted body to what the HTTP client returns or raises; the
    state of a run is the log of what was posted, so that the theorems can
    say what was forwarded and how often. *)

From S2P Require Import Prelude PyStr PyDict Json Prog Http.

(** ** The HTTP client *)

(** What the handler reads of a [requests.Response]: [status_code], and
    [json()], which raises when the body is not JSON. *)
Record upstream : Type := Upstream {
  status_code : nat;
  json_of : res json;
}.

(** [response.ok]: the status is not a client or server error. *)
Definition ok (r : upstream) : bool :=
  negb (bool_decide (400 ≤ status_code r < 600)).

(** [requests.post(url, json=body, headers={'Content-Type': content_type},
    timeout=timeout)] *)
Inductive httpE : Type → Type :=
| Post (url : string) (body : json) (content_type : string) (timeout : nat)
    : httpE upstream.

(** ** The handler *)

Definition toolhouse_url : string :=
  "https://agents.toolhouse.ai/7078fef9-081e-4f8c-b8ac-c816ef13c75f".

(** [(jsonify({'error': msg}), code, headers)] *)
Definition proxy_error (code : nat) (msg : string) : response :=
  Response (Jsonify (JObj [("error", JStr msg)])) code cors_headers.

(** The body of the [try]. *)
Definition scrape_body (request : request) : prog httpE response :=
  let request_json := get_json request in
  if negb (truthy request_json) then Ret (proxy_error 400 "No request body")
  else
    response ← call (Post toolhouse_url request_json "application/json" 60);
    if negb (ok response)
    then Ret (proxy_error 500 ("Toolhouse error: " +:+ pretty (status_code response)))
    else
      data ← lift (json_of response);
      Ret (Response (Jsonify data) 200 cors_headers).

(** [scrape_linkedin(request)] *)
Definition scrape_linkedin (request : request) : prog httpE response :=
  if decide (method request = "OPTIONS") then Ret preflight
  else catch (scrape_body request) (λ e, Ret (proxy_error 500 (exn_str e))).

(** ** Running against a remote *)

(** One post: the url and the body. *)
Definition posted : Type := string * json.

Section remote.
(** What the client returns for a post, or the exception it raises
    (connection failure, timeout). *)
Context (remote : string → json → res upstream).

Definition http_call (R : Type) (ev : httpE R) (log : list posted)
    : res R * list posted :=
  match ev in httpE R return res R * list posted with
  | Post url body _ _ => (remote url body, log ++ [(url, body)])
  end.

Abbreviation run_http := (run http_call).

Context (req : request) (Hmethod : method req ≠ "OPTIONS").

Lemma run_scrape_linkedin log :
  run_http (scrape_linkedin req) log =
    run_http (catch (scrape_body req) (λ e, Ret (proxy_error 500 (exn_str e)))) log.
Proof. unfold scrape_linkedin. by rewrite decide_False. Qed.

(** A missing or falsy body is answered 400 and nothing is posted. *)
Theorem scrape_linkedin_no_body :
  truthy (get_json req) = false →
  scrape_linkedin req = Ret (proxy_error 400 "No request body").
Proof.
  intros Hfalsy. unfold scrape_linkedin, scrape_body.
  rewrite decide_False by done. by rewrite Hfalsy.
Qed.

Context (Htruthy : truthy (get_json req) = true).

(** With a body the handler posts it, as it is, to the fixed URL, once. *)
Lemma run_scrape_body log :
  run_http (scrape_body req) log =
    run_http (response ← lift (remote toolhouse_url (get_json req));
              if negb (ok response)
              then Ret (proxy_error 500
                          ("Toolhouse error: " +:+ pretty (status_code response)))
              else
                data ← lift (json_of response);
                Ret (Response (Jsonify data) 200 cors_headers))
             (log ++ [(toolhouse_url, get_json req)]).
Proof.
  unfold scrape_body. rewrite Htruthy. cbn [negb].
  rewrite !run_mbind, run_call, run_lift. done.
Qed.

(** C38. The JSON of a remote answer that is not an error is relayed, with
    status 200 whatever the status of the remote. *)
Theorem scrape_linkedin_relays log r data :
  remote toolhouse_url (get_json req) = Ok r →
  ok r = true → json_of r = Ok data →
  run_http (scrape_linkedin req) log =
    (Ok (Response (Jsonify data) 200 cors_headers),
     log ++ [(toolhouse_url, get_json req)]).
Proof.
  intros Hr Hok Hdata.
  rewrite run_scrape_linkedin, run_catch, run_scrape_body, Hr.
  cbn [lift mbind prog_bind bind]. by rewrite Hok, Hdata.
Qed.

(** C40. An error status of the remote is answered 500 with that status in
    the message; the body of the remote is not read. *)
Theorem scrape_linkedin_upstream_error log r :
  remote toolhouse_url (get_json req) = Ok r →
  ok r = false →
  run_http (scrape_linkedin req) log =
    (Ok (proxy_error 500 ("Toolhouse error: " +:+ pretty (status_code r))),
     log ++ [(toolhouse_url, get_json req)]).
Proof.
  intros Hr Hok.
  rewrite run_scrape_linkedin, run_catch, run_scrape_body, Hr.
  cbn [lift mbind prog_bind bind]. by rewrite Hok.
Qed.

(** A failure of the client, or a remote body that is not JSON, is
    answered 500 with the message of the exception. *)
Theorem scrape_linkedin_failure log e :
  remote toolhouse_url (get_json req) = Err e
  ∨ (∃ r, remote toolhouse_url (get_json req) = Ok r ∧ ok r = true ∧ json_of r = Err e) →
  run_http (scrape_linkedin req) log =
    (Ok (proxy_error 500 (exn_str e)), log ++ [(toolhouse_url, get_json req)]).
Proof.
  intros Hfail. rewrite run_scrape_linkedin, run_catch, run_scrape_body.
  destruct Hfail as [->|(r & -> & Hok & Hdata)]; [done|].
  cbn [lift mbind prog_bind bind]. by rewrite Hok, Hdata.
Qed.

End remote.

(** ** Every request, every remote *)

Section every.
Context (remote : string → json → res upstream).

(** C39. The handler answers every request, with status 200, 204, 400 or 500,
    and posts at most once: nothing, or the body of the request to the
    fixed URL. *)
Theorem scrape_linkedin_answers req log :
  ∃ resp,
    (run (http_call remote) (scrape_linkedin req) log).1 = Ok resp
    ∧ status resp ∈ [200; 204; 400; 500]
    ∧ ((run (http_call remote) (scrape_linkedin req) log).2 = log
       ∨ (run (http_call remote) (scrape_linkedin req) log).2
         = log ++ [(toolhouse_url, get_json req)]).
Proof.
  unfold scrape_linkedin. case_decide.
  { eexists. split_and!; [done|set_solver|by left]. }
  rewrite run_catch. unfold scrape_body.
  destruct (truthy (get_json req)); cbn [negb].
  2: { eexists. split_and!; [done|set_solver|by left]. }
  rewrite run_mbind, run_call. cbn [http_call].
  destruct (remote _ _) as [r|e]; cbn [run].
  2: { eexists. split_and!; [done|set_solver|by right]. }
  destruct (ok r); cbn [negb].
  2: { eexists. split_and!; [done|set_solver|by right]. }
  destruct (json_of r) as [data|e]; cbn;
    eexists; (split_and!; [done|set_solver|by right]).
Qed.

End every.

(** ** The theorems at sample requests *)

Definition profile_request : request :=
  Request "POST" (Some (JObj [("message", JStr "https://example.org/in/jane")])).

(** A remote that answers 201 with a profile, and one that answers 502. *)
Definition created (_ : string) (_ : json) : res upstream :=
  Ok (Upstream 201 (Ok (JObj [("name", JStr "Jane")]))).

Definition bad_gateway (_ : string) (_ : json) : res upstream :=
  Ok (Upstream 502 (Err (Exn JSONDecodeError "Expecting value"))).

Definition unreachable (_ : string) (_ : json) : res upstream :=
  Err (Exn ConnectionError "Max retries exceeded").

Lemma scrape_linkedin_no_body_witness :
  scrape_linkedin (Request "POST" None) = Ret (proxy_error 400 "No request body").
Proof. by apply scrape_linkedin_no_body. Defined.

Lemma scrape_linkedin_relays_witness :
  run (http_call created) (scrape_linkedin profile_request) [] =
    (Ok (Response (Jsonify (JObj [("name", JStr "Jane")])) 200 cors_headers),
     [(toolhouse_url, get_json profile_request)]).
Proof.
  by eapply (scrape_linkedin_relays created)
    with (r := Upstream 201 (Ok (JObj [("name", JStr "Jane")]))).
Defined.

Lemma scrape_linkedin_upstream_error_witness :
  run (http_call bad_gateway) (scrape_linkedin profile_request) [] =
    (Ok (proxy_error 500 "Toolhouse error: 502"),
     [(toolhouse_url, get_json profile_request)]).
Proof.
  by eapply (scrape_linkedin_upstream_error bad_gateway)
    with (r := Upstream 502 (Err (Exn JSONDecodeError "Expecting value"))).
Defined.

Lemma scrape_linkedin_failure_witness :
  run (http_call unreachable) (scrape_linkedin profile_request) [] =
    (Ok (proxy_error 500 "Max retries exceeded"),
     [(toolhouse_url, get_json profile_request)]).
Proof.
  eapply (scrape_linkedin_failure unreachable)
    with (e := Exn ConnectionError "Max retries exceeded"); [done..|by left].
Defined.

(** An error answer of the proxy has no [success] field, where the error
    answers of the storage functions have [success = false]. *)
Example proxy_error_no_success code msg :
  field "success" (proxy_error code msg) = None
  ∧ field "success" (failure code msg) = Some (JBool false).
Proof. done. Qed.
