(* ===== verification/Samples.v ===== *)
(** * Samples: requests and stores the theorems are applied to

    A document of two chunks with its metadata, the requests that save,
    read and delete it, and a store that holds documents of two users.
    Every value is one [json.loads] can deliver, so the codec round trip
    applies to it. *)

From S2P Require Import Prelude PyStr PyDict Json Gcs KeySpace Codec JsonLex JsonText Http.

Definition sample_chunks : list json :=
  [JObj [("text", JStr "alpha"); ("embedding", JArr [JFloat "0.25"; JInt (-1)])];
   JObj [("text", JStr "beta"); ("embedding", JArr [JFloat "1e-3"; JInt 0])]].

Definition sample_metadata : json :=
  JObj [("fileName", JStr "a.pdf"); ("pages", JInt 2); ("tags", JArr [])].

Definition save_fields : list (string * json) :=
  [("userId", JStr "u1"); ("documentId", JStr "d1"); ("fileName", JStr "a.pdf");
   ("chunks", JArr sample_chunks); ("metadata", sample_metadata)].

Definition post (fields : list (string * json)) : request :=
  Request "POST" (Some (JObj fields)).

(** Save document [d1] of user [u1]. *)
Definition save_request : request := post save_fields.

(** Save document [d1] of user [u1] again, with other content. *)
Definition resave_fields : list (string * json) :=
  [("userId", JStr "u1"); ("documentId", JStr "d1"); ("fileName", JStr "a2.pdf");
   ("chunks", JArr [JStr "omega"]); ("metadata", JObj [("pages", JInt 9)])].

Definition resave_request : request := post resave_fields.

(** Read or delete document [d1] of user [u1]. *)
Definition document_fields : list (string * json) :=
  [("userId", JStr "u1"); ("documentId", JStr "d1")].

Definition document_request : request := post document_fields.

(** Read or delete document [d2] of user [u1]. *)
Definition second_fields : list (string * json) :=
  [("userId", JStr "u1"); ("documentId", JStr "d2")].

Definition second_request : request := post second_fields.

(** Read or delete every document of user [u1]. *)
Definition user_fields : list (string * json) := [("userId", JStr "u1")].

Definition user_request : request := post user_fields.

(** The bucket of the service with nothing in it. *)
Definition empty_bucket : store := {[BUCKET_NAME := ∅]}.

(** The bucket with document [d1] of user [u1] in it. *)
Definition sample_objects : objects :=
  {[chunks_blob_name "u1" "d1" := dump 2 0 (JArr sample_chunks);
    metadata_blob_name "u1" "d1" := dump 2 0 sample_metadata]}.

Definition sample_store : store := {[BUCKET_NAME := sample_objects]}.

(** Two documents of [u1], the second without metadata, and one of
    [u2]. *)
Definition shared_objects : objects :=
  <[chunks_blob_name "u1" "d2" := dump 2 0 (JArr [JStr "gamma"])]>
   (<[chunks_blob_name "u2" "d1" := dump 2 0 (JArr [JStr "delta"])]>
     (<[metadata_blob_name "u2" "d1" := dump 2 0 (JObj [])]> sample_objects)).

Definition shared_store : store := {[BUCKET_NAME := shared_objects]}.

(** The same with an object that no Save wrote, one level below the
    metadata name of the second document. *)
Definition stray_objects : objects :=
  <[metadata_blob_name "u1" "d2" +:+ "/x" := dump 2 0 (JObj [])]> shared_objects.

Definition stray_store : store := {[BUCKET_NAME := stray_objects]}.

(** What Save leaves for a document whose id holds a slash. *)
Definition slash_objects : objects :=
  {[chunks_blob_name "u1" "a/b" := dump 2 0 (JArr sample_chunks);
    metadata_blob_name "u1" "a/b" := dump 2 0 sample_metadata]}.

Definition slash_store : store := {[BUCKET_NAME := slash_objects]}.

(** A Save with that document id. *)
Definition slash_save : request :=
  post (dict_set "documentId" (JStr "a/b") save_fields).

(** A document of the user whose id is [u1/documents/x]. *)
Definition nested_objects : objects :=
  {[chunks_blob_name "u1/documents/x" "d1" := dump 2 0 (JArr sample_chunks);
    metadata_blob_name "u1/documents/x" "d1" := dump 2 0 sample_metadata]}.

Definition nested_store : store := {[BUCKET_NAME := nested_objects]}.

Lemma sample_chunks_valid : json_valid (JArr sample_chunks) = true.
Proof. by vm_compute. Qed.

Lemma sample_metadata_valid : json_valid sample_metadata = true.
Proof. by vm_compute. Qed.
