(* ===== verification/Save.v ===== *)
(** * Save: the [save_embeddings] function

    [save_embeddings] validates the request, makes sure the bucket exists,
    and writes the two objects of the document: the chunks, then the
    metadata.  Validation reads the decoded body only; every failure of it
    returns before the first call to the store. *)

From S2P Require Import Prelude PyStr PyDict Json Prog Gcs KeySpace Codec.
From S2P Require Import JsonLex JsonText Http Samples.

Section save.
Context `{JsonCodec}.

Definition required_fields : list string :=
  ["userId"; "documentId"; "fileName"; "chunks"; "metadata"].

(** [for field in required_fields: if field not in request_json: return 400]:
    the answer for the first field that is missing, if any. *)
Fixpoint check_required (fields : list string) (request_json : json)
    : res (option response) :=
  match fields with
  | [] => Ok None
  | field :: fields' =>
      match py_in field request_json with
      | Err e => Err e
      | Ok false => Ok (Some (failure 400 ("Missing required field: " +:+ field)))
      | Ok true => check_required fields' request_json
      end
  end.

(** The [try] block around the bucket: create it when it does not exist,
    and go on with the bucket whatever was raised. *)
Definition get_or_create_bucket : prog storeE unit :=
  catch
    (bucket_exists ← call (BucketExists BUCKET_NAME);
     if negb bucket_exists
     then call (CreateBucket BUCKET_NAME "us-central1")
     else Ret ())
    (λ _, Ret ()).

(** The two uploads, chunks first. *)
Definition save_objects (user_id document_id chunks metadata : json)
    : prog storeE string :=
  let chunks_blob := chunks_blob_name (py_str user_id) (py_str document_id) in
  _ ← call (UploadFromString BUCKET_NAME chunks_blob
              (json_dumps 2 chunks) "application/json");
  let metadata_blob := metadata_blob_name (py_str user_id) (py_str document_id) in
  _ ← call (UploadFromString BUCKET_NAME metadata_blob
              (json_dumps 2 metadata) "application/json");
  Ret chunks_blob.

(** The answer to a saved document. *)
Definition save_response (document_id file_name : json) (n_chunks : nat)
    (chunks_blob : string) : response :=
  success
    [("success", JBool true);
     ("documentId", document_id);
     ("chunksSaved", JInt (Z.of_nat n_chunks));
     ("storageUrl", JStr (storage_url chunks_blob));
     ("storage", JStr "cloud");
     ("message", JStr ("Successfully saved " +:+ pretty n_chunks
                       +:+ " chunks for " +:+ py_str file_name))].

(** The body of the outer [try]. *)
Definition save_body (request : request) : prog storeE response :=
  let request_json := get_json request in
  if negb (truthy request_json) then Ret (failure 400 "No JSON data provided")
  else
    missing ← lift (check_required required_fields request_json);
    match missing with
    | Some resp => Ret resp
    | None =>
        user_id ← lift (py_getitem request_json "userId");
        document_id ← lift (py_getitem request_json "documentId");
        file_name ← lift (py_getitem request_json "fileName");
        chunks ← lift (py_getitem request_json "chunks");
        metadata ← lift (py_getitem request_json "metadata");
        if negb (isinstance_list chunks)
        then Ret (failure 400 "chunks must be an array")
        else
          n_chunks ← lift (py_len chunks);
          if decide (n_chunks = 0)
          then Ret (failure 400 "chunks array is empty")
          else
            _ ← get_or_create_bucket;
            chunks_blob ← save_objects user_id document_id chunks metadata;
            Ret (save_response document_id file_name n_chunks chunks_blob)
    end.

(** [save_embeddings(request)] *)
Definition save_embeddings (request : request) : prog storeE response :=
  if decide (method request = "OPTIONS") then Ret preflight
  else catch (save_body request) (λ e, Ret (failure 500 (exn_str e))).

End save.

(** ** Validation *)

Section save_facts.
Context `{JsonCodec}.

(** The first required field that a dict lacks. *)
Definition missing_field (fields : list string) (kvs : list (string * json))
    : option string :=
  head (filter (λ f, dict_lookup f kvs = None) fields).

Lemma check_required_dict fields kvs :
  check_required fields (JObj kvs) =
    Ok ((λ f, failure 400 ("Missing required field: " +:+ f)) <$> missing_field fields kvs).
Proof.
  unfold missing_field. induction fields as [|f fields IH]; [done|].
  cbn [check_required py_in]. rewrite filter_cons.
  destruct (dict_lookup f kvs) as [v|] eqn:E.
  - rewrite bool_decide_eq_true_2 by eauto. by rewrite decide_False.
  - rewrite bool_decide_eq_false_2 by (by intros [??]). by rewrite decide_True.
Qed.

Lemma missing_field_None fields kvs :
  missing_field fields kvs = None ↔ ∀ f, f ∈ fields → is_Some (dict_lookup f kvs).
Proof.
  unfold missing_field. rewrite head_None. split.
  - intros Hnil f Hf. destruct (dict_lookup f kvs) eqn:E; [eauto|].
    assert (f ∈ filter (λ f, dict_lookup f kvs = None) fields) as Hin
      by by apply list_elem_of_filter.
    rewrite Hnil in Hin. by apply elem_of_nil in Hin.
  - intros Hall. induction fields as [|f fields IH]; [done|].
    rewrite filter_cons. destruct (Hall f) as [v Hv]; [left|].
    rewrite decide_False by congruence. apply IH. intros g Hg. apply Hall. by right.
Qed.

(** ** Requests that fail validation

    Each of them is answered without a call: the handler is a leaf. *)

Section save_invalid.
Context (req : request) (Hmethod : method req ≠ "OPTIONS").

(** The preflight is answered before the body is read. *)
Lemma save_embeddings_options r :
  method r = "OPTIONS" → save_embeddings r = Ret preflight.
Proof. intros Hr. unfold save_embeddings. by rewrite decide_True. Qed.

(** A missing, undecodable or falsy body ([null], [false], [0], [""],
    [[]], [{}]). *)
Theorem save_embeddings_no_json :
  truthy (get_json req) = false →
  save_embeddings req = Ret (failure 400 "No JSON data provided").
Proof.
  intros Hfalsy. unfold save_embeddings, save_body.
  rewrite decide_False by done. by rewrite Hfalsy.
Qed.

Context (kvs : list (string * json)) (Hbody : body req = Some (JObj kvs)).
Context (Hkvs : kvs ≠ []).

Lemma save_invalid_json : get_json req = JObj kvs.
Proof. unfold get_json. by rewrite Hbody. Qed.

Lemma save_invalid_truthy : truthy (JObj kvs) = true.
Proof. by destruct kvs. Qed.

(** C30. A non-empty dict that lacks a required field is answered 400
    naming the first missing field in the order userId, documentId,
    fileName, chunks, metadata, and the store is not called (an empty
    dict is answered as no data). *)
Theorem save_embeddings_missing_field f :
  missing_field required_fields kvs = Some f →
  save_embeddings req = Ret (failure 400 ("Missing required field: " +:+ f)).
Proof.
  intros Hf. unfold save_embeddings, save_body.
  rewrite decide_False, save_invalid_json, save_invalid_truthy by done.
  by rewrite check_required_dict, Hf.
Qed.

Context (user_id document_id file_name chunks metadata : json).
Context (Huser : dict_lookup "userId" kvs = Some user_id).
Context (Hdoc : dict_lookup "documentId" kvs = Some document_id).
Context (Hfile : dict_lookup "fileName" kvs = Some file_name).
Context (Hchunks : dict_lookup "chunks" kvs = Some chunks).
Context (Hmeta : dict_lookup "metadata" kvs = Some metadata).

Lemma save_invalid_missing_None : missing_field required_fields kvs = None.
Proof.
  apply missing_field_None. intros f Hf.
  repeat (apply elem_of_cons in Hf as [->|Hf]; [eauto|]). by apply elem_of_nil in Hf.
Qed.

(** With the five fields present the handler goes on to the type tests. *)
Lemma save_body_fields :
  save_body req =
    if negb (isinstance_list chunks)
    then Ret (failure 400 "chunks must be an array")
    else
      n_chunks ← lift (py_len chunks);
      if decide (n_chunks = 0)
      then Ret (failure 400 "chunks array is empty")
      else
        _ ← get_or_create_bucket;
        chunks_blob ← save_objects user_id document_id chunks metadata;
        Ret (save_response document_id file_name n_chunks chunks_blob).
Proof.
  unfold save_body. rewrite save_invalid_json, save_invalid_truthy. cbn [negb].
  rewrite check_required_dict, save_invalid_missing_None.
  cbn [fmap option_fmap option_map lift mbind prog_bind bind].
  unfold py_getitem. by rewrite Huser, Hdoc, Hfile, Hchunks, Hmeta.
Qed.

(** Chunks that are not a list. *)
Theorem save_embeddings_chunks_not_list :
  isinstance_list chunks = false →
  save_embeddings req = Ret (failure 400 "chunks must be an array").
Proof.
  intros Hlist. unfold save_embeddings. rewrite decide_False by done.
  by rewrite save_body_fields, Hlist.
Qed.

(** An empty chunks array is answered 400 and the store is not
    called. *)
Theorem save_embeddings_empty_chunks :
  chunks = JArr [] →
  save_embeddings req = Ret (failure 400 "chunks array is empty").
Proof.
  intros Hempty. unfold save_embeddings. rewrite decide_False by done.
  by rewrite save_body_fields, Hempty.
Qed.

End save_invalid.

(** ** The bucket *)

(** The store with the bucket of the service in it. *)
Definition with_bucket (st : store) : store :=
  <[BUCKET_NAME := bucket_objects BUCKET_NAME st]> st.

Lemma with_bucket_lookup st :
  with_bucket st !! BUCKET_NAME = Some (bucket_objects BUCKET_NAME st).
Proof. apply lookup_insert_eq. Qed.

Lemma with_bucket_id st : is_Some (st !! BUCKET_NAME) → with_bucket st = st.
Proof.
  intros [objs Hobjs]. unfold with_bucket, bucket_objects.
  rewrite Hobjs. by apply insert_id.
Qed.

(** On a reliable cloud the bucket exists afterwards, with the objects it
    had. *)
Lemma run_get_or_create_bucket st :
  run_cloud get_or_create_bucket (reliable st) = (Ok (), reliable (with_bucket st)).
Proof.
  unfold get_or_create_bucket. run_simpl.
  destruct (st !! BUCKET_NAME) as [objs|] eqn:E.
  - rewrite bool_decide_eq_true_2 by eauto. run_simpl.
    by rewrite with_bucket_id by eauto.
  - rewrite bool_decide_eq_false_2 by (by intros [??]). run_simpl.
    unfold with_bucket, bucket_objects. by rewrite E.
Qed.

(** Whatever the cloud does, the block does not raise. *)
Lemma get_or_create_bucket_total c :
  (run_cloud get_or_create_bucket c).1 = Ok ().
Proof.
  unfold get_or_create_bucket. rewrite run_catch.
  by destruct (run_cloud _ c) as [[[]|e] c'].
Qed.

(** ** The validated request *)

Section save_valid.
Context (req : request) (kvs : list (string * json)).
Context (user_id document_id file_name metadata : json) (chunks : list json).
Context (Hmethod : method req ≠ "OPTIONS") (Hbody : body req = Some (JObj kvs)).
Context (Huser : dict_lookup "userId" kvs = Some user_id).
Context (Hdoc : dict_lookup "documentId" kvs = Some document_id).
Context (Hfile : dict_lookup "fileName" kvs = Some file_name).
Context (Hchunks : dict_lookup "chunks" kvs = Some (JArr chunks)).
Context (Hmeta : dict_lookup "metadata" kvs = Some metadata).
Context (Hnonempty : chunks ≠ []).

(** A request that passes validation reduces to the store part of the
    handler. *)
Lemma save_body_valid :
  save_body req =
    (_ ← get_or_create_bucket;
     chunks_blob ← save_objects user_id document_id (JArr chunks) metadata;
     Ret (save_response document_id file_name (length chunks) chunks_blob)).
Proof.
  erewrite save_body_fields by (try done; by intros ->).
  cbn [isinstance_list negb py_len lift mbind prog_bind bind].
  by destruct chunks.
Qed.

Let u := py_str user_id.
Let d := py_str document_id.

(** The store after Save: the bucket exists and holds the two objects of
    the document; every other object is as it was. *)
Definition saved_store (st : store) : store :=
  <[BUCKET_NAME :=
      <[metadata_blob_name u d := json_dumps 2 metadata]>
        (<[chunks_blob_name u d := json_dumps 2 (JArr chunks)]>
           (bucket_objects BUCKET_NAME st))]> st.

Lemma run_save_objects st :
  run_cloud (save_objects user_id document_id (JArr chunks) metadata)
            (reliable (with_bucket st)) =
    (Ok (chunks_blob_name u d), reliable (saved_store st)).
Proof.
  unfold save_objects. run_simpl. unfold saved_store, with_bucket.
  by rewrite !insert_insert_eq.
Qed.

Lemma run_save_embeddings c :
  run_cloud (save_embeddings req) c =
    run_cloud (catch (save_body req) (λ e, Ret (failure 500 (exn_str e)))) c.
Proof. unfold save_embeddings. by rewrite decide_False. Qed.

(** The body on a reliable store: the bucket, then both uploads. *)
Lemma run_save_body st :
  run_cloud (save_body req) (reliable st) =
    (Ok (save_response document_id file_name (length chunks) (chunks_blob_name u d)),
     reliable (saved_store st)).
Proof.
  rewrite save_body_valid. run_simpl.
  rewrite run_get_or_create_bucket. run_simpl.
  rewrite run_save_objects. by run_simpl.
Qed.

(** C1. On a reliable store a valid request is answered 200 with the
    number of chunks and the locator of the chunks object, and the store
    then holds both objects of the document. *)
Theorem save_embeddings_ok st :
  run_cloud (save_embeddings req) (reliable st) =
    (Ok (save_response document_id file_name (length chunks) (chunks_blob_name u d)),
     reliable (saved_store st)).
Proof. by rewrite run_save_embeddings, run_catch, run_save_body. Qed.

(** C31. The two writes are not atomic: when the second upload fails, the
    request is answered 500 with the message of the failure, and the store
    keeps the new chunks beside whatever metadata it had. *)
Theorem save_embeddings_partial_write st objs e :
  st !! BUCKET_NAME = Some objs →
  run_cloud (save_embeddings req) (Cloud st [None; None; Some e]) =
    (Ok (failure 500 (exn_str e)),
     Cloud (<[BUCKET_NAME :=
                <[chunks_blob_name u d := json_dumps 2 (JArr chunks)]> objs]> st) []).
Proof.
  intros Hobjs. unfold save_embeddings. rewrite decide_False by done.
  rewrite save_body_valid. unfold get_or_create_bucket, save_objects.
  run_simpl. rewrite bool_decide_eq_true_2 by eauto. by run_simpl.
Qed.

(** A failure of the bucket test is swallowed: the uploads go ahead. *)
Theorem save_embeddings_bucket_fault st objs e :
  st !! BUCKET_NAME = Some objs →
  run_cloud (save_embeddings req) (Cloud st [Some e]) =
    (Ok (save_response document_id file_name (length chunks) (chunks_blob_name u d)),
     reliable (saved_store st)).
Proof.
  intros Hobjs. unfold save_embeddings. rewrite decide_False by done.
  rewrite save_body_valid. unfold get_or_create_bucket. run_simpl.
  fold (reliable st). rewrite <-(with_bucket_id st) at 1 by eauto.
  rewrite run_save_objects. by run_simpl.
Qed.

End save_valid.

(** ** Every request, every cloud *)

(** The calls Save can make: the bucket test and creation, and uploads of
    a chunks or metadata object into the bucket of the service. *)
Definition save_call (R : Type) (ev : storeE R) : Prop :=
  match ev with
  | BucketExists b | CreateBucket b _ => b = BUCKET_NAME
  | UploadFromString b name _ _ =>
      b = BUCKET_NAME ∧
      ∃ u d, name = chunks_blob_name u d ∨ name = metadata_blob_name u d
  | _ => False
  end.

(** The calls that test and create a bucket. *)
Definition bucket_call (R : Type) (ev : storeE R) : Prop :=
  match ev with
  | BucketExists _ | CreateBucket _ _ => True
  | _ => False
  end.

(** The block around the bucket touches no object. *)
Lemma get_or_create_bucket_bucket : calls_only bucket_call get_or_create_bucket.
Proof.
  apply calls_only_catch; [|done].
  apply calls_only_mbind; [by apply calls_only_call|].
  intros []; [done|]. by apply calls_only_call.
Qed.

Lemma get_or_create_bucket_calls : calls_only save_call get_or_create_bucket.
Proof.
  apply calls_only_catch; [|done].
  apply calls_only_mbind; [by apply calls_only_call|].
  intros []; [done|]. by apply calls_only_call.
Qed.

Lemma save_objects_calls user_id document_id chunks metadata :
  calls_only save_call (save_objects user_id document_id chunks metadata).
Proof.
  unfold save_objects.
  apply calls_only_mbind; [apply calls_only_call; split; eauto|intros _].
  apply calls_only_mbind; [apply calls_only_call; split; eauto|done].
Qed.

Lemma save_embeddings_calls req : calls_only save_call (save_embeddings req).
Proof.
  unfold save_embeddings, save_body. case_decide; [done|].
  apply calls_only_catch; [|done]. case_match; [done|].
  apply calls_only_mbind; [apply calls_only_lift|intros [resp|]; [done|]].
  do 5 (apply calls_only_mbind; [apply calls_only_lift|intros ?]).
  case_match; [done|].
  apply calls_only_mbind; [apply calls_only_lift|intros n].
  case_decide; [done|].
  apply calls_only_mbind; [apply get_or_create_bucket_calls|intros _].
  apply calls_only_mbind; [apply save_objects_calls|done].
Qed.

(** No call of Save removes an object or a bucket. *)
Lemma save_call_keeps R (ev : storeE R) c b name :
  save_call R ev →
  is_Some (buckets c !! b ≫= (.!! name)) →
  is_Some (buckets (cloud_call R ev c).2 !! b ≫= (.!! name)).
Proof.
  intros Hev Hname. unfold cloud_call.
  destruct (faults c) as [|[e|] fs]; [| done |];
    (destruct ev; try done; cbn in *; repeat case_match; simplify_eq/=; try done;
     destruct Hev as [-> _] || subst;
     (destruct (decide (BUCKET_NAME = b)) as [<-|];
      [rewrite lookup_insert_eq; cbn|by rewrite lookup_insert_ne]);
     repeat match goal with
            | Hb : _ !! BUCKET_NAME = _ |- _ => rewrite Hb in Hname; cbn in Hname
            end; try done;
     destruct (decide (name0 = name)) as [->|];
     [by rewrite lookup_insert_eq|by rewrite lookup_insert_ne]).
Qed.

(** C9. Save never removes an object: whatever the request and whatever
    the cloud does, an object that exists before the call exists after
    it. *)
Theorem save_embeddings_keeps_objects req c b name :
  is_Some (buckets c !! b ≫= (.!! name)) →
  is_Some (buckets (run_cloud (save_embeddings req) c).2 !! b ≫= (.!! name)).
Proof.
  intros Hname.
  apply (calls_only_preserves cloud_call save_call (save_embeddings req)
           (λ c, is_Some (buckets c !! b ≫= (.!! name)))); [|apply save_embeddings_calls|done].
  intros R ev s Hev Hs. by apply save_call_keeps.
Qed.

(** Save answers every request: the outer [try] catches whatever is
    raised. *)
Theorem save_embeddings_total req c :
  ∃ resp, (run_cloud (save_embeddings req) c).1 = Ok resp.
Proof.
  unfold save_embeddings. case_decide; [by eexists|]. apply run_catch_ret.
Qed.

Lemma check_required_status fields v resp :
  check_required fields v = Ok (Some resp) → status resp = 400.
Proof.
  induction fields as [|f fields IH]; [done|]. cbn.
  destruct (py_in f v) as [[]|]; [done| |done]. by intros [= <-].
Qed.

(** The status of an answer is 200, 204, 400 or 500. *)
Theorem save_embeddings_status req :
  ensures cloud_call (save_embeddings req) (λ resp, status resp ∈ [200; 204; 400; 500]).
Proof.
  unfold save_embeddings, save_body. case_decide.
  { apply ensures_ret. set_solver. }
  apply ensures_catch; [|intros e; apply ensures_ret; set_solver].
  case_match; [apply ensures_ret; set_solver|].
  apply ensures_mbind_lift. intros [resp|] Hreq.
  { apply ensures_ret. rewrite (check_required_status _ _ _ Hreq). set_solver. }
  do 5 (apply ensures_mbind; intros ?).
  case_match; [apply ensures_ret; set_solver|].
  apply ensures_mbind. intros n. case_decide; [apply ensures_ret; set_solver|].
  do 2 (apply ensures_mbind; intros ?). apply ensures_ret. set_solver.
Qed.

End save_facts.

(** ** The theorems at the sample requests *)

Lemma save_embeddings_no_json_witness :
  save_embeddings (Request "POST" (Some (JArr []))) =
    Ret (failure 400 "No JSON data provided").
Proof. by apply save_embeddings_no_json. Defined.

Lemma save_embeddings_missing_field_witness :
  save_embeddings (post [("userId", JStr "u1"); ("fileName", JStr "a.pdf")]) =
    Ret (failure 400 "Missing required field: documentId").
Proof.
  eapply save_embeddings_missing_field; [done|reflexivity|done|reflexivity].
Defined.

Lemma save_embeddings_chunks_not_list_witness :
  save_embeddings (post (dict_set "chunks" (JStr "alpha") save_fields)) =
    Ret (failure 400 "chunks must be an array").
Proof.
  eapply save_embeddings_chunks_not_list; [done|reflexivity|done|reflexivity..].
Defined.

Lemma save_embeddings_empty_chunks_witness :
  save_embeddings (post (dict_set "chunks" (JArr []) save_fields)) =
    Ret (failure 400 "chunks array is empty").
Proof.
  eapply save_embeddings_empty_chunks; [done|reflexivity|done|reflexivity..].
Defined.

Lemma save_embeddings_ok_witness :
  run_cloud (save_embeddings save_request) (reliable ∅) =
    (Ok (save_response (JStr "d1") (JStr "a.pdf") 2 (chunks_blob_name "u1" "d1")),
     reliable (saved_store (JStr "u1") (JStr "d1") sample_metadata sample_chunks ∅)).
Proof.
  by apply (save_embeddings_ok save_request save_fields (JStr "u1") (JStr "d1")
              (JStr "a.pdf") sample_metadata sample_chunks).
Defined.

Lemma save_embeddings_partial_write_witness :
  run_cloud (save_embeddings save_request)
            (Cloud empty_bucket [None; None; Some (Exn ServiceUnavailable "503")]) =
    (Ok (failure 500 "503"),
     Cloud (<[BUCKET_NAME :=
                <[chunks_blob_name "u1" "d1" := dump 2 0 (JArr sample_chunks)]> ∅]>
              empty_bucket) []).
Proof.
  by apply (save_embeddings_partial_write save_request save_fields (JStr "u1") (JStr "d1")
              (JStr "a.pdf") sample_metadata sample_chunks
              ltac:(done) eq_refl eq_refl eq_refl eq_refl eq_refl eq_refl ltac:(done)
              empty_bucket ∅).
Defined.

Lemma save_embeddings_bucket_fault_witness :
  run_cloud (save_embeddings save_request)
            (Cloud empty_bucket [Some (Exn ServiceUnavailable "503")]) =
    (Ok (save_response (JStr "d1") (JStr "a.pdf") 2 (chunks_blob_name "u1" "d1")),
     reliable (saved_store (JStr "u1") (JStr "d1") sample_metadata sample_chunks
                           empty_bucket)).
Proof.
  by eapply (save_embeddings_bucket_fault save_request save_fields (JStr "u1") (JStr "d1")
               (JStr "a.pdf") sample_metadata sample_chunks).
Defined.

Lemma save_embeddings_keeps_objects_witness :
  is_Some (buckets (run_cloud (save_embeddings save_request) (reliable sample_store)).2
             !! BUCKET_NAME ≫= (.!! metadata_blob_name "u1" "d1")).
Proof. by apply save_embeddings_keeps_objects. Defined.

(** Validation tests presence only: empty ids, a file name that is not a
    string and empty metadata are saved. *)
Example save_accepts_empty_fields :
  (run_cloud
     (save_embeddings
        (post [("userId", JStr ""); ("documentId", JInt 0); ("fileName", JNull);
               ("chunks", JArr [JNull]); ("metadata", JObj [])]))
     (reliable ∅)).1 =
    Ok (save_response (JInt 0) JNull 1 "users//documents/0/chunks.json").
Proof. by_compute. Qed.
