(* ===== verification/Retrieve.v ===== *)
(** * Retrieve: the [retrieve_embeddings] function

    [retrieve_embeddings] reads one document of a user, or all of them.
    For one document it tests and downloads the chunks object and, when
    there is one, the metadata object.  For all documents it lists the
    user's prefix, groups the names by document id into a dict of dicts,
    and downloads what each group holds, in the order of the listing.
    It only reads: no call of it changes the store. *)

From S2P Require Import Prelude PyStr PyDict Json Prog Gcs KeySpace Codec.
From S2P Require Import JsonLex JsonText Http Samples.

(** The files of a document in a listing: file name to object name. *)
Abbreviation files := (list (string * string)).

Section retrieve.
Context `{JsonCodec}.

(** One turn of the grouping loop: a name with at least five parts is
    filed under its 4th part, by its 5th. *)
Definition group_blob (documents : list (string * files)) (name : string)
    : list (string * files) :=
  match blob_document name with
  | Some (doc_id, file_type) =>
      let doc_files := default [] (dict_lookup doc_id documents) in
      dict_set doc_id (dict_set file_type name doc_files) documents
  | None => documents
  end.

(** [documents = {}; for blob in blobs: ...] *)
Definition group_blobs (blobs : list string) : list (string * files) :=
  foldl group_blob [] blobs.

(** One turn of the collecting loop: the chunks of the document extend
    [all_chunks], its metadata is appended to [all_metadata]. *)
Definition collect_document (acc : list json * list json) (doc : string * files)
    : prog storeE (list json * list json) :=
  let '(all_chunks, all_metadata) := acc in
  all_chunks ←
    match dict_lookup "chunks.json" doc.2 with
    | Some blob =>
        chunks_data ← call (DownloadAsText BUCKET_NAME blob);
        chunks ← lift (json_loads chunks_data);
        lift (py_extend all_chunks chunks)
    | None => Ret all_chunks
    end;
  all_metadata ←
    match dict_lookup "metadata.json" doc.2 with
    | Some blob =>
        metadata_data ← call (DownloadAsText BUCKET_NAME blob);
        metadata ← lift (json_loads metadata_data);
        Ret (all_metadata ++ [metadata])
    | None => Ret all_metadata
    end;
  Ret (all_chunks, all_metadata).

(** The branch for all documents of a user. *)
Definition retrieve_all (user_id : json) : prog storeE (list json * list json) :=
  let prefix := user_prefix (py_str user_id) in
  blobs ← call (ListBlobs BUCKET_NAME prefix);
  let documents := group_blobs blobs in
  for_fold documents ([], []) collect_document.

(** The branch for one document: an early 404, or the two lists. *)
Definition retrieve_document (user_id document_id : json)
    : prog storeE (response + list json * list json) :=
  let chunks_blob := chunks_blob_name (py_str user_id) (py_str document_id) in
  chunks_exist ← call (BlobExists BUCKET_NAME chunks_blob);
  if negb chunks_exist then Ret (inl (document_not_found document_id))
  else
    chunks_data ← call (DownloadAsText BUCKET_NAME chunks_blob);
    chunks ← lift (json_loads chunks_data);
    all_chunks ← lift (py_extend [] chunks);
    let metadata_blob := metadata_blob_name (py_str user_id) (py_str document_id) in
    metadata_exists ← call (BlobExists BUCKET_NAME metadata_blob);
    all_metadata ←
      (if metadata_exists : bool
       then
         metadata_data ← call (DownloadAsText BUCKET_NAME metadata_blob);
         metadata ← lift (json_loads metadata_data);
         Ret [metadata]
       else Ret []);
    Ret (inr (all_chunks, all_metadata)).

(** The answer when the bucket does not exist. *)
Definition no_documents : response :=
  success
    [("success", JBool true);
     ("chunks", JArr []);
     ("metadata", JArr []);
     ("documentsCount", JInt 0);
     ("message", JStr "No documents found")].

(** The answer that carries what was read. *)
Definition retrieve_response (all_chunks all_metadata : list json) : response :=
  success
    [("success", JBool true);
     ("chunks", JArr all_chunks);
     ("metadata", JArr all_metadata);
     ("documentsCount", JLen all_metadata);
     ("message", JStr ("Retrieved " +:+ pretty (length all_chunks)
                       +:+ " chunks from " +:+ pretty (length all_metadata)
                       +:+ " documents"))].

(** The body of the outer [try]. *)
Definition retrieve_body (request : request) : prog storeE response :=
  let request_json := get_json request in
  if negb (truthy request_json) then Ret (failure 400 "No JSON data provided")
  else
    has_user ← lift (py_in "userId" request_json);
    if negb has_user then Ret (failure 400 "Missing required field: userId")
    else
      user_id ← lift (py_getitem request_json "userId");
      document_id ← lift (py_get request_json "documentId");
      bucket_exists ← call (BucketExists BUCKET_NAME);
      if negb bucket_exists then Ret no_documents
      else if truthy document_id then
        found ← retrieve_document user_id document_id;
        match found with
        | inl resp => Ret resp
        | inr (all_chunks, all_metadata) =>
            Ret (retrieve_response all_chunks all_metadata)
        end
      else
        collected ← retrieve_all user_id;
        Ret (retrieve_response collected.1 collected.2).

(** [retrieve_embeddings(request)] *)
Definition retrieve_embeddings (request : request) : prog storeE response :=
  if decide (method request = "OPTIONS") then Ret preflight
  else catch (retrieve_body request) (λ e, Ret (failure 500 (exn_str e))).

End retrieve.

(** ** One document *)

Section retrieve_facts.
Context `{JsonCodec}.

Section one_document.
Context (st : store) (objs : objects) (Hbucket : st !! BUCKET_NAME = Some objs).
Context (user_id document_id : json).
Let u := py_str user_id.
Let d := py_str document_id.

(** Without a chunks object the document is not found, whether or not it
    has metadata. *)
Lemma run_retrieve_document_missing :
  objs !! chunks_blob_name u d = None →
  run_cloud (retrieve_document user_id document_id) (reliable st) =
    (Ok (inl (document_not_found document_id)), reliable st).
Proof.
  intros Hc. unfold retrieve_document. run_simpl.
  rewrite bool_decide_eq_false_2 by (fold u d; rewrite Hc; by intros [??]).
  by run_simpl.
Qed.

Context (chunks_data : string) (chunks : list json).
Context (Hchunks : objs !! chunks_blob_name u d = Some chunks_data).
Context (Hloads : json_loads chunks_data = Ok (JArr chunks)).

(** With both objects: the chunks in their order and the one metadata. *)
Lemma run_retrieve_document_found metadata_data metadata :
  objs !! metadata_blob_name u d = Some metadata_data →
  json_loads metadata_data = Ok metadata →
  run_cloud (retrieve_document user_id document_id) (reliable st) =
    (Ok (inr (chunks, [metadata])), reliable st).
Proof.
  intros Hm Hmloads. unfold retrieve_document. run_simpl.
  rewrite bool_decide_eq_true_2 by (fold u d; rewrite Hchunks; eauto).
  run_simpl. rewrite Hloads. run_simpl. cbn [py_extend py_iter app].
  run_simpl. rewrite bool_decide_eq_true_2 by (fold u d; rewrite Hm; eauto).
  run_simpl. rewrite Hmloads. by run_simpl.
Qed.

(** Without metadata: the chunks and an empty metadata list. *)
Lemma run_retrieve_document_no_metadata :
  objs !! metadata_blob_name u d = None →
  run_cloud (retrieve_document user_id document_id) (reliable st) =
    (Ok (inr (chunks, [])), reliable st).
Proof.
  intros Hm. unfold retrieve_document. run_simpl.
  rewrite bool_decide_eq_true_2 by (fold u d; rewrite Hchunks; eauto).
  run_simpl. rewrite Hloads. run_simpl. cbn [py_extend py_iter app].
  run_simpl. rewrite bool_decide_eq_false_2 by (fold u d; rewrite Hm; by intros [??]).
  by run_simpl.
Qed.

End one_document.

(** ** Every request, every cloud *)

Lemma collect_document_calls acc doc : calls_only read_call (collect_document acc doc).
Proof.
  destruct acc as [all_chunks all_metadata]. unfold collect_document.
  apply calls_only_mbind.
  { case_match; [|done]. apply calls_only_mbind; [by apply calls_only_call|intros ?].
    apply calls_only_mbind; [apply calls_only_lift|intros ?]. apply calls_only_lift. }
  intros ?. apply calls_only_mbind; [|done].
  case_match; [|done]. apply calls_only_mbind; [by apply calls_only_call|intros ?].
  apply calls_only_mbind; [apply calls_only_lift|done].
Qed.

Lemma retrieve_all_calls user_id : calls_only read_call (retrieve_all user_id).
Proof.
  apply calls_only_mbind; [by apply calls_only_call|intros blobs].
  apply calls_only_for_fold, collect_document_calls.
Qed.

Lemma retrieve_document_calls user_id document_id :
  calls_only read_call (retrieve_document user_id document_id).
Proof.
  unfold retrieve_document.
  apply calls_only_mbind; [by apply calls_only_call|intros []; [|done]]. cbn [negb].
  apply calls_only_mbind; [by apply calls_only_call|intros ?].
  do 2 (apply calls_only_mbind; [apply calls_only_lift|intros ?]).
  apply calls_only_mbind; [by apply calls_only_call|intros []].
  - apply calls_only_mbind; [|done].
    apply calls_only_mbind; [by apply calls_only_call|intros ?].
    apply calls_only_mbind; [apply calls_only_lift|done].
  - apply calls_only_mbind; done.
Qed.

Lemma retrieve_embeddings_calls req : calls_only read_call (retrieve_embeddings req).
Proof.
  unfold retrieve_embeddings, retrieve_body. case_decide; [done|].
  apply calls_only_catch; [|done]. case_match; [done|].
  apply calls_only_mbind; [apply calls_only_lift|intros []; [|done]]. cbn [negb].
  do 2 (apply calls_only_mbind; [apply calls_only_lift|intros ?]).
  apply calls_only_mbind; [by apply calls_only_call|intros []; [|done]]. cbn [negb].
  case_match.
  - apply calls_only_mbind; [apply retrieve_document_calls|by intros [?|[??]]].
  - apply calls_only_mbind; [apply retrieve_all_calls|done].
Qed.

(** C3. Retrieve only reads: whatever the request, the state of the store
    and the faults of the cloud, the buckets are after the call what they
    were before. *)
Theorem retrieve_embeddings_read_only req c :
  buckets (run_cloud (retrieve_embeddings req) c).2 = buckets c.
Proof. apply calls_only_read, retrieve_embeddings_calls. Qed.

(** Retrieve answers every request. *)
Theorem retrieve_embeddings_total req c :
  ∃ resp, (run_cloud (retrieve_embeddings req) c).1 = Ok resp.
Proof.
  unfold retrieve_embeddings. case_decide; [by eexists|]. apply run_catch_ret.
Qed.

(** ** Requests *)

Section retrieve_request.
Context (req : request) (kvs : list (string * json)) (user_id : json).
Context (Hmethod : method req ≠ "OPTIONS") (Hbody : body req = Some (JObj kvs)).
Context (Huser : dict_lookup "userId" kvs = Some user_id).
Let document_id := default JNull (dict_lookup "documentId" kvs).
Let u := py_str user_id.
Let d := py_str document_id.

(** A dict with a [userId] passes validation; the mode is chosen by the
    truth value of [documentId], [None] when the field is absent. *)
Lemma retrieve_body_dict :
  retrieve_body req =
    (bucket_exists ← call (BucketExists BUCKET_NAME);
     if negb bucket_exists then Ret no_documents
     else if truthy document_id then
       found ← retrieve_document user_id document_id;
       match found with
       | inl resp => Ret resp
       | inr (all_chunks, all_metadata) =>
           Ret (retrieve_response all_chunks all_metadata)
       end
     else
       collected ← retrieve_all user_id;
       Ret (retrieve_response collected.1 collected.2)).
Proof.
  unfold retrieve_body, get_json. rewrite Hbody. cbn [default from_option id].
  assert (truthy (JObj kvs) = true) as -> by by destruct kvs.
  unfold py_in, py_getitem, py_get. rewrite Huser.
  by rewrite bool_decide_eq_true_2 by eauto.
Qed.

Lemma run_retrieve_embeddings c :
  run_cloud (retrieve_embeddings req) c =
    run_cloud (catch (retrieve_body req) (λ e, Ret (failure 500 (exn_str e)))) c.
Proof. unfold retrieve_embeddings. by rewrite decide_False. Qed.

(** Without the bucket the answer is the empty result, in either mode. *)
Theorem retrieve_embeddings_no_bucket st :
  st !! BUCKET_NAME = None →
  run_cloud (retrieve_embeddings req) (reliable st) = (Ok no_documents, reliable st).
Proof.
  intros Hb. rewrite run_retrieve_embeddings, retrieve_body_dict. run_simpl.
  rewrite bool_decide_eq_false_2 by (rewrite Hb; by intros [??]). by run_simpl.
Qed.

Context (st : store) (objs : objects) (Hbucket : st !! BUCKET_NAME = Some objs).

Lemma run_retrieve_bucket {A} (k : bool → prog storeE A) :
  run_cloud (bucket_exists ← call (BucketExists BUCKET_NAME); k bucket_exists)
            (reliable st) = run_cloud (k true) (reliable st).
Proof. run_simpl. by rewrite bool_decide_eq_true_2 by eauto. Qed.

(** The answer of the one-document branch. *)
Definition found_response (found : response + list json * list json) : response :=
  match found with
  | inl resp => resp
  | inr (all_chunks, all_metadata) => retrieve_response all_chunks all_metadata
  end.

(** In one-document mode the handler answers what the branch finds. *)
Lemma run_retrieve_one found c :
  truthy document_id = true →
  run_cloud (retrieve_document user_id document_id) (reliable st) = (Ok found, c) →
  run_cloud (retrieve_embeddings req) (reliable st) = (Ok (found_response found), c).
Proof.
  intros Hdoc Hfound. rewrite run_retrieve_embeddings, retrieve_body_dict.
  rewrite run_catch, run_retrieve_bucket. cbn [negb]. rewrite Hdoc.
  run_simpl. rewrite Hfound. by destruct found as [?|[??]].
Qed.

(** In all-documents mode the handler answers what the branch collects. *)
Lemma run_retrieve_every collected c :
  truthy document_id = false →
  run_cloud (retrieve_all user_id) (reliable st) = (Ok collected, c) →
  run_cloud (retrieve_embeddings req) (reliable st) =
    (Ok (retrieve_response collected.1 collected.2), c).
Proof.
  intros Hdoc Hall. rewrite run_retrieve_embeddings, retrieve_body_dict.
  rewrite run_catch, run_retrieve_bucket. cbn [negb]. rewrite Hdoc.
  run_simpl. by rewrite Hall.
Qed.

(** An exception of the branch is answered 500 with its text. *)
Lemma run_retrieve_every_failed e c :
  truthy document_id = false →
  run_cloud (retrieve_all user_id) (reliable st) = (Err e, c) →
  run_cloud (retrieve_embeddings req) (reliable st) = (Ok (failure 500 (exn_str e)), c).
Proof.
  intros Hdoc Hall. rewrite run_retrieve_embeddings, retrieve_body_dict.
  rewrite run_catch, run_retrieve_bucket. cbn [negb]. rewrite Hdoc.
  run_simpl. rewrite Hall. by run_simpl.
Qed.

(** A request for a document whose chunks object is absent is answered
    404, and the store is left as it was. *)
Theorem retrieve_embeddings_not_found :
  truthy document_id = true →
  objs !! chunks_blob_name u d = None →
  run_cloud (retrieve_embeddings req) (reliable st) =
    (Ok (document_not_found document_id), reliable st).
Proof.
  intros Hdoc Hc. apply (run_retrieve_one (inl _)); [done|].
  by eapply run_retrieve_document_missing.
Qed.

(** C32. A request for a stored document is answered 200 with the chunks in
    their stored order, the metadata as the only entry of the metadata
    list, and [documentsCount = 1]. *)
Theorem retrieve_embeddings_found chunks_data chunks metadata_data metadata :
  truthy document_id = true →
  objs !! chunks_blob_name u d = Some chunks_data →
  json_loads chunks_data = Ok (JArr chunks) →
  objs !! metadata_blob_name u d = Some metadata_data →
  json_loads metadata_data = Ok metadata →
  run_cloud (retrieve_embeddings req) (reliable st) =
    (Ok (retrieve_response chunks [metadata]), reliable st).
Proof.
  intros Hdoc Hc Hcl Hm Hml. apply (run_retrieve_one (inr (_, _))); [done|].
  by eapply run_retrieve_document_found.
Qed.

(** A document stored without metadata is answered with its chunks and
    [documentsCount = 0]. *)
Theorem retrieve_embeddings_no_metadata chunks_data chunks :
  truthy document_id = true →
  objs !! chunks_blob_name u d = Some chunks_data →
  json_loads chunks_data = Ok (JArr chunks) →
  objs !! metadata_blob_name u d = None →
  run_cloud (retrieve_embeddings req) (reliable st) =
    (Ok (retrieve_response chunks []), reliable st).
Proof.
  intros Hdoc Hc Hcl Hm. apply (run_retrieve_one (inr (_, _))); [done|].
  by eapply run_retrieve_document_no_metadata.
Qed.

(** A user without objects is answered the empty result, not an error. *)
Theorem retrieve_embeddings_no_objects :
  truthy document_id = false →
  list_names (user_prefix u) objs = [] →
  run_cloud (retrieve_embeddings req) (reliable st) =
    (Ok (retrieve_response [] []), reliable st).
Proof.
  intros Hdoc Hnil. apply (run_retrieve_every ([], [])); [done|].
  unfold retrieve_all. run_simpl. fold u. by rewrite Hnil.
Qed.

End retrieve_request.

End retrieve_facts.

(** ** The theorems at the sample requests *)

Lemma retrieve_embeddings_no_bucket_witness :
  run_cloud (retrieve_embeddings document_request) (reliable ∅) =
    (Ok no_documents, reliable ∅).
Proof. by eapply retrieve_embeddings_no_bucket. Defined.

Lemma retrieve_embeddings_not_found_witness :
  run_cloud (retrieve_embeddings document_request) (reliable empty_bucket) =
    (Ok (document_not_found (JStr "d1")), reliable empty_bucket).
Proof.
  by eapply retrieve_embeddings_not_found
    with (kvs := document_fields) (user_id := JStr "u1") (objs := ∅).
Defined.

Lemma retrieve_embeddings_found_witness :
  run_cloud (retrieve_embeddings document_request) (reliable sample_store) =
    (Ok (retrieve_response sample_chunks [sample_metadata]), reliable sample_store).
Proof.
  eapply retrieve_embeddings_found
    with (kvs := document_fields) (user_id := JStr "u1") (objs := sample_objects);
    try done; by apply json_loads_dumps.
Defined.

Lemma retrieve_embeddings_no_metadata_witness :
  run_cloud (retrieve_embeddings second_request) (reliable shared_store) =
    (Ok (retrieve_response [JStr "gamma"] []), reliable shared_store).
Proof.
  by eapply retrieve_embeddings_no_metadata
    with (kvs := second_fields) (user_id := JStr "u1") (objs := shared_objects).
Defined.

Lemma retrieve_embeddings_no_objects_witness :
  run_cloud (retrieve_embeddings user_request) (reliable empty_bucket) =
    (Ok (retrieve_response [] []), reliable empty_bucket).
Proof.
  by eapply retrieve_embeddings_no_objects
    with (kvs := user_fields) (user_id := JStr "u1") (objs := ∅).
Defined.
