(* ===== verification/RetrieveAll.v ===== *)
(** * RetrieveAll: the all-documents branch of [retrieve_embeddings] as a fold

    The branch lists the user's prefix, groups the listed names into a
    dict of dicts and reads what each group holds.  This file says what
    that computes from the content of the bucket.  On every bucket it is
    the fold over the groups of the listing ([read_groups]): a group is
    read through the names filed under its two file names, whatever
    these names are.  On a bucket in which every object under the user's
    prefix has a name Save builds ([tidy]) it is the fold over the
    documents of the listing in the order of their first name
    ([docs_of]), each read by the two names Save gave its objects
    ([read_document]). *)

From S2P Require Import Prelude PyStr PyDict Json Prog Gcs KeySpace Codec.
From S2P Require Import JsonLex JsonText Http Samples Retrieve.

(** ** The documents of a listing *)

(** The keys of [documents] after one turn of the grouping loop. *)
Definition note_doc (docs : list string) (name : string) : list string :=
  match blob_doc_id name with
  | Some doc_id => if decide (doc_id ∈ docs) then docs else docs ++ [doc_id]
  | None => docs
  end.

(** The document ids of a listing, each once, in the order in which the
    listing first names them: the order of [documents.items()]. *)
Definition docs_of (blobs : list string) : list string := foldl note_doc [] blobs.

(** An object name of five parts that is the name Save builds from its
    4th and 5th part. *)
Definition tidy_name (u name : string) : bool :=
  match blob_parts name with
  | [_; _; _; doc_id; file_type] => bool_decide (name = object_name u doc_id file_type)
  | _ => false
  end.

(** A bucket in which all that is listed for a user was written by Save
    for that user, or looks as if it was. *)
Definition tidy (u : string) (objs : objects) : Prop :=
  Forall (λ name, tidy_name u name = true) (list_names (user_prefix u) objs).

#[export] Instance tidy_dec u objs : Decision (tidy u objs).
Proof. unfold tidy. apply _. Defined.

(** A listing names a file of a document: a listed name has the document
    as its 4th part and the file as its 5th. *)
Definition has_file (blobs : list string) (d f : string) : Prop :=
  Exists (λ name, blob_document name = Some (d, f)) blobs.

#[export] Instance has_file_dec blobs d f : Decision (has_file blobs d f).
Proof. unfold has_file. apply _. Defined.

(** A listed name that the collecting loop never reads: it has fewer than
    five parts, or its 5th part is neither of the two file names. *)
Definition unread (name : string) : bool :=
  match blob_document name with
  | Some (_, file_type) =>
      negb (bool_decide (file_type = "chunks.json" ∨ file_type = "metadata.json"))
  | None => true
  end.

(** What the grouping loop has filed after a listing: every entry is a
    listed name under its document and file, every listed name of five
    parts has an entry, and every key is the document of a listed name. *)
Record filed (blobs : list string) (documents : list (string * files)) : Prop := {
  filed_sound d fs f n :
    dict_lookup d documents = Some fs → dict_lookup f fs = Some n →
    n ∈ blobs ∧ blob_document n = Some (d, f);
  filed_complete n d f :
    n ∈ blobs → blob_document n = Some (d, f) →
    ∃ fs n', dict_lookup d documents = Some fs ∧ dict_lookup f fs = Some n';
  filed_origin d :
    d ∈ documents.*1 → ∃ n f, n ∈ blobs ∧ blob_document n = Some (d, f)
}.

Section reading.
Context `{JsonCodec}.

(** What the collecting loop reads for one document, from the content of
    the bucket. *)
Definition read_document (objs : objects) (u : string)
    (acc : list json * list json) (d : string) : res (list json * list json) :=
  (all_chunks ←?
     match objs !! chunks_blob_name u d with
     | Some chunks_data => chunks ←? json_loads chunks_data; py_extend acc.1 chunks
     | None => Ok acc.1
     end;
   all_metadata ←?
     match objs !! metadata_blob_name u d with
     | Some metadata_data => metadata ←? json_loads metadata_data; Ok (acc.2 ++ [metadata])
     | None => Ok acc.2
     end;
   Ok (all_chunks, all_metadata))%result.

(** What the branch collects, from the content of the bucket. *)
Definition read_all (objs : objects) (u : string) : res (list json * list json) :=
  fold_res (read_document objs u) (docs_of (list_names (user_prefix u) objs)) ([], []).

(** The text of an object, as [download_as_text] gives it. *)
Definition read_text (objs : objects) (blob : string) : res string :=
  match objs !! blob with
  | Some data => Ok data
  | None => Err (not_found blob)
  end.

(** What one turn of the collecting loop reads for a group of the
    grouping loop, from the content of the bucket. *)
Definition read_group (objs : objects)
    (acc : list json * list json) (doc : string * files) : res (list json * list json) :=
  (all_chunks ←?
     match dict_lookup "chunks.json" doc.2 with
     | Some blob =>
         chunks_data ←? read_text objs blob;
         chunks ←? json_loads chunks_data;
         py_extend acc.1 chunks
     | None => Ok acc.1
     end;
   all_metadata ←?
     match dict_lookup "metadata.json" doc.2 with
     | Some blob =>
         metadata_data ←? read_text objs blob;
         metadata ←? json_loads metadata_data;
         Ok (acc.2 ++ [metadata])
     | None => Ok acc.2
     end;
   Ok (all_chunks, all_metadata))%result.

(** What the branch collects on any bucket: the fold over the groups of
    the listing. *)
Definition read_groups (objs : objects) (u : string) : res (list json * list json) :=
  fold_res (read_group objs) (group_blobs (list_names (user_prefix u) objs)) ([], []).

(** The answer of the handler in all-documents mode. *)
Definition collected_response (collected : res (list json * list json)) : response :=
  match collected with
  | Ok (all_chunks, all_metadata) => retrieve_response all_chunks all_metadata
  | Err e => failure 500 (exn_str e)
  end.

(** A document both of whose objects are in the bucket and decode, the
    chunks to a list. *)
Definition held (objs : objects) (u d : string) (content : list json * json) : Prop :=
  ∃ chunks_data metadata_data,
    objs !! chunks_blob_name u d = Some chunks_data ∧
    json_loads chunks_data = Ok (JArr content.1) ∧
    objs !! metadata_blob_name u d = Some metadata_data ∧
    json_loads metadata_data = Ok content.2.

(** A group whose files are the objects the bucket holds for it. *)
Definition faithful (u : string) (objs : objects) (doc : string * files) : Prop :=
  ∀ f, slash_free f →
    dict_lookup f doc.2 = (λ _, object_name u doc.1 f) <$> objs !! object_name u doc.1 f.

End reading.

(** ** The grouping loop *)

Lemma group_blob_keys documents name :
  (group_blob documents name).*1 = note_doc documents.*1 name.
Proof.
  unfold group_blob, note_doc, blob_doc_id.
  destruct (blob_document name) as [[d f]|]; [apply dict_set_keys|done].
Qed.

Lemma foldl_group_blob_keys blobs documents :
  (foldl group_blob documents blobs).*1 = foldl note_doc documents.*1 blobs.
Proof.
  revert documents. induction blobs as [|n blobs IH]; intros documents; [done|].
  cbn. by rewrite IH, group_blob_keys.
Qed.

(** The keys of the grouping are the documents of the listing, in the
    order of their first name. *)
Lemma group_blobs_keys blobs : (group_blobs blobs).*1 = docs_of blobs.
Proof. apply foldl_group_blob_keys. Qed.

Lemma group_blobs_snoc blobs name :
  group_blobs (blobs ++ [name]) = group_blob (group_blobs blobs) name.
Proof. unfold group_blobs. by rewrite foldl_app. Qed.

Lemma NoDup_group_blob documents name :
  NoDup documents.*1 → NoDup (group_blob documents name).*1.
Proof.
  unfold group_blob. destruct (blob_document name) as [[d f]|]; [|done].
  apply NoDup_dict_set.
Qed.

Lemma NoDup_group_blobs blobs : NoDup (group_blobs blobs).*1.
Proof.
  induction blobs as [|n blobs IH] using rev_ind; [constructor|].
  rewrite group_blobs_snoc. by apply NoDup_group_blob.
Qed.

Lemma filed_nil : filed [] [].
Proof. split; [done|by intros ??? ?%elem_of_nil|by intros ? ?%elem_of_nil]. Qed.

Lemma filed_skip blobs documents name :
  blob_document name = None →
  filed blobs documents → filed (blobs ++ [name]) documents.
Proof.
  intros Hname [Hs Hc Ho]. split.
  - intros d fs f n Hd Hf. destruct (Hs _ _ _ _ Hd Hf). set_solver.
  - intros n d f [?| ->%list_elem_of_singleton]%elem_of_app Hn; [eauto|congruence].
  - intros d Hd. destruct (Ho d Hd) as (n & f & ? & ?). exists n, f. set_solver.
Qed.

Lemma filed_file blobs documents name d f :
  blob_document name = Some (d, f) →
  filed blobs documents →
  filed (blobs ++ [name])
    (dict_set d (dict_set f name (default [] (dict_lookup d documents))) documents).
Proof.
  intros Hname [Hs Hc Ho]. split.
  - intros d' fs f' n. rewrite dict_lookup_set. case_decide as Hd; subst.
    + intros [= <-]. rewrite dict_lookup_set. case_decide; subst.
      { intros [= <-]. set_solver. }
      destruct (dict_lookup d' documents) as [fs0|] eqn:E; [|done].
      intros Hf. destruct (Hs _ _ _ _ E Hf). set_solver.
    + intros Hd' Hf. destruct (Hs _ _ _ _ Hd' Hf). set_solver.
  - intros n d' f' Hin Hn. rewrite dict_lookup_set. case_decide as Hd; subst.
    + destruct (decide (f = f')) as [->|Hf'].
      { eexists _, name. by rewrite dict_lookup_set_eq. }
      apply elem_of_app in Hin as [Hin| ->%list_elem_of_singleton]; [|congruence].
      destruct (Hc _ _ _ Hin Hn) as (fs & n' & -> & Hf).
      eexists _, n'. by rewrite dict_lookup_set_ne.
    + apply elem_of_app in Hin as [Hin| ->%list_elem_of_singleton]; [eauto|congruence].
  - intros d' [->|Hd]%elem_of_dict_set_keys.
    + exists name, f. set_solver.
    + destruct (Ho d' Hd) as (n & f' & ? & ?). exists n, f'. set_solver.
Qed.

Lemma group_blobs_filed blobs : filed blobs (group_blobs blobs).
Proof.
  induction blobs as [|n blobs IH] using rev_ind; [apply filed_nil|].
  rewrite group_blobs_snoc. unfold group_blob.
  destruct (blob_document n) as [[d f]|] eqn:E;
    [by apply filed_file|by apply filed_skip].
Qed.

(** A group has a file exactly when the listing names it for the
    document of the group. *)
Lemma group_has_file blobs d fs f :
  (d, fs) ∈ group_blobs blobs → is_Some (dict_lookup f fs) ↔ has_file blobs d f.
Proof.
  intros Hdoc. apply dict_lookup_elem in Hdoc; [|apply NoDup_group_blobs].
  pose proof (group_blobs_filed blobs) as [Hs Hc _].
  unfold has_file. rewrite Exists_exists. split.
  - intros [n Hn]. exists n. by apply (Hs d fs).
  - intros (n & Hn & Hnd). destruct (Hc n d f Hn Hnd) as (fs' & n' & Hfs & Hn').
    rewrite Hdoc in Hfs. injection Hfs as <-. eauto.
Qed.

(** The groups of a listing of unread names hold neither file. *)
Lemma group_blobs_unread blobs f :
  Forall (λ name, unread name = true) blobs →
  f = "chunks.json" ∨ f = "metadata.json" →
  Forall (λ doc, dict_lookup f doc.2 = None) (group_blobs blobs).
Proof.
  intros Hun Hf. apply Forall_forall. intros [d fs] Hdoc. cbn.
  apply eq_None_not_Some. intros (n & Hn & Hnd)%(group_has_file blobs d)%Exists_exists; [|done].
  eapply Forall_forall in Hun; [|done]. unfold unread in Hun. rewrite Hnd in Hun.
  by rewrite bool_decide_eq_true_2 in Hun.
Qed.

(** The objects of a document whose id has a second part other than the
    two file names are unread. *)
Lemma unread_object_name u d f p q ps :
  slash_free u → split "/" d = p :: q :: ps →
  q ≠ "chunks.json" → q ≠ "metadata.json" →
  unread (object_name u d f) = true.
Proof.
  intros Hu Hd Hc Hm. unfold unread. rewrite blob_document_object_name, Hd by done.
  cbn. rewrite bool_decide_eq_false_2; [done|]. by intros [?|?].
Qed.

(** ** Names Save builds *)

Lemma tidy_name_spec u name :
  tidy_name u name = true →
  ∃ d f, name = object_name u d f ∧ blob_document name = Some (d, f)
         ∧ slash_free d ∧ slash_free f.
Proof.
  unfold tidy_name, blob_document. pose proof (split_parts_free "/" name) as Hfree.
  fold (blob_parts name) in Hfree.
  destruct (blob_parts name) as [|a [|b [|c [|d [|f [|]]]]]]; try done.
  repeat apply Forall_cons in Hfree as [? Hfree].
  intros Hname%bool_decide_eq_true. by exists d, f.
Qed.

(** A built name of five parts is taken apart into its ids. *)
Lemma tidy_name_document u d f :
  slash_free d → slash_free f →
  tidy_name u (object_name u d f) = true →
  blob_document (object_name u d f) = Some (d, f).
Proof.
  intros Hd Hf. unfold tidy_name, blob_document.
  rewrite blob_parts_object_name, (split_char_free _ d), (split_char_free _ f) by done.
  by destruct (split "/" u) as [|p [|q [|r [|s [|]]]]].
Qed.

Section tidy_facts.
Context (u : string) (objs : objects) (Htidy : tidy u objs).

Abbreviation listing := (list_names (user_prefix u) objs).

Lemma tidy_listed name : name ∈ listing → tidy_name u name = true.
Proof. intros Hin. by eapply Forall_forall in Htidy. Qed.

(** A listed name filed under [(d, f)] is the name Save builds from them. *)
Lemma listed_document name d f :
  name ∈ listing → blob_document name = Some (d, f) →
  name = object_name u d f ∧ slash_free d ∧ slash_free f.
Proof.
  intros (d' & f' & -> & Hdoc & Hd & Hf)%tidy_listed%tidy_name_spec Hname.
  rewrite Hdoc in Hname. by injection Hname as -> ->.
Qed.

Lemma object_listed d f :
  is_Some (objs !! object_name u d f) → object_name u d f ∈ listing.
Proof. intros Hobj. apply elem_of_list_names. eauto using user_prefix_object_name. Qed.

(** Each group holds, for a file name, the object of the document by
    that name when the bucket has one, and nothing otherwise. *)
Lemma group_blobs_faithful : Forall (faithful u objs) (group_blobs listing).
Proof.
  pose proof (group_blobs_filed listing) as [Hs Hc Ho].
  apply Forall_forall. intros [d fs] Hdoc f Hf. cbn [fst snd].
  assert (slash_free d) as Hd.
  { destruct (Ho d) as (n & f' & Hn & Hnd); [by apply (list_elem_of_fmap_2 fst) in Hdoc|].
    by destruct (listed_document _ _ _ Hn Hnd) as (_ & ? & _). }
  apply dict_lookup_elem in Hdoc; [|apply NoDup_group_blobs].
  destruct (objs !! object_name u d f) as [data|] eqn:Hobj; cbn.
  - assert (object_name u d f ∈ listing) as Hin by (apply object_listed; eauto).
    destruct (Hc _ d f Hin) as (fs' & n' & Hfs & Hn').
    { apply tidy_name_document; [done..|by apply tidy_listed]. }
    rewrite Hdoc in Hfs. injection Hfs as <-. rewrite Hn'. f_equal.
    destruct (Hs _ _ _ _ Hdoc Hn') as [Hl Hnd]. by destruct (listed_document _ _ _ Hl Hnd).
  - destruct (dict_lookup f fs) as [n|] eqn:Hn; [|done].
    destruct (Hs _ _ _ _ Hdoc Hn) as [Hl Hnd].
    destruct (listed_document _ _ _ Hl Hnd) as [-> _].
    apply elem_of_list_names in Hl as [[data Hdata] _]. congruence.
Qed.

(** The documents of a user are the ids under which the bucket holds an
    object of the user. *)
Lemma elem_of_docs_of_listing d :
  d ∈ docs_of listing ↔
  ∃ f, slash_free d ∧ slash_free f ∧ is_Some (objs !! object_name u d f).
Proof.
  pose proof (group_blobs_filed listing) as [Hs Hc Ho].
  rewrite <-group_blobs_keys. split.
  - intros (n & f & Hn & Hnd)%Ho. exists f.
    destruct (listed_document _ _ _ Hn Hnd) as (-> & ? & ?).
    by apply elem_of_list_names in Hn as [? _].
  - intros (f & Hd & Hf & Hobj%object_listed).
    destruct (Hc _ d f Hobj) as (fs & n' & Hfs & _).
    { apply tidy_name_document; [done..|by apply tidy_listed]. }
    apply dict_lookup_is_Some. eauto.
Qed.

End tidy_facts.

Lemma NoDup_docs_of blobs : NoDup (docs_of blobs).
Proof. rewrite <-group_blobs_keys. apply NoDup_group_blobs. Qed.

(** ** The collecting loop *)

Section collecting.
Context `{JsonCodec}.
Context (st : store) (objs : objects) (Hbucket : st !! BUCKET_NAME = Some objs).
Context (u : string).

(** One turn of the loop reads the objects its group names and leaves the
    store as it is. *)
Lemma run_collect_group acc doc :
  run_cloud (collect_document acc doc) (reliable st) =
    (read_group objs acc doc, reliable st).
Proof.
  destruct acc as [all_chunks all_metadata], doc as [d fs].
  unfold collect_document, read_group, read_text. cbn [fst snd].
  repeat first
    [ progress run_simpl
    | progress cbn [fmap option_fmap option_map result_bind]
    | done
    | match goal with
      | Hdata : ?x = _ |- context [?x] => rewrite Hdata
      | Hdata : objs !! ?name = None |- _ =>
          rewrite (store_download_missing _ _ _ Hbucket name Hdata)
      | |- context [dict_lookup ?f fs] => destruct (dict_lookup f fs) eqn:?
      | |- context [objs !! ?name] => destruct (objs !! name) eqn:?
      | |- context [json_loads ?data] => destruct (json_loads data) eqn:?
      | |- context [py_extend ?acc ?v] => destruct (py_extend acc v) eqn:?
      end ].
Qed.

(** The branch for all documents computes [read_groups] and leaves the
    store as it is. *)
Lemma run_retrieve_groups user_id :
  run_cloud (retrieve_all user_id) (reliable st) =
    (read_groups objs (py_str user_id), reliable st).
Proof.
  unfold retrieve_all, read_groups. run_simpl.
  by rewrite (run_for_fold_pure _ (λ _, True) (read_group objs));
    [|apply Forall_true|intros; apply run_collect_group].
Qed.

(** A faithful group is read by the two names Save gives the objects of
    its document. *)
Lemma read_group_faithful acc doc :
  faithful u objs doc → read_group objs acc doc = read_document objs u acc doc.1.
Proof.
  intros Hdoc. unfold read_group, read_document, read_text.
  rewrite (Hdoc "chunks.json"), (Hdoc "metadata.json") by done.
  change (object_name u doc.1 "chunks.json") with (chunks_blob_name u doc.1).
  change (object_name u doc.1 "metadata.json") with (metadata_blob_name u doc.1).
  by destruct (objs !! chunks_blob_name u doc.1) eqn:Hc,
    (objs !! metadata_blob_name u doc.1) eqn:Hm; cbn; rewrite ?Hc, ?Hm.
Qed.

(** On a tidy bucket the fold over the groups is the fold over the
    documents. *)
Lemma read_groups_tidy : tidy u objs → read_groups objs u = read_all objs u.
Proof.
  intros Htidy. unfold read_groups, read_all.
  rewrite <-group_blobs_keys, <-(fold_res_fmap fst).
  apply (fold_res_ext (faithful u objs)); [by apply group_blobs_faithful|].
  intros; by apply read_group_faithful.
Qed.

Lemma run_retrieve_all user_id :
  py_str user_id = u → tidy u objs →
  run_cloud (retrieve_all user_id) (reliable st) = (read_all objs u, reliable st).
Proof. intros Hu Htidy. by rewrite run_retrieve_groups, Hu, read_groups_tidy. Qed.

End collecting.

(** ** What the fold reads *)

Section read_facts.
Context `{JsonCodec}.
Context (objs : objects) (u : string).

(** One turn appends a metadata exactly when its group has a metadata
    file. *)
Lemma read_group_grows acc doc acc' :
  read_group objs acc doc = Ok acc' →
  length acc'.2 =
    length acc.2 + (if dict_lookup "metadata.json" doc.2 is Some _ then 1 else 0).
Proof.
  unfold read_group, read_text, py_extend. destruct acc as [all_chunks all_metadata].
  cbn [fst snd]. intros Hread.
  destruct (dict_lookup "chunks.json" doc.2), (dict_lookup "metadata.json" doc.2);
    repeat match type of Hread with
      | context [objs !! ?x] => destruct (objs !! x); cbn in Hread
      | context [json_loads ?x] => destruct (json_loads x); cbn in Hread
      | context [py_iter ?x] => destruct (py_iter x); cbn in Hread
      end;
    simplify_eq/=; rewrite ?length_app; cbn; lia.
Qed.

Lemma fold_read_group_count docs acc acc' :
  fold_res (read_group objs) docs acc = Ok acc' →
  length acc'.2 =
    length acc.2 + length (filter (λ doc, is_Some (dict_lookup "metadata.json" doc.2)) docs).
Proof.
  revert acc. induction docs as [|doc docs IH]; intros acc; cbn [fold_res].
  - intros [= <-]. cbn. lia.
  - destruct (read_group objs acc doc) as [acc1|] eqn:Hread; [|done].
    intros ->%IH. apply read_group_grows in Hread as ->. rewrite filter_cons.
    destruct (dict_lookup "metadata.json" doc.2) eqn:Hm.
    + rewrite decide_True by eauto. cbn. lia.
    + rewrite decide_False by (by intros [??]). lia.
Qed.

(** Whatever the bucket holds, the fold collects as many metadata as
    there are documents for which the listing names a metadata file. *)
Lemma read_groups_count all_chunks all_metadata :
  read_groups objs u = Ok (all_chunks, all_metadata) →
  length all_metadata =
    length (filter (λ d, has_file (list_names (user_prefix u) objs) d "metadata.json")
                   (docs_of (list_names (user_prefix u) objs))).
Proof.
  intros Hall%fold_read_group_count. cbn [snd length plus] in Hall.
  rewrite Hall, <-group_blobs_keys.
  apply (length_filter_fmap fst), Forall_forall. intros [d fs] Hdoc.
  by apply group_has_file.
Qed.

(** A fold over groups that hold neither file collects nothing. *)
Lemma fold_read_group_unread docs acc :
  Forall (λ doc, dict_lookup "chunks.json" doc.2 = None) docs →
  Forall (λ doc, dict_lookup "metadata.json" doc.2 = None) docs →
  fold_res (read_group objs) docs acc = Ok acc.
Proof.
  induction 1 as [|doc docs Hc _ IH]; [done|]. intros [Hm ?]%Forall_cons.
  cbn [fold_res]. unfold read_group at 1. rewrite Hc, Hm. destruct acc. by apply IH.
Qed.

Lemma read_groups_unread :
  Forall (λ name, unread name = true) (list_names (user_prefix u) objs) →
  read_groups objs u = Ok ([], []).
Proof.
  intros Hun. apply fold_read_group_unread; apply group_blobs_unread; auto.
Qed.

Lemma read_document_held acc d content :
  held objs u d content →
  read_document objs u acc d = Ok (acc.1 ++ content.1, acc.2 ++ [content.2]).
Proof.
  intros (chunks_data & metadata_data & Hc & Hcl & Hm & Hml).
  unfold read_document. by rewrite Hc, Hcl, Hm, Hml.
Qed.

Lemma fold_read_document_held (content : string → list json * json) docs acc :
  Forall (λ d, held objs u d (content d)) docs →
  fold_res (read_document objs u) docs acc =
    Ok (acc.1 ++ concat ((fst ∘ content) <$> docs), acc.2 ++ ((snd ∘ content) <$> docs)).
Proof.
  intros Hdocs. revert acc.
  induction Hdocs as [|d docs Hd _ IH]; intros [all_chunks all_metadata]; cbn.
  - by rewrite !app_nil_r.
  - rewrite (read_document_held _ d (content d)) by done. rewrite IH. cbn.
    by rewrite <-!app_assoc.
Qed.

(** When every document of the listing has both objects, the fold
    collects the chunks of the documents one after the other and one
    metadata a document, in the order of the listing. *)
Lemma read_all_held (content : string → list json * json) :
  Forall (λ d, held objs u d (content d)) (docs_of (list_names (user_prefix u) objs)) →
  read_all objs u =
    Ok (concat ((fst ∘ content) <$> docs_of (list_names (user_prefix u) objs)),
        (snd ∘ content) <$> docs_of (list_names (user_prefix u) objs)).
Proof. intros Hdocs. unfold read_all. by rewrite (fold_read_document_held content). Qed.

End read_facts.

(** ** The handler in all-documents mode *)

Section all_request_facts.
Context `{JsonCodec}.
Context (req : request) (kvs : list (string * json)) (user_id : json).
Context (Hmethod : method req ≠ "OPTIONS") (Hbody : body req = Some (JObj kvs)).
Context (Huser : dict_lookup "userId" kvs = Some user_id).
Context (Hdoc : truthy (default JNull (dict_lookup "documentId" kvs)) = false).
Context (st : store) (objs : objects) (Hbucket : st !! BUCKET_NAME = Some objs).

(** The handler answers what the branch collects: 200 with the lists, or
    500 with the text of the exception. *)
Lemma run_retrieve_collected collected c :
  run_cloud (retrieve_all user_id) (reliable st) = (collected, c) →
  run_cloud (retrieve_embeddings req) (reliable st) = (Ok (collected_response collected), c).
Proof.
  intros Hall. destruct collected as [[all_chunks all_metadata]|e].
  - by apply (run_retrieve_every _ kvs user_id Hmethod Hbody Huser st objs Hbucket
                (all_chunks, all_metadata)).
  - by apply (run_retrieve_every_failed _ kvs user_id Hmethod Hbody Huser st objs Hbucket).
Qed.

(** C6. Retrieve of all documents refines [read_all]: on a tidy bucket the
    handler answers what the fold over the documents of the listing
    reads from the content of the bucket, 200 with the collected lists or
    500 with the text of the first failure, and leaves the store as it
    was. *)
Theorem retrieve_embeddings_all :
  tidy (py_str user_id) objs →
  run_cloud (retrieve_embeddings req) (reliable st) =
    (Ok (collected_response (read_all objs (py_str user_id))), reliable st).
Proof. intros Htidy. by apply run_retrieve_collected, run_retrieve_all. Qed.

(** When every document of the user has both objects, Retrieve of all
    documents answers the chunks of the documents one after the other
    and one metadata a document, in the order in which the listing first
    names the documents; [documentsCount] is then the number of
    documents. *)
Theorem retrieve_embeddings_all_held (content : string → list json * json) :
  let docs := docs_of (list_names (user_prefix (py_str user_id)) objs) in
  tidy (py_str user_id) objs →
  Forall (λ d, held objs (py_str user_id) d (content d)) docs →
  run_cloud (retrieve_embeddings req) (reliable st) =
    (Ok (retrieve_response (concat ((fst ∘ content) <$> docs)) ((snd ∘ content) <$> docs)),
     reliable st).
Proof.
  intros docs Htidy Hheld.
  rewrite (run_retrieve_collected _ _ (run_retrieve_all st objs Hbucket _ _ eq_refl Htidy)).
  by rewrite (read_all_held _ _ content).
Qed.

(** C19. Whatever the bucket holds for the user, the [documentsCount] of a
    200 answer to Retrieve of all documents is the number of documents
    for which the listing names a metadata file (a name whose 5th part
    is [metadata.json]), not the number of documents. *)
Theorem retrieve_embeddings_all_count resp :
  let listing := list_names (user_prefix (py_str user_id)) objs in
  (run_cloud (retrieve_embeddings req) (reliable st)).1 = Ok resp →
  status resp = 200 →
  field "documentsCount" resp =
    Some (JLen (filter (λ d, has_file listing d "metadata.json") (docs_of listing))).
Proof.
  intros listing.
  rewrite (run_retrieve_collected _ _ (run_retrieve_groups st objs Hbucket _)).
  destruct (read_groups objs (py_str user_id)) as [[all_chunks all_metadata]|e] eqn:Hall;
    intros [= <-]; [intros _|done].
  cbn. unfold JLen. by rewrite (read_groups_count _ _ _ _ Hall).
Qed.

(** C18. Whatever the bucket holds, Retrieve of all documents answers what the
    fold over the groups of the listing reads, 200 with the collected
    lists or 500 with the text of the first failure, and leaves the store
    as it was. *)
Theorem retrieve_embeddings_all_groups :
  run_cloud (retrieve_embeddings req) (reliable st) =
    (Ok (collected_response (read_groups objs (py_str user_id))), reliable st).
Proof. exact (run_retrieve_collected _ _ (run_retrieve_groups st objs Hbucket _)). Qed.

(** C37. When no listed name of the user has [chunks.json] or [metadata.json]
    as its 5th part, Retrieve of all documents answers 200 with no chunks
    and no documents, whatever the objects hold. *)
Theorem retrieve_embeddings_all_unread :
  Forall (λ name, unread name = true) (list_names (user_prefix (py_str user_id)) objs) →
  run_cloud (retrieve_embeddings req) (reliable st) =
    (Ok (retrieve_response [] []), reliable st).
Proof.
  intros Hun. rewrite (run_retrieve_collected _ _ (run_retrieve_groups st objs Hbucket _)).
  by rewrite read_groups_unread.
Qed.

End all_request_facts.

(** ** The theorems at the sample requests *)

Lemma tidy_shared : tidy "u1" shared_objects.
Proof. apply (bool_decide_unpack (tidy "u1" shared_objects)). by_compute. Qed.

Lemma retrieve_embeddings_all_witness :
  run_cloud (retrieve_embeddings user_request) (reliable shared_store) =
    (Ok (collected_response (read_all shared_objects "u1")), reliable shared_store).
Proof.
  eapply retrieve_embeddings_all with (kvs := user_fields) (user_id := JStr "u1");
    [done|reflexivity..|apply tidy_shared].
Defined.

(** What the fold reads from the sample bucket: both documents of the
    user, the second without metadata. *)
Example read_all_shared :
  read_all shared_objects "u1" = Ok (sample_chunks ++ [JStr "gamma"], [sample_metadata]).
Proof. by_compute. Qed.

Lemma held_sample : held sample_objects "u1" "d1" (sample_chunks, sample_metadata).
Proof. eexists _, _. split_and!; [reflexivity|by_compute|reflexivity|by_compute]. Qed.

Lemma retrieve_embeddings_all_held_witness :
  run_cloud (retrieve_embeddings user_request) (reliable sample_store) =
    (Ok (retrieve_response
           (concat ((fst ∘ (λ _, (sample_chunks, sample_metadata)))
                      <$> docs_of (list_names (user_prefix "u1") sample_objects)))
           ((snd ∘ (λ _, (sample_chunks, sample_metadata)))
              <$> docs_of (list_names (user_prefix "u1") sample_objects))),
     reliable sample_store).
Proof.
  eapply (retrieve_embeddings_all_held user_request user_fields (JStr "u1"));
    [done|reflexivity..| |].
  - apply (bool_decide_unpack (tidy "u1" sample_objects)). by_compute.
  - change (docs_of (list_names (user_prefix (py_str (JStr "u1"))) sample_objects))
      with ["d1"].
    repeat constructor. apply held_sample.
Defined.

(** The stray object is read as the metadata of the second document. *)
Example read_groups_stray :
  read_groups stray_objects "u1" =
    Ok (sample_chunks ++ [JStr "gamma"], [sample_metadata; JObj []])
  ∧ ¬ tidy "u1" stray_objects.
Proof. split; [by_compute|]. apply (bool_decide_eq_false_1 (tidy "u1" stray_objects)). by_compute. Qed.

Lemma retrieve_embeddings_all_count_witness :
  field "documentsCount"
    (retrieve_response (sample_chunks ++ [JStr "gamma"]) [sample_metadata; JObj []]) =
    Some (JLen (filter
                  (λ d, has_file (list_names (user_prefix (py_str (JStr "u1"))) stray_objects)
                                 d "metadata.json")
                  (docs_of (list_names (user_prefix (py_str (JStr "u1"))) stray_objects)))).
Proof.
  eapply (retrieve_embeddings_all_count user_request user_fields (JStr "u1")
            ltac:(done) eq_refl eq_refl eq_refl stray_store stray_objects eq_refl);
    [by_compute|reflexivity].
Defined.

Lemma retrieve_embeddings_all_groups_witness :
  run_cloud (retrieve_embeddings user_request) (reliable stray_store) =
    (Ok (collected_response (read_groups stray_objects (py_str (JStr "u1")))),
     reliable stray_store).
Proof.
  exact (retrieve_embeddings_all_groups user_request user_fields (JStr "u1")
           ltac:(done) eq_refl eq_refl eq_refl stray_store stray_objects eq_refl).
Defined.

Lemma retrieve_embeddings_all_unread_witness :
  run_cloud (retrieve_embeddings user_request) (reliable slash_store) =
    (Ok (retrieve_response [] []), reliable slash_store).
Proof.
  eapply (retrieve_embeddings_all_unread user_request user_fields (JStr "u1")
            ltac:(done) eq_refl eq_refl eq_refl slash_store slash_objects eq_refl).
  apply (bool_decide_unpack (Forall _ _)). by_compute.
Defined.

(** Two documents, one metadata: the count of the answer is 1. *)
Example docs_of_shared :
  docs_of (list_names (user_prefix "u1") shared_objects) = ["d1"; "d2"].
Proof. by_compute. Qed.
