(* ===== verification/Delete.v ===== *)
(** * Delete: the [delete_embeddings] function

    [delete_embeddings] deletes one document of a user, or all of them: it
    lists a prefix and deletes every object of the listing, one call per
    object.  For one document an empty listing is answered 404; for all
    documents the answer counts the distinct document ids of the listing. *)

From S2P Require Import Prelude PyStr PyDict Json Prog Gcs KeySpace Codec.
From S2P Require Import JsonLex JsonText Http Samples.

(** [for blob in blobs: blob.delete()] *)
Definition delete_blobs (blobs : list string) : prog storeE unit :=
  for_each blobs (λ blob, call (DeleteBlob BUCKET_NAME blob)).

(** The branch for one document: an early 404, or the count and the
    message. *)
Definition delete_document (user_id document_id : json)
    : prog storeE (response + nat * string) :=
  let prefix := document_prefix (py_str user_id) (py_str document_id) in
  blobs ← call (ListBlobs BUCKET_NAME prefix);
  if decide (blobs = []) then Ret (inl (document_not_found document_id))
  else
    _ ← delete_blobs blobs;
    Ret (inr (1, "Successfully deleted document " +:+ py_str document_id)).

(** [documents = set(); for blob in blobs: ... documents.add(doc_id)] *)
Definition document_ids (blobs : list string) : gset string :=
  foldl (λ documents name,
           match blob_doc_id name with
           | Some doc_id => {[doc_id]} ∪ documents
           | None => documents
           end) ∅ blobs.

(** The branch for all documents of a user. *)
Definition delete_all (user_id : json) : prog storeE (nat * string) :=
  let prefix := user_prefix (py_str user_id) in
  blobs ← call (ListBlobs BUCKET_NAME prefix);
  let documents := document_ids blobs in
  _ ← delete_blobs blobs;
  let deleted_count := size documents in
  Ret (deleted_count,
       "Successfully deleted " +:+ pretty deleted_count
       +:+ " documents for user " +:+ py_str user_id).

(** The answer when the bucket does not exist. *)
Definition nothing_to_delete : response :=
  success
    [("success", JBool true);
     ("documentsDeleted", JInt 0);
     ("message", JStr "No documents to delete")].

(** The answer after a deletion. *)
Definition delete_response (deleted_count : nat) (message : string) : response :=
  success
    [("success", JBool true);
     ("documentsDeleted", JInt (Z.of_nat deleted_count));
     ("message", JStr message)].

(** The body of the outer [try]. *)
Definition delete_body (request : request) : prog storeE response :=
  let request_json := get_json request in
  if negb (truthy request_json) then Ret (failure 400 "No JSON data provided")
  else
    has_user ← lift (py_in "userId" request_json);
    if negb has_user then Ret (failure 400 "Missing required field: userId")
    else
      user_id ← lift (py_getitem request_json "userId");
      document_id ← lift (py_get request_json "documentId");
      bucket_exists ← call (BucketExists BUCKET_NAME);
      if negb bucket_exists then Ret nothing_to_delete
      else if truthy document_id then
        deleted ← delete_document user_id document_id;
        match deleted with
        | inl resp => Ret resp
        | inr (deleted_count, message) => Ret (delete_response deleted_count message)
        end
      else
        deleted ← delete_all user_id;
        Ret (delete_response deleted.1 deleted.2).

(** [delete_embeddings(request)] *)
Definition delete_embeddings (request : request) : prog storeE response :=
  if decide (method request = "OPTIONS") then Ret preflight
  else catch (delete_body request) (λ e, Ret (failure 500 (exn_str e))).

(** ** The deleting loop *)

(** On a reliable cloud the loop deletes the names of its list, provided
    each names an object and none is repeated. *)
Lemma run_delete_blobs names st objs :
  st !! BUCKET_NAME = Some objs →
  NoDup names → (∀ name, name ∈ names → is_Some (objs !! name)) →
  run_cloud (delete_blobs names) (reliable st) =
    (Ok (), reliable (<[BUCKET_NAME := delete_names names objs]> st)).
Proof.
  unfold delete_blobs, delete_names. revert st objs.
  induction names as [|n names IH]; intros st objs Hb Hnodup Hin; cbn [foldl].
  - by rewrite run_for_each_nil, insert_id.
  - apply NoDup_cons in Hnodup as [Hn Hnodup].
    rewrite run_for_each_cons, run_call_reliable.
    erewrite store_delete_blob by (first [done|apply Hin; left]). cbn [fst snd].
    rewrite (IH _ (delete n objs)); [by rewrite insert_insert_eq|apply lookup_insert_eq|done|].
    intros name Hname. rewrite lookup_delete_ne; [apply Hin; by right|].
    by intros ->.
Qed.

(** Deleting a listing removes its prefix from the bucket. *)
Lemma run_delete_listing prefix st objs :
  st !! BUCKET_NAME = Some objs →
  run_cloud (delete_blobs (list_names prefix objs)) (reliable st) =
    (Ok (), reliable (<[BUCKET_NAME := remove_prefix prefix objs]> st)).
Proof.
  intros Hb. erewrite run_delete_blobs; [|done|apply NoDup_list_names|].
  - by rewrite delete_names_list_names.
  - by intros name [? _]%elem_of_list_names.
Qed.

(** ** The two branches *)

Section delete_branches.
Context (st : store) (objs : objects) (Hbucket : st !! BUCKET_NAME = Some objs).
Context (user_id document_id : json).
Let u := py_str user_id.
Let d := py_str document_id.

Lemma run_delete_document_missing :
  list_names (document_prefix u d) objs = [] →
  run_cloud (delete_document user_id document_id) (reliable st) =
    (Ok (inl (document_not_found document_id)), reliable st).
Proof.
  intros Hnil. unfold delete_document. run_simpl. fold u d. rewrite Hnil.
  by rewrite decide_True.
Qed.

Lemma run_delete_document_found :
  list_names (document_prefix u d) objs ≠ [] →
  run_cloud (delete_document user_id document_id) (reliable st) =
    (Ok (inr (1, "Successfully deleted document " +:+ d)),
     reliable (<[BUCKET_NAME := remove_prefix (document_prefix u d) objs]> st)).
Proof.
  intros Hne. unfold delete_document. run_simpl. fold u d.
  rewrite decide_False by done. run_simpl.
  rewrite run_delete_listing by done. by run_simpl.
Qed.

Lemma run_delete_all :
  run_cloud (delete_all user_id) (reliable st) =
    (Ok (size (document_ids (list_names (user_prefix u) objs)),
         "Successfully deleted "
         +:+ pretty (size (document_ids (list_names (user_prefix u) objs)))
         +:+ " documents for user " +:+ u),
     reliable (<[BUCKET_NAME := remove_prefix (user_prefix u) objs]> st)).
Proof.
  unfold delete_all. run_simpl. fold u.
  rewrite run_delete_listing by done. by run_simpl.
Qed.

End delete_branches.

(** ** Requests *)

Section delete_request.
Context (req : request) (kvs : list (string * json)) (user_id : json).
Context (Hmethod : method req ≠ "OPTIONS") (Hbody : body req = Some (JObj kvs)).
Context (Huser : dict_lookup "userId" kvs = Some user_id).
Let document_id := default JNull (dict_lookup "documentId" kvs).
Let u := py_str user_id.
Let d := py_str document_id.

Lemma delete_body_dict :
  delete_body req =
    (bucket_exists ← call (BucketExists BUCKET_NAME);
     if negb bucket_exists then Ret nothing_to_delete
     else if truthy document_id then
       deleted ← delete_document user_id document_id;
       match deleted with
       | inl resp => Ret resp
       | inr (deleted_count, message) => Ret (delete_response deleted_count message)
       end
     else
       deleted ← delete_all user_id;
       Ret (delete_response deleted.1 deleted.2)).
Proof.
  unfold delete_body, get_json. rewrite Hbody. cbn [default from_option id].
  assert (truthy (JObj kvs) = true) as -> by by destruct kvs.
  unfold py_in, py_getitem, py_get. rewrite Huser.
  by rewrite bool_decide_eq_true_2 by eauto.
Qed.

Lemma run_delete_embeddings c :
  run_cloud (delete_embeddings req) c =
    run_cloud (catch (delete_body req) (λ e, Ret (failure 500 (exn_str e)))) c.
Proof. unfold delete_embeddings. by rewrite decide_False. Qed.

(** Without the bucket nothing is deleted and the answer is a success. *)
Theorem delete_embeddings_no_bucket st :
  st !! BUCKET_NAME = None →
  run_cloud (delete_embeddings req) (reliable st) = (Ok nothing_to_delete, reliable st).
Proof.
  intros Hb. rewrite run_delete_embeddings, delete_body_dict. run_simpl.
  rewrite bool_decide_eq_false_2 by (rewrite Hb; by intros [??]). by run_simpl.
Qed.

Context (st : store) (objs : objects) (Hbucket : st !! BUCKET_NAME = Some objs).

Lemma run_delete_bucket {A} (k : bool → prog storeE A) :
  run_cloud (bucket_exists ← call (BucketExists BUCKET_NAME); k bucket_exists)
            (reliable st) = run_cloud (k true) (reliable st).
Proof. run_simpl. by rewrite bool_decide_eq_true_2 by eauto. Qed.

(** The answer of the one-document branch. *)
Definition deleted_response (deleted : response + nat * string) : response :=
  match deleted with
  | inl resp => resp
  | inr (deleted_count, message) => delete_response deleted_count message
  end.

(** In one-document mode the handler answers what the branch did. *)
Lemma run_delete_one deleted c :
  truthy document_id = true →
  run_cloud (delete_document user_id document_id) (reliable st) = (Ok deleted, c) →
  run_cloud (delete_embeddings req) (reliable st) = (Ok (deleted_response deleted), c).
Proof.
  intros Hdoc Hdel. rewrite run_delete_embeddings, delete_body_dict.
  rewrite run_catch, run_delete_bucket. cbn [negb]. rewrite Hdoc.
  run_simpl. rewrite Hdel. by destruct deleted as [?|[??]].
Qed.

(** In all-documents mode the handler answers what the branch did. *)
Lemma run_delete_every deleted c :
  truthy document_id = false →
  run_cloud (delete_all user_id) (reliable st) = (Ok deleted, c) →
  run_cloud (delete_embeddings req) (reliable st) =
    (Ok (delete_response deleted.1 deleted.2), c).
Proof.
  intros Hdoc Hdel. rewrite run_delete_embeddings, delete_body_dict.
  rewrite run_catch, run_delete_bucket. cbn [negb]. rewrite Hdoc.
  run_simpl. by rewrite Hdel.
Qed.

(** C33. Deleting a document of which the store holds no object is
    answered 404 and changes nothing. *)
Theorem delete_embeddings_not_found :
  truthy document_id = true →
  list_names (document_prefix u d) objs = [] →
  run_cloud (delete_embeddings req) (reliable st) =
    (Ok (document_not_found document_id), reliable st).
Proof.
  intros Hdoc Hnil. apply (run_delete_one (inl _)); [done|].
  by eapply run_delete_document_missing.
Qed.

(** C4. Deleting a document removes every object under its prefix and no
    other object, and reports one document deleted. *)
Theorem delete_embeddings_document :
  truthy document_id = true →
  list_names (document_prefix u d) objs ≠ [] →
  run_cloud (delete_embeddings req) (reliable st) =
    (Ok (delete_response 1 ("Successfully deleted document " +:+ d)),
     reliable (<[BUCKET_NAME := remove_prefix (document_prefix u d) objs]> st)).
Proof.
  intros Hdoc Hne. apply (run_delete_one (inr (_, _))); [done|].
  by eapply run_delete_document_found.
Qed.

(** C34. Without a document id (or with a falsy one) every object under the
    user's prefix is removed, and the answer counts the distinct document
    ids of the listing, not the objects. *)
Theorem delete_embeddings_all :
  truthy document_id = false →
  run_cloud (delete_embeddings req) (reliable st) =
    (Ok (delete_response
           (size (document_ids (list_names (user_prefix u) objs)))
           ("Successfully deleted "
            +:+ pretty (size (document_ids (list_names (user_prefix u) objs)))
            +:+ " documents for user " +:+ u)),
     reliable (<[BUCKET_NAME := remove_prefix (user_prefix u) objs]> st)).
Proof.
  intros Hdoc. apply (run_delete_every (_, _)); [done|].
  by eapply run_delete_all.
Qed.

End delete_request.

(** ** Every request, every cloud *)

(** The calls Delete can make. *)
Definition delete_call (R : Type) (ev : storeE R) : Prop :=
  match ev with
  | BucketExists _ | ListBlobs _ _ | DeleteBlob _ _ => True
  | _ => False
  end.

Lemma delete_blobs_calls blobs : calls_only delete_call (delete_blobs blobs).
Proof. apply calls_only_for_each. intros name. by apply calls_only_call. Qed.

Lemma delete_embeddings_calls req : calls_only delete_call (delete_embeddings req).
Proof.
  unfold delete_embeddings, delete_body. case_decide; [done|].
  apply calls_only_catch; [|done]. case_match; [done|].
  apply calls_only_mbind; [apply calls_only_lift|intros []; [|done]]. cbn [negb].
  do 2 (apply calls_only_mbind; [apply calls_only_lift|intros ?]).
  apply calls_only_mbind; [by apply calls_only_call|intros []; [|done]]. cbn [negb].
  case_match.
  - apply calls_only_mbind; [|by intros [?|[??]]]. unfold delete_document.
    apply calls_only_mbind; [by apply calls_only_call|intros blobs].
    case_decide; [done|]. apply calls_only_mbind; [apply delete_blobs_calls|done].
  - apply calls_only_mbind; [|done]. unfold delete_all.
    apply calls_only_mbind; [by apply calls_only_call|intros blobs].
    apply calls_only_mbind; [apply delete_blobs_calls|done].
Qed.

(** The content of an object after a call of Delete is its content
    before. *)
Lemma delete_call_no_write R (ev : storeE R) c b name data :
  delete_call R ev →
  buckets (cloud_call R ev c).2 !! b ≫= (.!! name) = Some data →
  buckets c !! b ≫= (.!! name) = Some data.
Proof.
  intros Hev. unfold cloud_call.
  destruct (faults c) as [|[e|] fs]; [|done|];
    (destruct ev; try done; cbn; repeat case_match; simplify_eq/=; try done;
     (destruct (decide (bucket = b)) as [->|];
      [rewrite lookup_insert_eq; cbn|by rewrite lookup_insert_ne]);
     intros [_ Hd]%lookup_delete_Some;
     repeat match goal with
            | Hb : _ !! b = Some _ |- _ => rewrite Hb; cbn
            end; done).
Qed.

(** C10. Delete never writes: whatever the request and whatever the cloud
    does, an object that exists after the call existed before it with the
    same content. *)
Theorem delete_embeddings_no_write req c b name data :
  buckets (run_cloud (delete_embeddings req) c).2 !! b ≫= (.!! name) = Some data →
  buckets c !! b ≫= (.!! name) = Some data.
Proof.
  apply (calls_only_preserves cloud_call delete_call (delete_embeddings req)
           (λ c', buckets c' !! b ≫= (.!! name) = Some data →
                  buckets c !! b ≫= (.!! name) = Some data));
    [|apply delete_embeddings_calls|done].
  intros R ev s Hev Hs Hdata. eauto using delete_call_no_write.
Qed.

(** Delete answers every request. *)
Theorem delete_embeddings_total req c :
  ∃ resp, (run_cloud (delete_embeddings req) c).1 = Ok resp.
Proof.
  unfold delete_embeddings. case_decide; [by eexists|]. apply run_catch_ret.
Qed.

(** ** The theorems at the sample requests *)

Lemma delete_embeddings_no_bucket_witness :
  run_cloud (delete_embeddings document_request) (reliable ∅) =
    (Ok nothing_to_delete, reliable ∅).
Proof. by eapply delete_embeddings_no_bucket. Defined.

Lemma delete_embeddings_not_found_witness :
  run_cloud (delete_embeddings second_request) (reliable sample_store) =
    (Ok (document_not_found (JStr "d2")), reliable sample_store).
Proof.
  eapply delete_embeddings_not_found
    with (kvs := second_fields) (user_id := JStr "u1") (objs := sample_objects);
    [done|reflexivity..|by_compute].
Defined.

Lemma delete_embeddings_document_witness :
  run_cloud (delete_embeddings document_request) (reliable shared_store) =
    (Ok (delete_response 1 "Successfully deleted document d1"),
     reliable (<[BUCKET_NAME := remove_prefix (document_prefix "u1" "d1") shared_objects]>
                 shared_store)).
Proof.
  eapply delete_embeddings_document
    with (kvs := document_fields) (user_id := JStr "u1") (objs := shared_objects);
    [done|reflexivity..|by_compute].
Defined.

Lemma delete_embeddings_all_witness :
  run_cloud (delete_embeddings user_request) (reliable shared_store) =
    (Ok (delete_response 2 "Successfully deleted 2 documents for user u1"),
     reliable (<[BUCKET_NAME := remove_prefix (user_prefix "u1") shared_objects]>
                 shared_store)).
Proof.
  eapply delete_embeddings_all
    with (kvs := user_fields) (user_id := JStr "u1") (objs := shared_objects);
    [done|reflexivity..].
Defined.

Lemma delete_embeddings_no_write_witness :
  buckets (reliable sample_store) !! BUCKET_NAME ≫= (.!! chunks_blob_name "u1" "d1")
  = Some (dump 2 0 (JArr sample_chunks)).
Proof.
  apply (delete_embeddings_no_write second_request (reliable sample_store)).
  reflexivity.
Defined.
