(* ===== verification/Concurrent.v ===== *)
(** * Concurrent: requests in flight at the same time

    Each request runs in an instance of its function; instances share
    nothing but the store, and the store serves one call at a time.  A
    pool holds the rest of every handler in flight; a step lets one of
    them make its next call.  Every interleaving of the calls of the
    handlers is a sequence of steps, and a schedule, the list of the
    handlers that move, names one.

    Properties that every call of a handler keeps hold along every
    interleaving, by induction on the steps. *)

From S2P Require Import Prelude PyStr PyDict Json Prog Gcs KeySpace Codec.
From S2P Require Import JsonLex JsonText Http Samples Save Retrieve Delete.

(** ** One call of one handler *)

Section advancing.
Context {E : Type → Type} {S : Type}.
Context (answer : ∀ R, E R → S → res R * S).

(** The handler has a call left. *)
Definition has_call {A} (p : prog E A) : bool :=
  match p with
  | Vis _ _ => true
  | _ => false
  end.

(** The handler makes its next call, if it has one left. *)
Definition advance {A} (p : prog E A) (s : S) : prog E A * S :=
  match p with
  | Vis ev k => (k (answer _ ev s).1, (answer _ ev s).2)
  | _ => (p, s)
  end.

Lemma advance_call {R} (ev : E R) s :
  advance (call ev) s = (lift (answer R ev s).1, (answer R ev s).2).
Proof. done. Qed.

Lemma advance_bind {A B} (p : prog E A) (k : A → prog E B) s :
  has_call p = true →
  advance (bind p k) s = (bind (advance p s).1 k, (advance p s).2).
Proof. by destruct p. Qed.

Lemma advance_mbind {A B} (p : prog E A) (k : A → prog E B) s :
  has_call p = true →
  advance (p ≫= k) s = ((advance p s).1 ≫= k, (advance p s).2).
Proof. apply advance_bind. Qed.

Lemma advance_catch {A} (p : prog E A) (h : exn → prog E A) s :
  has_call p = true →
  advance (catch p h) s = (catch (advance p s).1 h, (advance p s).2).
Proof. by destruct p. Qed.

Lemma advance_finished {A} (p : prog E A) s : has_call p = false → advance p s = (p, s).
Proof. by destruct p. Qed.

Lemma has_call_calls_free {A} (p : prog E A) : has_call p = false ↔ calls_free p.
Proof. by destruct p. Qed.

End advancing.

(** ** Pools and steps *)

Section interleaving.
Context {E : Type → Type} {S A : Type}.
Context (answer : ∀ R, E R → S → res R * S).

(** The handlers in flight, each with what is left of it, and the state
    of the service they call. *)
Definition pool : Type := list (prog E A) * S.

(** One handler makes its next call. *)
Inductive step : pool → pool → Prop :=
| step_call i R (ev : E R) (k : res R → prog E A) ps s :
    ps !! i = Some (Vis ev k) →
    step (ps, s) (<[i := k (answer R ev s).1]> ps, (answer R ev s).2).

Definition steps : pool → pool → Prop := rtc step.

(** Handler [i] moves, if it has a call left. *)
Definition fire (cfg : pool) (i : nat) : pool :=
  match cfg.1 !! i with
  | Some p => (<[i := (advance answer p cfg.2).1]> cfg.1, (advance answer p cfg.2).2)
  | None => cfg
  end.

(** The handlers move in the order of the schedule. *)
Definition run_schedule (schedule : list nat) (cfg : pool) : pool :=
  foldl fire cfg schedule.

(** Every handler has returned or raised. *)
Definition finished (cfg : pool) : Prop := Forall calls_free cfg.1.

Lemma fire_advance ps s i p :
  ps !! i = Some p →
  fire (ps, s) i = (<[i := (advance answer p s).1]> ps, (advance answer p s).2).
Proof. intros Hi. unfold fire. cbn [fst snd]. by rewrite Hi. Qed.

Lemma fire_call ps s i R (ev : E R) k :
  ps !! i = Some (Vis ev k) →
  fire (ps, s) i = (<[i := k (answer R ev s).1]> ps, (answer R ev s).2).
Proof. intros Hi. by rewrite (fire_advance _ _ _ _ Hi). Qed.

Lemma fire_finished ps s i p :
  ps !! i = Some p → has_call p = false → fire (ps, s) i = (ps, s).
Proof.
  intros Hi Hp. rewrite (fire_advance _ _ _ _ Hi), advance_finished by done.
  cbn [fst snd]. by rewrite list_insert_id.
Qed.

Lemma steps_fire cfg i : steps cfg (fire cfg i).
Proof.
  destruct cfg as [ps s]. destruct (ps !! i) as [p|] eqn:Hi.
  - destruct (has_call p) eqn:Hp.
    + destruct p as [| |R ev k]; [done..|]. rewrite (fire_call _ _ _ _ _ _ Hi).
      apply rtc_once. by econstructor.
    + by rewrite (fire_finished _ _ _ _ Hi Hp).
  - unfold fire. cbn [fst snd]. by rewrite Hi.
Qed.

(** What a schedule reaches is reached by steps. *)
Lemma steps_run_schedule schedule cfg : steps cfg (run_schedule schedule cfg).
Proof.
  revert cfg. induction schedule as [|i schedule IH]; intros cfg; [done|].
  cbn. etrans; [apply steps_fire|apply IH].
Qed.

(** Every sequence of steps is a schedule. *)
Lemma steps_schedule cfg cfg' :
  steps cfg cfg' → ∃ schedule, run_schedule schedule cfg = cfg'.
Proof.
  induction 1 as [cfg|cfg cfg1 cfg2 Hstep _ [schedule IH]]; [by exists []|].
  destruct Hstep as [i R ev k ps s Hi]. exists (i :: schedule).
  change (run_schedule (i :: schedule) (ps, s))
    with (run_schedule schedule (fire (ps, s) i)).
  by rewrite (fire_call _ _ _ _ _ _ Hi).
Qed.

(** A finished pool does not move. *)
Lemma finished_stuck cfg cfg' : finished cfg → ¬ step cfg cfg'.
Proof.
  intros Hfin Hstep. destruct Hstep as [i R ev k ps s Hi].
  by apply (Forall_lookup_1 _ _ _ _ Hfin) in Hi.
Qed.

(** *** One handler after the other *)

(** A handler that runs alone until it has returned. *)
Lemma steps_run ps s i (p : prog E A) :
  ps !! i = Some p →
  steps (ps, s) (<[i := lift (run answer p s).1]> ps, (run answer p s).2).
Proof.
  revert ps s. induction p as [a|e|R ev k IH]; intros ps s Hi; cbn.
  - by rewrite list_insert_id.
  - by rewrite list_insert_id.
  - destruct (answer R ev s) as [r s'] eqn:Hev.
    eapply rtc_l; [by econstructor|]. rewrite Hev. cbn [fst snd].
    specialize (IH r (<[i := k r]> ps) s').
    rewrite list_insert_insert_eq in IH. apply IH.
    apply list_lookup_insert_eq. by eapply lookup_lt_Some.
Qed.

(** Two requests served one after the other are one of the
    interleavings. *)
Lemma steps_sequential (p q : prog E A) s :
  steps ([p; q], s)
        ([lift (run answer p s).1; lift (run answer q (run answer p s).2).1],
         (run answer q (run answer p s).2).2).
Proof.
  etrans; [by apply (steps_run _ _ 0 p)|].
  by apply (steps_run [lift (run answer p s).1; q] _ 1 q).
Qed.

(** *** Invariants *)

(** A property of the state that every allowed call keeps holds after
    every interleaving of handlers that make allowed calls only. *)
Lemma steps_preserves (allowed : ∀ R, E R → Prop) (I : S → Prop) cfg cfg' :
  (∀ R ev s, allowed R ev → I s → I (answer R ev s).2) →
  steps cfg cfg' →
  Forall (calls_only allowed) cfg.1 → I cfg.2 →
  Forall (calls_only allowed) cfg'.1 ∧ I cfg'.2.
Proof.
  intros Hkeep. induction 1 as [cfg|cfg cfg1 cfg2 Hstep _ IH]; [done|].
  intros Hall HI. apply IH; destruct Hstep as [i R ev k ps s Hi]; cbn [fst snd] in *.
  - pose proof (Forall_lookup_1 _ _ _ _ Hall Hi) as [_ Hk].
    apply Forall_insert; [done|apply Hk].
  - pose proof (Forall_lookup_1 _ _ _ _ Hall Hi) as [Hev _]. by apply Hkeep.
Qed.

(** The same for handlers whose calls are allowed given what the service
    promises of its answers. *)
Lemma steps_preserves_given (promised : ∀ R, E R → res R → Prop)
    (allowed : ∀ R, E R → Prop) (I : S → Prop) cfg cfg' :
  (∀ R ev s, I s → promised R ev (answer R ev s).1) →
  (∀ R ev s, allowed R ev → I s → I (answer R ev s).2) →
  steps cfg cfg' →
  Forall (calls_given promised allowed) cfg.1 → I cfg.2 →
  Forall (calls_given promised allowed) cfg'.1 ∧ I cfg'.2.
Proof.
  intros Hpromise Hkeep. induction 1 as [cfg|cfg cfg1 cfg2 Hstep _ IH]; [done|].
  intros Hall HI. apply IH; destruct Hstep as [i R ev k ps s Hi]; cbn [fst snd] in *.
  - pose proof (Forall_lookup_1 _ _ _ _ Hall Hi) as [_ Hk].
    apply Forall_insert; [done|]. by apply Hk, Hpromise.
  - pose proof (Forall_lookup_1 _ _ _ _ Hall Hi) as [Hev _]. by apply Hkeep.
Qed.

End interleaving.

Arguments pool : clear implicits.

(** ** Pools of storage requests *)

Abbreviation store_steps := (steps (A := response) cloud_call).

(** The handlers of requests to the three storage functions. *)
Inductive request_to : Type :=
| ToSave (req : request)
| ToRetrieve (req : request)
| ToDelete (req : request).

Definition handler (r : request_to) : prog storeE response :=
  match r with
  | ToSave req => save_embeddings req
  | ToRetrieve req => retrieve_embeddings req
  | ToDelete req => delete_embeddings req
  end.

Definition is_delete (r : request_to) : bool :=
  match r with ToDelete _ => true | _ => false end.

Definition is_save (r : request_to) : bool :=
  match r with ToSave _ => true | _ => false end.

(** The calls of Save and of Retrieve. *)
Definition keeping_call (R : Type) (ev : storeE R) : Prop :=
  save_call R ev ∨ read_call R ev.

(** The calls of Delete and of Retrieve. *)
Definition unwriting_call (R : Type) (ev : storeE R) : Prop :=
  delete_call R ev ∨ read_call R ev.

Lemma handler_keeping r : is_delete r = false → calls_only keeping_call (handler r).
Proof.
  destruct r as [req|req|req]; [| |done]; intros _; cbn [handler].
  - eapply calls_only_weaken, save_embeddings_calls. by left.
  - eapply calls_only_weaken, retrieve_embeddings_calls. by right.
Qed.

Lemma handler_unwriting r : is_save r = false → calls_only unwriting_call (handler r).
Proof.
  destruct r as [req|req|req]; [done| |]; intros _; cbn [handler].
  - eapply calls_only_weaken, retrieve_embeddings_calls. by right.
  - eapply calls_only_weaken, delete_embeddings_calls. by left.
Qed.

Lemma read_call_keeps R (ev : storeE R) c b name :
  read_call R ev →
  is_Some (buckets c !! b ≫= (.!! name)) →
  is_Some (buckets (cloud_call R ev c).2 !! b ≫= (.!! name)).
Proof. intros Hev. by rewrite read_call_buckets. Qed.

Lemma read_call_no_write R (ev : storeE R) c b name data :
  read_call R ev →
  buckets (cloud_call R ev c).2 !! b ≫= (.!! name) = Some data →
  buckets c !! b ≫= (.!! name) = Some data.
Proof. intros Hev. by rewrite read_call_buckets. Qed.

(** C25. However the calls of any number of Saves and Retrieves interleave and
    whichever of them fail, an object that exists before exists after. *)
Theorem saves_keep_objects rs c cfg b name :
  Forall (λ r, is_delete r = false) rs →
  store_steps (handler <$> rs, c) cfg →
  is_Some (buckets c !! b ≫= (.!! name)) →
  is_Some (buckets cfg.2 !! b ≫= (.!! name)).
Proof.
  intros Hrs Hsteps Hname.
  eapply (steps_preserves cloud_call keeping_call
            (λ c, is_Some (buckets c !! b ≫= (.!! name)))) in Hsteps as [_ ?];
    [done| |by apply Forall_fmap, (Forall_impl _ _ _ Hrs), handler_keeping|done].
  intros R ev s [Hev|Hev] Hs; [by apply save_call_keeps|by apply read_call_keeps].
Qed.

(** C26. However the calls of any number of Deletes and Retrieves interleave
    and whichever of them fail, an object that exists after existed
    before, with the same content. *)
Theorem deletes_write_nothing rs c cfg b name data :
  Forall (λ r, is_save r = false) rs →
  store_steps (handler <$> rs, c) cfg →
  buckets cfg.2 !! b ≫= (.!! name) = Some data →
  buckets c !! b ≫= (.!! name) = Some data.
Proof.
  intros Hrs Hsteps.
  eapply (steps_preserves cloud_call unwriting_call
            (λ c', buckets c' !! b ≫= (.!! name) = Some data →
                   buckets c !! b ≫= (.!! name) = Some data)) in Hsteps as [_ ?];
    [done| |by apply Forall_fmap, (Forall_impl _ _ _ Hrs), handler_unwriting|done].
  intros R ev s [Hev|Hev] Hs Hdata;
    eauto using delete_call_no_write, read_call_no_write.
Qed.

(** C29. Retrieves in flight, however many, leave the store as it is. *)
Theorem retrieves_keep_store reqs c cfg :
  store_steps (retrieve_embeddings <$> reqs, c) cfg → buckets cfg.2 = buckets c.
Proof.
  intros Hsteps.
  eapply (steps_preserves cloud_call read_call (λ c', buckets c' = buckets c))
    in Hsteps as [_ ?]; [done| |by apply Forall_fmap, Forall_true, retrieve_embeddings_calls|done].
  intros R ev s Hev <-. by apply read_call_buckets.
Qed.

(** ** The theorems at the sample requests *)

Lemma saves_keep_objects_witness :
  is_Some (buckets (run_schedule cloud_call [0; 1; 1; 0; 1; 0]
                      (handler <$> [ToSave resave_request; ToRetrieve document_request],
                       Cloud sample_store [None; None; Some (Exn ServiceUnavailable "503")])).2
           !! BUCKET_NAME ≫= (.!! metadata_blob_name "u1" "d1")).
Proof.
  eapply (saves_keep_objects [ToSave resave_request; ToRetrieve document_request]);
    [by repeat constructor|apply steps_run_schedule|by eexists].
Defined.

Lemma deletes_write_nothing_witness :
  buckets (reliable shared_store) !! BUCKET_NAME ≫= (.!! chunks_blob_name "u2" "d1")
  = Some (dump 2 0 (JArr [JStr "delta"])).
Proof.
  eapply (deletes_write_nothing [ToDelete user_request; ToRetrieve user_request]
            _ (run_schedule cloud_call [0; 1; 0; 1; 0; 0; 0; 1] _));
    [by repeat constructor|apply steps_run_schedule|reflexivity].
Defined.

Lemma retrieves_keep_store_witness :
  buckets (run_schedule cloud_call [1; 0; 0; 1; 1; 0]
             (retrieve_embeddings <$> [document_request; user_request],
              reliable sample_store)).2
  = buckets (reliable sample_store).
Proof.
  apply (retrieves_keep_store [document_request; user_request]), steps_run_schedule.
Defined.
