(* ===== verification/Isolation.v ===== *)
(** * Isolation: the requests of a user touch the objects of that user only

    A handler writes and deletes under the prefix of the user its request
    names.  For Save this is read off the names it builds.  For Delete it
    rests on what the store promises of a listing: every listed name
    starts with the prefix that was listed.  Given that promise, every
    call of every handler stays within the user's prefix, so an object
    outside it is left as it is, by one request and by any number of
    requests in flight, in every interleaving and under every schedule of
    faults. *)

From S2P Require Import Prelude PyStr PyDict Json Prog Gcs KeySpace Codec.
From S2P Require Import JsonLex JsonText Http Samples Save Retrieve Delete.
From S2P Require Import Concurrent.

(** ** Definitions *)

(** What the store promises of an answer: a listing holds names under the
    listed prefix only. *)
Definition listed_promise (R : Type) (ev : storeE R) : res R → Prop :=
  match ev in storeE R return res R → Prop with
  | ListBlobs _ prefix => λ r,
      match r with
      | Ok names => Forall (λ name, startswith name prefix = true) names
      | Err _ => True
      end
  | _ => λ _, True
  end.

(** The calls that write and delete among the names [mine] only. *)
Definition writes_within (mine : string → Prop) (R : Type) (ev : storeE R) : Prop :=
  match ev with
  | UploadFromString _ name _ _ | DeleteBlob _ name => mine name
  | _ => True
  end.

(** The names under the prefix of a user. *)
Definition under_user (u name : string) : Prop :=
  startswith name (user_prefix u) = true.

(** The user a request names, as the handlers print it into names. *)
Definition request_user (req : request) : option string :=
  match py_getitem (get_json req) "userId" with
  | Ok user_id => Some (py_str user_id)
  | Err _ => None
  end.

Definition request_of (r : request_to) : request :=
  match r with ToSave req | ToRetrieve req | ToDelete req => req end.

(** A request that names no user, or the user [u]. *)
Definition acts_for (u : string) (r : request_to) : Prop :=
  ∀ u', request_user (request_of r) = Some u' → u' = u.

(** An object of a store, if the bucket and the object exist. *)
Definition stored (c : cloud) (b name : string) : option string :=
  buckets c !! b ≫= (.!! name).

(** ** The store *)

(** The store keeps its promise, whatever its state and its faults. *)
Lemma cloud_call_listed R (ev : storeE R) c : listed_promise R ev (cloud_call R ev c).1.
Proof.
  unfold cloud_call.
  destruct (faults c) as [|[e|] fs]; destruct ev; cbn; try done;
    repeat case_match; simplify_eq/=; try done;
    apply Forall_forall; by intros name [_ ?]%elem_of_list_names.
Qed.

Lemma store_call_outside mine {R} (ev : storeE R) st b name :
  writes_within mine R ev → ¬ mine name →
  (store_call ev st).2 !! b ≫= (.!! name) = st !! b ≫= (.!! name).
Proof.
  intros Hev Hname. destruct ev; cbn in *; repeat case_match; try done;
    cbn [snd];
    (destruct (decide (bucket = b)) as [->|];
     [rewrite lookup_insert_eq; cbn|by rewrite lookup_insert_ne]);
    repeat match goal with Hb : st !! b = _ |- _ => rewrite Hb; clear Hb end; cbn.
  - by rewrite lookup_empty.
  - rewrite lookup_insert_ne; [done|]. by intros ->.
  - rewrite lookup_delete_ne; [done|]. by intros ->.
Qed.

(** A call within [mine] leaves what is outside as it is, whether it
    reaches the store or fails. *)
Lemma cloud_call_outside mine R (ev : storeE R) c b name :
  writes_within mine R ev → ¬ mine name →
  stored (cloud_call R ev c).2 b name = stored c b name.
Proof.
  intros Hev Hname. unfold stored, cloud_call.
  pose proof (store_call_outside mine ev (buckets c) b name Hev Hname).
  destruct (faults c) as [|[e|] fs]; [|done|]; by destruct (store_call ev (buckets c)).
Qed.

(** ** The calls of the handlers *)

Lemma read_call_within mine R (ev : storeE R) : read_call R ev → writes_within mine R ev.
Proof. by destruct ev. Qed.

Section within_facts.
Context `{JsonCodec}.
Context (u : string).

Abbreviation within := (calls_given listed_promise (writes_within (under_user u))).

Lemma save_objects_within user_id document_id chunks metadata :
  py_str user_id = u →
  within (save_objects user_id document_id chunks metadata).
Proof.
  intros <-. apply calls_only_given. unfold save_objects.
  apply calls_only_mbind; [apply calls_only_call|intros _].
  { apply user_prefix_object_name. }
  apply calls_only_mbind; [apply calls_only_call|done].
  apply user_prefix_object_name.
Qed.

Lemma save_embeddings_within req :
  acts_for u (ToSave req) → within (save_embeddings req).
Proof.
  intros Hreq. unfold save_embeddings, save_body.
  case_decide; [done|]. apply calls_given_catch; [|done]. case_match; [done|].
  apply calls_given_bind; [apply calls_given_lift|intros [resp|]; [done|]].
  apply calls_given_lift_mbind. intros user_id Hu.
  do 4 (apply calls_given_bind; [apply calls_given_lift|intros ?]).
  case_match; [done|].
  apply calls_given_bind; [apply calls_given_lift|intros n].
  case_decide; [done|].
  apply calls_given_bind; [|intros _].
  { apply calls_only_given. eapply calls_only_weaken, get_or_create_bucket_bucket.
    by intros R []. }
  apply calls_given_bind; [|done]. apply save_objects_within.
  apply Hreq. unfold request_user. cbn [request_of]. by rewrite Hu.
Qed.

Lemma retrieve_embeddings_within req : within (retrieve_embeddings req).
Proof.
  apply calls_only_given.
  eapply calls_only_weaken, retrieve_embeddings_calls. apply read_call_within.
Qed.

(** Deleting what a listing under the user's prefix returned. *)
Lemma delete_blobs_within blobs :
  Forall (under_user u) blobs → within (delete_blobs blobs).
Proof.
  intros Hblobs. apply calls_given_for_each. intros name Hname.
  apply calls_only_given, calls_only_call. by eapply Forall_forall in Hblobs.
Qed.

Lemma delete_document_within user_id document_id :
  py_str user_id = u → within (delete_document user_id document_id).
Proof.
  intros Hu. unfold delete_document. rewrite Hu.
  apply calls_given_call_mbind; [done|intros blobs Hblobs].
  case_decide; [done|]. apply calls_given_bind; [|done].
  apply delete_blobs_within. eapply Forall_impl; [done|]. intros name Hname.
  eapply startswith_trans; [apply Hname|apply user_prefix_document_prefix].
Qed.

Lemma delete_all_within user_id :
  py_str user_id = u → within (delete_all user_id).
Proof.
  intros Hu. unfold delete_all. rewrite Hu.
  apply calls_given_call_mbind; [done|intros blobs Hblobs].
  apply calls_given_bind; [by apply delete_blobs_within|done].
Qed.

Lemma delete_embeddings_within req :
  acts_for u (ToDelete req) → within (delete_embeddings req).
Proof.
  intros Hreq. unfold delete_embeddings, delete_body.
  case_decide; [done|]. apply calls_given_catch; [|done]. case_match; [done|].
  apply calls_given_bind; [apply calls_given_lift|intros []; [|done]]. cbn [negb].
  apply calls_given_lift_mbind. intros user_id Hu.
  assert (py_str user_id = u) as Huser.
  { apply Hreq. unfold request_user. cbn [request_of]. by rewrite Hu. }
  apply calls_given_bind; [apply calls_given_lift|intros document_id].
  apply calls_given_call_mbind; [done|intros [] _]; [|done]. cbn [negb].
  case_match.
  - apply calls_given_bind; [by apply delete_document_within|by intros [?|[??]]].
  - apply calls_given_bind; [by apply delete_all_within|done].
Qed.

End within_facts.

(** Every call of a handler is within the prefix of the user of its
    request, given the promise of the store. *)
Lemma handler_within u r :
  acts_for u r → calls_given listed_promise (writes_within (under_user u)) (handler r).
Proof.
  destruct r as [req|req|req]; cbn [handler]; intros Hr.
  - by apply save_embeddings_within.
  - apply retrieve_embeddings_within.
  - by apply delete_embeddings_within.
Qed.

Lemma acts_for_user r u : request_user (request_of r) = Some u → acts_for u r.
Proof. intros Hu u' Hu'. congruence. Qed.

(** ** One request *)

(** C22. One request: whatever the request of a user is and whichever calls
    fail, what the store holds outside the prefix of the user, in any
    bucket, is after the request what it was before. *)
Theorem handler_keeps_outside r u c b name :
  acts_for u r → ¬ under_user u name →
  stored (run_cloud (handler r) c).2 b name = stored c b name.
Proof.
  intros Hr Hname.
  apply (calls_given_preserves cloud_call listed_promise (writes_within (under_user u))
           (handler r) (λ c', stored c' b name = stored c b name));
    [intros; apply cloud_call_listed| |by apply handler_within|done].
  intros R ev s Hev <-. by apply cloud_call_outside with (under_user u).
Qed.

(** ** Requests in flight *)

Section tenants.
Context (users : list string).

(** The names under the prefix of one of the users. *)
Definition under_users (name : string) : Prop := ∃ u, u ∈ users ∧ under_user u name.

(** A request of one of the users. *)
Definition acts_for_users (r : request_to) : Prop := ∃ u, u ∈ users ∧ acts_for u r.

Lemma handlers_within rs :
  Forall acts_for_users rs →
  Forall (calls_given listed_promise (writes_within under_users)) (handler <$> rs).
Proof.
  intros Hrs. apply Forall_fmap, (Forall_impl _ _ _ Hrs). intros r (u & Hu & Hr).
  eapply calls_given_weaken, handler_within; [|done].
  intros R []; cbn; try done; by exists u.
Qed.

Lemma steps_outside ps c cfg b name :
  Forall (calls_given listed_promise (writes_within under_users)) ps →
  store_steps (ps, c) cfg → ¬ under_users name →
  stored cfg.2 b name = stored c b name.
Proof.
  intros Hps Hsteps Hname.
  eapply (steps_preserves_given cloud_call listed_promise (writes_within under_users)
            (λ c', stored c' b name = stored c b name)) in Hsteps as [_ ?];
    [done|intros; apply cloud_call_listed| |done|done].
  intros R ev s Hev <-. by apply cloud_call_outside with under_users.
Qed.

(** C21. Requests in flight: however the calls of any number of requests of
    some users interleave and whichever of them fail, what the store
    holds outside the prefixes of these users is left as it was. *)
Theorem requests_keep_outside rs c cfg b name :
  Forall acts_for_users rs →
  store_steps (handler <$> rs, c) cfg →
  ¬ under_users name →
  stored cfg.2 b name = stored c b name.
Proof. intros Hrs. by apply steps_outside, handlers_within. Qed.

(** C8. Users are kept apart: when no user id holds a separator, the
    requests of some users, in any interleaving and with any failures,
    leave every object of every other user as it was. *)
Theorem requests_keep_other_users rs c cfg v d f :
  Forall slash_free users → slash_free v → v ∉ users →
  Forall acts_for_users rs →
  store_steps (handler <$> rs, c) cfg →
  stored cfg.2 BUCKET_NAME (object_name v d f) = stored c BUCKET_NAME (object_name v d f).
Proof.
  intros Husers Hv Hother Hrs Hsteps.
  apply (steps_outside _ _ _ _ _ (handlers_within _ Hrs) Hsteps).
  intros (u & Hu & Hname). apply user_prefix_selects in Hname as ->;
    [done|by eapply Forall_forall in Husers|done].
Qed.

End tenants.

(** ** The theorems at the sample requests *)

Lemma handler_keeps_outside_witness :
  stored (run_cloud (handler (ToDelete user_request))
            (Cloud shared_store [None; None; Some (Exn ServiceUnavailable "503")])).2
         BUCKET_NAME (chunks_blob_name "u2" "d1")
  = stored (Cloud shared_store [None; None; Some (Exn ServiceUnavailable "503")])
           BUCKET_NAME (chunks_blob_name "u2" "d1").
Proof.
  apply (handler_keeps_outside (ToDelete user_request) "u1");
    [by apply acts_for_user|by_compute].
Defined.

Lemma sample_tenants :
  Forall (acts_for_users ["u1"]) [ToSave resave_request; ToDelete user_request].
Proof. repeat constructor; exists "u1"; (split; [set_solver|by apply acts_for_user]). Qed.

Lemma requests_keep_outside_witness :
  stored (run_schedule cloud_call [0; 1; 1; 0; 1; 0; 1; 1]
            (handler <$> [ToSave resave_request; ToDelete user_request],
             Cloud shared_store [None; None; Some (Exn ServiceUnavailable "503")])).2
         BUCKET_NAME (metadata_blob_name "u2" "d1")
  = stored (Cloud shared_store [None; None; Some (Exn ServiceUnavailable "503")])
           BUCKET_NAME (metadata_blob_name "u2" "d1").
Proof.
  apply (requests_keep_outside ["u1"] [ToSave resave_request; ToDelete user_request]);
    [apply sample_tenants|apply steps_run_schedule|].
  intros (u & ->%list_elem_of_singleton & Hname). by vm_compute in Hname.
Defined.

Lemma requests_keep_other_users_witness :
  stored (run_schedule cloud_call [1; 0; 1; 0; 1; 0; 1; 1]
            (handler <$> [ToSave resave_request; ToDelete user_request],
             reliable shared_store)).2
         BUCKET_NAME (object_name "u2" "d1" "chunks.json")
  = stored (reliable shared_store) BUCKET_NAME (object_name "u2" "d1" "chunks.json").
Proof.
  apply (requests_keep_other_users ["u1"] [ToSave resave_request; ToDelete user_request]);
    [by repeat constructor|reflexivity|set_solver|apply sample_tenants
    |apply steps_run_schedule].
Defined.
