(* ===== verification/Naming.v ===== *)
(** * Naming: the names of the objects in the bucket, as an invariant

    Every object the service writes is named
    [users/<user>/documents/<doc>/<file>].  When the ids of the requests
    hold no separator, this is an invariant of the store: no call of a
    handler breaks it, in whatever order the calls of requests in flight
    reach the store and whichever of them fail.  It is what the listing
    loops of Retrieve and Delete rely on when they take a name apart. *)

From S2P Require Import Prelude PyStr PyDict Json Prog Gcs KeySpace Codec.
From S2P Require Import JsonLex JsonText Http Samples Save Retrieve RetrieveAll Delete.
From S2P Require Import Concurrent.

(** ** Definitions *)

(** A name of exactly the five parts [users], a user, [documents], a
    document, a file. *)
Definition name_ok (name : string) : bool :=
  match blob_parts name with
  | [users; _; documents; _; _] =>
      bool_decide (users = "users" ∧ documents = "documents")
  | _ => false
  end.

Definition well_named (objs : objects) : Prop :=
  map_Forall (λ name (_ : string), name_ok name = true) objs.

Definition named (st : store) : Prop :=
  map_Forall (λ (_ : string) objs, well_named objs) st.

(** The ids a request names, as the handlers print them into names. *)
Definition request_ids (req : request) : option (string * string) :=
  match py_getitem (get_json req) "userId", py_getitem (get_json req) "documentId" with
  | Ok user_id, Ok document_id => Some (py_str user_id, py_str document_id)
  | _, _ => None
  end.

(** A request whose ids hold no separator. *)
Definition clean (req : request) : bool :=
  match request_ids req with
  | Some (u, d) => bool_decide (slash_free u ∧ slash_free d)
  | None => true
  end.

Definition clean_request (r : request_to) : Prop :=
  match r with
  | ToSave req => clean req = true
  | _ => True
  end.

(** The calls that write well-formed names only. *)
Definition naming_call (R : Type) (ev : storeE R) : Prop :=
  match ev with
  | UploadFromString _ name _ _ => name_ok name = true
  | _ => True
  end.

(** ** Names *)

Lemma name_ok_object_name u d f :
  slash_free u → slash_free d → slash_free f → name_ok (object_name u d f) = true.
Proof. intros Hu Hd Hf. unfold name_ok. by rewrite blob_parts_slash_free. Qed.

(** A well-formed name is built from its parts. *)
Lemma name_ok_spec name :
  name_ok name = true →
  ∃ u d f, name = object_name u d f ∧ blob_parts name = ["users"; u; "documents"; d; f]
           ∧ slash_free u.
Proof.
  unfold name_ok. pose proof (split_parts_free "/" name) as Hfree.
  pose proof (join_split "/" name) as Hjoin. fold (blob_parts name) in Hfree, Hjoin.
  destruct (blob_parts name) as [|a [|u [|c [|d [|f [|]]]]]]; try done.
  intros [-> ->]%bool_decide_eq_true. exists u, d, f.
  repeat apply Forall_cons in Hfree as [? Hfree]. by rewrite <-Hjoin.
Qed.

(** Under the prefix of a separator-free user a well-formed name is a
    name of five parts that Save builds for that user. *)
Lemma name_ok_tidy u name :
  slash_free u → name_ok name = true →
  startswith name (user_prefix u) = true → tidy_name u name = true.
Proof.
  intros Hu (u' & d & f & Hname & Hparts & Hu')%name_ok_spec Hprefix.
  rewrite Hname in Hprefix. apply user_prefix_selects in Hprefix as ->; [|done..].
  unfold tidy_name. rewrite Hparts. by apply bool_decide_eq_true.
Qed.

(** The objects of a separator-free user in a well-named bucket are
    tidy: the listing loops read them as Save named them. *)
Lemma well_named_tidy u objs : slash_free u → well_named objs → tidy u objs.
Proof.
  intros Hu Hobjs. apply Forall_forall. intros name [[data Hdata] Hp]%elem_of_list_names.
  apply name_ok_tidy; [done| |done]. by apply (Hobjs name data).
Qed.

(** ** The calls of the handlers *)

Lemma read_call_naming R (ev : storeE R) : read_call R ev → naming_call R ev.
Proof. by destruct ev. Qed.

Lemma delete_call_naming R (ev : storeE R) : delete_call R ev → naming_call R ev.
Proof. by destruct ev. Qed.

Section naming.
Context `{JsonCodec}.

Lemma get_or_create_bucket_naming : calls_only naming_call get_or_create_bucket.
Proof. eapply calls_only_weaken, get_or_create_bucket_bucket. by intros R []. Qed.

Lemma save_objects_naming user_id document_id chunks metadata :
  slash_free (py_str user_id) → slash_free (py_str document_id) →
  calls_only naming_call (save_objects user_id document_id chunks metadata).
Proof.
  intros Hu Hd. unfold save_objects.
  apply calls_only_mbind; [apply calls_only_call|intros _].
  { by apply name_ok_object_name. }
  apply calls_only_mbind; [apply calls_only_call|done].
  by apply name_ok_object_name.
Qed.

(** Save of a clean request uploads under well-formed names only. *)
Lemma save_embeddings_naming req :
  clean req = true → calls_only naming_call (save_embeddings req).
Proof.
  intros Hclean. unfold save_embeddings, save_body.
  case_decide; [done|]. apply calls_only_catch; [|done]. case_match; [done|].
  apply calls_only_mbind; [apply calls_only_lift|intros [resp|]; [done|]].
  unfold clean, request_ids in Hclean. apply calls_only_lift_mbind. intros user_id Hu. rewrite Hu in Hclean.
  apply calls_only_lift_mbind. intros document_id Hd. rewrite Hd in Hclean.
  apply bool_decide_eq_true in Hclean as [??].
  do 3 (apply calls_only_mbind; [apply calls_only_lift|intros ?]).
  case_match; [done|].
  apply calls_only_mbind; [apply calls_only_lift|intros n].
  case_decide; [done|].
  apply calls_only_mbind; [apply get_or_create_bucket_naming|intros _].
  apply calls_only_mbind; [by apply save_objects_naming|done].
Qed.

End naming.

(** Every handler of a clean request writes well-formed names only. *)
Lemma handler_naming r : clean_request r → calls_only naming_call (handler r).
Proof.
  destruct r as [req|req|req]; cbn [handler clean_request]; intros Hr.
  - by apply save_embeddings_naming.
  - eapply calls_only_weaken, retrieve_embeddings_calls. apply read_call_naming.
  - eapply calls_only_weaken, delete_embeddings_calls. apply delete_call_naming.
Qed.

(** ** The invariant *)

Lemma named_empty : named ∅.
Proof. apply map_Forall_empty. Qed.

Lemma store_call_named {R} (ev : storeE R) st :
  naming_call R ev → named st → named (store_call ev st).2.
Proof.
  intros Hev Hst. destruct ev; cbn in *; repeat case_match; try done.
  - apply map_Forall_insert_2; [apply map_Forall_empty|done].
  - apply map_Forall_insert_2; [|done].
    apply map_Forall_insert_2; [done|]. by eapply (Hst bucket).
  - apply map_Forall_insert_2; [|done].
    apply map_Forall_delete. by eapply (Hst bucket).
Qed.

(** A call that writes well-formed names keeps the store well-named,
    whether it reaches the store or fails. *)
Lemma cloud_call_named R (ev : storeE R) c :
  naming_call R ev → named (buckets c) → named (buckets (cloud_call R ev c).2).
Proof.
  intros Hev Hc. unfold cloud_call.
  pose proof (store_call_named ev (buckets c) Hev Hc).
  destruct (faults c) as [|[e|] fs]; [|done|]; by destruct (store_call ev (buckets c)).
Qed.

(** One request: the handler of a clean request leaves a well-named
    store well-named, on every branch and under every schedule of
    faults. *)
Theorem handler_keeps_names r c :
  clean_request r → named (buckets c) → named (buckets (run_cloud (handler r) c).2).
Proof.
  intros Hr. apply (calls_only_preserves cloud_call naming_call (handler r)
                      (λ c, named (buckets c))); [apply cloud_call_named|].
  by apply handler_naming.
Qed.

Lemma named_steps ps c cfg :
  Forall (calls_only naming_call) ps →
  store_steps (ps, c) cfg → named (buckets c) → named (buckets cfg.2).
Proof.
  intros Hps Hsteps Hc.
  by eapply (steps_preserves cloud_call naming_call (λ c, named (buckets c)))
    in Hsteps as [_ ?]; [|apply cloud_call_named|..].
Qed.

Lemma handlers_naming rs :
  Forall clean_request rs → Forall (calls_only naming_call) (handler <$> rs).
Proof. intros Hrs. by apply Forall_fmap, (Forall_impl _ _ _ Hrs), handler_naming. Qed.

(** C7. Requests in flight: however the calls of any number of clean
    requests interleave and whichever of them fail, a well-named store
    stays well-named. *)
Theorem requests_keep_names rs c cfg :
  Forall clean_request rs →
  store_steps (handler <$> rs, c) cfg →
  named (buckets c) → named (buckets cfg.2).
Proof. intros Hrs. by apply named_steps, handlers_naming. Qed.

(** ** What the invariant gives Retrieve *)

Section retrieve_after.
Context (rs : list request_to) (c : cloud) (cfg : list (prog storeE response) * cloud).
Context (Hrs : Forall clean_request rs) (Hnamed : named (buckets c)).
Context (Hsteps : store_steps (handler <$> rs, c) cfg).
Context (req : request) (kvs : list (string * json)) (user_id : json).
Context (Hmethod : method req ≠ "OPTIONS") (Hbody : body req = Some (JObj kvs)).
Context (Huser : dict_lookup "userId" kvs = Some user_id).
Context (Hdoc : truthy (default JNull (dict_lookup "documentId" kvs)) = false).
Context (objs : objects) (Hbucket : buckets cfg.2 !! BUCKET_NAME = Some objs).

(** C17. After clean requests, in any interleaving and with any failures,
    from a well-named store: Retrieve of all documents of a user whose
    id holds no separator answers what [read_all] reads from the bucket
    as the requests left it. *)
Theorem retrieve_all_after_requests :
  slash_free (py_str user_id) →
  run_cloud (retrieve_embeddings req) (reliable (buckets cfg.2)) =
    (Ok (collected_response (read_all objs (py_str user_id))), reliable (buckets cfg.2)).
Proof.
  intros Hu. eapply run_retrieve_collected; [done..|].
  apply run_retrieve_all; [done..|]. apply well_named_tidy; [done|].
  apply (named_steps _ _ _ (handlers_naming _ Hrs) Hsteps Hnamed _ _ Hbucket).
Qed.

End retrieve_after.

(** ** The theorems at the sample requests *)

Lemma named_shared : named shared_store.
Proof. apply (bool_decide_unpack (named shared_store)). by_compute. Qed.

Lemma handler_keeps_names_witness :
  named (buckets (run_cloud (handler (ToSave save_request))
                    (Cloud shared_store [None; Some (Exn ServiceUnavailable "503")])).2).
Proof. apply handler_keeps_names; [reflexivity|apply named_shared]. Defined.

Lemma requests_keep_names_witness :
  named (buckets (run_schedule cloud_call [0; 1; 2; 0; 1; 1; 0; 2; 0; 1]
                    (handler <$> [ToSave save_request; ToDelete document_request;
                                  ToRetrieve user_request],
                     Cloud shared_store [None; None; Some (Exn ServiceUnavailable "503")])).2).
Proof.
  eapply (requests_keep_names
            [ToSave save_request; ToDelete document_request; ToRetrieve user_request]);
    [by repeat constructor|apply steps_run_schedule|apply named_shared].
Defined.

(** A Save whose document id holds a separator breaks the invariant: its
    objects have six parts. *)
Example unclean_save_breaks_names :
  clean (post (dict_set "documentId" (JStr "a/b") save_fields)) = false
  ∧ name_ok (chunks_blob_name "u1" "a/b") = false.
Proof. by_compute. Qed.

(** A Save and a Delete in flight over the sample store, the third call
    failing. *)
Definition sample_pool : list (prog storeE response) * cloud :=
  run_schedule cloud_call [0; 1; 0; 1; 1; 0; 0; 1]
    (handler <$> [ToSave resave_request; ToDelete document_request],
     Cloud shared_store [None; None; Some (Exn ServiceUnavailable "503")]).

Lemma retrieve_all_after_requests_witness :
  run_cloud (retrieve_embeddings user_request) (reliable (buckets sample_pool.2)) =
    (Ok (collected_response
           (read_all (bucket_objects BUCKET_NAME (buckets sample_pool.2)) "u1")),
     reliable (buckets sample_pool.2)).
Proof.
  eapply (retrieve_all_after_requests [ToSave resave_request; ToDelete document_request]
            (Cloud shared_store [None; None; Some (Exn ServiceUnavailable "503")])
            sample_pool)
    with (kvs := user_fields) (user_id := JStr "u1");
    [by repeat constructor|apply named_shared|apply steps_run_schedule
    |done|reflexivity|reflexivity|reflexivity|reflexivity|reflexivity].
Defined.
