(* ===== verification/Races.v ===== *)
(** * Races: what the handlers do not guard against

    Schedules of the pool of [Concurrent] that exhibit the races of the
    handlers: two Saves of one document whose uploads interleave leave the
    chunks of one beside the metadata of the other, and a Delete whose
    listing falls between the two uploads of a Save removes the chunks
    and leaves the metadata.  A schedule is run call by call
    ([fire_step]).  Calls address an object by its name; in the schedules
    here no object is written between its listing and its deletion, so
    the deletion removes what was listed. *)

From S2P Require Import Prelude PyStr PyDict Json Prog Gcs KeySpace Codec.
From S2P Require Import JsonLex JsonText Http Samples Save Retrieve Delete.
From S2P Require Import Concurrent.

(** ** Two Saves of one document *)

(** A request that passes the validation of Save, with what it holds. *)
Inductive saves (req : request) (user_id document_id file_name metadata : json)
    (chunks : list json) : Prop :=
| Saves (kvs : list (string * json)) :
    method req ≠ "OPTIONS" →
    body req = Some (JObj kvs) →
    dict_lookup "userId" kvs = Some user_id →
    dict_lookup "documentId" kvs = Some document_id →
    dict_lookup "fileName" kvs = Some file_name →
    dict_lookup "chunks" kvs = Some (JArr chunks) →
    dict_lookup "metadata" kvs = Some metadata →
    chunks ≠ [] →
    saves req user_id document_id file_name metadata chunks.

(** The calls of such a request, in their order: the bucket test, the
    creation of a missing bucket, the two uploads. *)
Lemma saves_handler req user_id document_id file_name metadata chunks :
  saves req user_id document_id file_name metadata chunks →
  save_embeddings req =
    catch (_ ← get_or_create_bucket;
           chunks_blob ← save_objects user_id document_id (JArr chunks) metadata;
           Ret (save_response document_id file_name (length chunks) chunks_blob))
          (λ e, Ret (failure 500 (exn_str e))).
Proof.
  intros [kvs Hmethod Hbody Hu Hd Hf Hc Hm Hne]. unfold save_embeddings.
  rewrite decide_False by done. by erewrite save_body_valid.
Qed.

(** A call on a reliable cloud reaches the store. *)
Lemma advance_call_reliable {R} (ev : storeE R) (st' : store) :
  advance cloud_call (call ev) (reliable st') =
    (lift (store_call ev st').1, reliable (store_call ev st').2).
Proof. by rewrite advance_call, cloud_call_reliable. Qed.

(** One move of a handler on a reliable cloud, with the answer of the
    store worked out. *)
Ltac fire_step :=
  erewrite fire_advance by reflexivity;
  repeat first [ rewrite advance_catch by reflexivity
               | rewrite advance_mbind by reflexivity
               | rewrite advance_bind by reflexivity ];
  rewrite advance_call_reliable;
  first [ rewrite store_bucket_exists, bool_decide_eq_true_2
            by (rewrite ?lookup_insert_eq; eauto)
        | erewrite store_upload by (first [eassumption | apply lookup_insert_eq])
        | erewrite store_list_blobs by (first [eassumption | apply lookup_insert_eq])
        | erewrite store_delete_blob;
            [|first [eassumption | apply lookup_insert_eq]|by rewrite lookup_insert_eq] ];
  cbn [fst snd insert list_insert lift bind catch mbind prog_bind negb].

Section races.
Context (st : store) (objs : objects) (Hbucket : st !! BUCKET_NAME = Some objs).

Context (user_id document_id : json).
Context (req1 req2 : request) (file1 file2 metadata1 metadata2 : json).
Context (chunks1 chunks2 : list json).
Context (Hreq1 : saves req1 user_id document_id file1 metadata1 chunks1).
Context (Hreq2 : saves req2 user_id document_id file2 metadata2 chunks2).

Let u := py_str user_id.
Let d := py_str document_id.

(** Two Saves of the same document whose uploads alternate: both are
    answered 200, and the store holds the chunks of the second beside the
    metadata of the first. *)
Theorem concurrent_saves_mix :
  run_schedule cloud_call [0; 1; 0; 1; 1; 0]
    ([save_embeddings req1; save_embeddings req2], reliable st) =
    ([Ret (save_response document_id file1 (length chunks1) (chunks_blob_name u d));
      Ret (save_response document_id file2 (length chunks2) (chunks_blob_name u d))],
     reliable (<[BUCKET_NAME :=
                   <[metadata_blob_name u d := json_dumps 2 metadata1]>
                     (<[chunks_blob_name u d := json_dumps 2 (JArr chunks2)]> objs)]> st)).
Proof.
  rewrite (saves_handler _ _ _ _ _ _ Hreq1), (saves_handler _ _ _ _ _ _ Hreq2).
  unfold run_schedule, get_or_create_bucket, save_objects. cbn [foldl].
  repeat fire_step. by rewrite !insert_insert_eq.
Qed.

(** The same two Saves one after the other leave the document of the
    second. *)
Lemma sequential_saves_last :
  run_schedule cloud_call [0; 0; 0; 1; 1; 1]
    ([save_embeddings req1; save_embeddings req2], reliable st) =
    ([Ret (save_response document_id file1 (length chunks1) (chunks_blob_name u d));
      Ret (save_response document_id file2 (length chunks2) (chunks_blob_name u d))],
     reliable (<[BUCKET_NAME :=
                   <[metadata_blob_name u d := json_dumps 2 metadata2]>
                     (<[chunks_blob_name u d := json_dumps 2 (JArr chunks2)]> objs)]> st)).
Proof.
  rewrite (saves_handler _ _ _ _ _ _ Hreq1), (saves_handler _ _ _ _ _ _ Hreq2).
  unfold run_schedule, get_or_create_bucket, save_objects. cbn [foldl].
  repeat fire_step. rewrite !insert_insert_eq. do 2 f_equal. f_equal.
  rewrite (insert_insert_ne _ (chunks_blob_name _ _) (metadata_blob_name _ _))
    by apply chunks_metadata_distinct.
  by rewrite !insert_insert_eq.
Qed.

(** C27. There is an interleaving of two Saves of a document after which both
    have answered 200, each with its own count of chunks, and the stored
    pair is of neither. *)
Theorem saves_can_mix :
  ∃ cfg,
    store_steps ([save_embeddings req1; save_embeddings req2], reliable st) cfg
    ∧ finished cfg
    ∧ cfg.1 =
        [Ret (save_response document_id file1 (length chunks1) (chunks_blob_name u d));
         Ret (save_response document_id file2 (length chunks2) (chunks_blob_name u d))]
    ∧ buckets cfg.2 !! BUCKET_NAME ≫= (.!! chunks_blob_name u d)
      = Some (json_dumps 2 (JArr chunks2))
    ∧ buckets cfg.2 !! BUCKET_NAME ≫= (.!! metadata_blob_name u d)
      = Some (json_dumps 2 metadata1).
Proof.
  eexists. split; [apply (steps_run_schedule _ [0; 1; 0; 1; 1; 0])|].
  rewrite concurrent_saves_mix. cbn [fst snd buckets reliable]. split_and!.
  - by repeat constructor.
  - done.
  - rewrite lookup_insert_eq. cbn.
    rewrite lookup_insert_ne by apply not_eq_sym, chunks_metadata_distinct.
    apply lookup_insert_eq.
  - rewrite lookup_insert_eq. cbn. apply lookup_insert_eq.
Qed.

End races.

(** ** A Delete between the uploads of a Save *)

Section splitting.
Context (st : store) (objs : objects) (Hbucket : st !! BUCKET_NAME = Some objs).
Context (user_id document_id file_name metadata : json) (chunks : list json).
Context (req : request) (Hreq : saves req user_id document_id file_name metadata chunks).

(** A request for the same document, as Delete and Retrieve take it. *)
Context (del : request) (kvs : list (string * json)).
Context (Hmethod : method del ≠ "OPTIONS") (Hbody : body del = Some (JObj kvs)).
Context (Huser : dict_lookup "userId" kvs = Some user_id).
Context (Hdoc : dict_lookup "documentId" kvs = Some document_id).
Context (Htruthy : truthy document_id = true).

Let u := py_str user_id.
Let d := py_str document_id.

(** The bucket holds nothing of the document. *)
Context (Hfresh : list_names (document_prefix u d) objs = []).

(** The calls of the Delete, in their order: the bucket test, the
    listing, the deletions. *)
Lemma deletes_handler :
  delete_embeddings del =
    catch (bucket_exists ← call (BucketExists BUCKET_NAME);
           if negb bucket_exists then Ret nothing_to_delete
           else
             deleted ← delete_document user_id document_id;
             match deleted with
             | inl resp => Ret resp
             | inr (deleted_count, message) => Ret (delete_response deleted_count message)
             end)
          (λ e, Ret (failure 500 (exn_str e))).
Proof.
  unfold delete_embeddings. rewrite decide_False by done.
  erewrite delete_body_dict by done. rewrite Hdoc. cbn [default from_option id].
  by rewrite Htruthy.
Qed.

Lemma fresh_chunks : objs !! chunks_blob_name u d = None.
Proof.
  apply eq_None_not_Some. intros Hsome.
  pose proof (proj1 (list_names_nil _ _) Hfresh _ Hsome) as Hstart.
  by rewrite chunks_blob_name_object, document_prefix_object_name in Hstart.
Qed.

(** The Delete lists the document after the first upload of the Save and
    deletes the chunks before the second: both are answered 200, and the
    store holds the metadata alone. *)
Lemma delete_splits_save :
  run_schedule cloud_call [1; 1; 0; 0; 0; 1]
    ([delete_embeddings del; save_embeddings req], reliable st) =
    ([Ret (delete_response 1 ("Successfully deleted document " +:+ d));
      Ret (save_response document_id file_name (length chunks) (chunks_blob_name u d))],
     reliable (<[BUCKET_NAME := <[metadata_blob_name u d := json_dumps 2 metadata]> objs]> st)).
Proof.
  rewrite deletes_handler, (saves_handler _ _ _ _ _ _ Hreq).
  unfold run_schedule, get_or_create_bucket, save_objects, delete_document, delete_blobs.
  cbn [foldl]. do 4 fire_step.
  rewrite (list_names_insert_fresh _ _ (chunks_blob_name u d))
    by first [done | apply document_prefix_object_name].
  rewrite decide_False by done. cbn [for_each]. repeat fire_step.
  by rewrite !insert_insert_eq, delete_insert_eq, (delete_id _ _ fresh_chunks).
Qed.

(** C28. There is an interleaving of a Save and a Delete of a document the
    bucket did not hold after which both have answered 200 and the
    document that was saved is not found: the store holds its metadata
    without its chunks. *)
Theorem delete_can_split_save :
  ∃ cfg,
    store_steps ([delete_embeddings del; save_embeddings req], reliable st) cfg
    ∧ cfg.1 =
        [Ret (delete_response 1 ("Successfully deleted document " +:+ d));
         Ret (save_response document_id file_name (length chunks) (chunks_blob_name u d))]
    ∧ buckets cfg.2 !! BUCKET_NAME ≫= (.!! metadata_blob_name u d)
      = Some (json_dumps 2 metadata)
    ∧ run_cloud (retrieve_embeddings del) cfg.2 =
        (Ok (document_not_found document_id), cfg.2).
Proof.
  eexists. split; [apply (steps_run_schedule _ [1; 1; 0; 0; 0; 1])|].
  rewrite delete_splits_save. cbn [fst snd buckets reliable]. split_and!; [done|..].
  - rewrite lookup_insert_eq. cbn. apply lookup_insert_eq.
  - eapply (run_retrieve_one _ kvs _ Hmethod Hbody Huser _ _ (lookup_insert_eq _ _ _) (inl _));
      [by rewrite Hdoc|].
    rewrite Hdoc. eapply run_retrieve_document_missing; [apply lookup_insert_eq|].
    rewrite lookup_insert_ne by apply not_eq_sym, chunks_metadata_distinct.
    apply fresh_chunks.
Qed.

End splitting.

(** ** The theorems at the sample requests *)

Lemma saves_sample : saves save_request (JStr "u1") (JStr "d1") (JStr "a.pdf")
                           sample_metadata sample_chunks.
Proof. by apply (Saves _ _ _ _ _ _ save_fields). Defined.

Lemma saves_resample : saves resave_request (JStr "u1") (JStr "d1") (JStr "a2.pdf")
                             (JObj [("pages", JInt 9)]) [JStr "omega"].
Proof. by apply (Saves _ _ _ _ _ _ resave_fields). Defined.

Lemma saves_can_mix_witness :
  ∃ cfg,
    store_steps ([save_embeddings save_request; save_embeddings resave_request],
                 reliable empty_bucket) cfg
    ∧ finished cfg
    ∧ cfg.1 =
        [Ret (save_response (JStr "d1") (JStr "a.pdf") (length sample_chunks)
                            (chunks_blob_name "u1" "d1"));
         Ret (save_response (JStr "d1") (JStr "a2.pdf") (length [JStr "omega"])
                            (chunks_blob_name "u1" "d1"))]
    ∧ buckets cfg.2 !! BUCKET_NAME ≫= (.!! chunks_blob_name "u1" "d1")
      = Some (dump 2 0 (JArr [JStr "omega"]))
    ∧ buckets cfg.2 !! BUCKET_NAME ≫= (.!! metadata_blob_name "u1" "d1")
      = Some (dump 2 0 sample_metadata).
Proof.
  apply (saves_can_mix empty_bucket ∅ eq_refl (JStr "u1") (JStr "d1") _ _ _ _ _ _ _ _
           saves_sample saves_resample).
Defined.

Lemma delete_can_split_save_witness :
  ∃ cfg,
    store_steps ([delete_embeddings document_request; save_embeddings save_request],
                 reliable empty_bucket) cfg
    ∧ cfg.1 =
        [Ret (delete_response 1 ("Successfully deleted document " +:+ "d1"));
         Ret (save_response (JStr "d1") (JStr "a.pdf") (length sample_chunks)
                            (chunks_blob_name "u1" "d1"))]
    ∧ buckets cfg.2 !! BUCKET_NAME ≫= (.!! metadata_blob_name "u1" "d1")
      = Some (dump 2 0 sample_metadata)
    ∧ run_cloud (retrieve_embeddings document_request) cfg.2 =
        (Ok (document_not_found (JStr "d1")), cfg.2).
Proof.
  apply (delete_can_split_save empty_bucket ∅ eq_refl (JStr "u1") (JStr "d1") _ _ _ _
           saves_sample document_request document_fields);
    first [done | reflexivity].
Defined.
