(* ===== verification/Scenarios.v ===== *)
(** * Scenarios: the three functions one after the other

    A client calls the functions in sequence against the same store.  A
    sequence of calls is the sequence of the handlers' programs, run on
    the store the previous call left.  The theorems here are the
    properties of the service that involve more than one function: what
    Save wrote Retrieve reads back, what Delete removed Retrieve no longer
    finds, and what the calls of one user leave of the objects of
    another. *)

From S2P Require Import Prelude PyStr PyDict Json Prog Gcs KeySpace Codec.
From S2P Require Import JsonLex JsonText Http Samples Save Retrieve RetrieveAll Delete.

(** ** What a request asks for *)

(** A request whose body is a dict with the given user and document. *)
Inductive asks (req : request) (user_id document_id : json) : Prop :=
| Asks (fields : list (string * json)) :
    method req ≠ "OPTIONS" →
    body req = Some (JObj fields) →
    dict_lookup "userId" fields = Some user_id →
    default JNull (dict_lookup "documentId" fields) = document_id →
    asks req user_id document_id.

(** An object of a bucket, if the bucket and the object exist. *)
Definition object_at (st : store) (name : string) : option string :=
  st !! BUCKET_NAME ≫= (.!! name).

Lemma object_at_insert st objs name :
  object_at (<[BUCKET_NAME := objs]> st) name = objs !! name.
Proof. unfold object_at. by rewrite lookup_insert_eq. Qed.

Lemma object_at_bucket st objs name :
  st !! BUCKET_NAME = Some objs → object_at st name = objs !! name.
Proof. unfold object_at. by intros ->. Qed.

Section scenarios.
Context `{JsonCodec}.

(** ** Save, then Retrieve or Delete *)

Section saved.
Context (save : request) (kvs : list (string * json)).
Context (user_id document_id file_name metadata : json) (chunks : list json).
Context (Hmethod : method save ≠ "OPTIONS") (Hbody : body save = Some (JObj kvs)).
Context (Huser : dict_lookup "userId" kvs = Some user_id).
Context (Hdoc : dict_lookup "documentId" kvs = Some document_id).
Context (Hfile : dict_lookup "fileName" kvs = Some file_name).
Context (Hchunks : dict_lookup "chunks" kvs = Some (JArr chunks)).
Context (Hmeta : dict_lookup "metadata" kvs = Some metadata).
Context (Hnonempty : chunks ≠ []).

(** The later request names the same user and document: its ids format
    to the same strings. *)
Context (req : request) (user_id' document_id' : json).
Context (Hreq : asks req user_id' document_id').
Context (Hsame_user : py_str user_id' = py_str user_id).
Context (Hsame_doc : py_str document_id' = py_str document_id).
Context (Htruthy : truthy document_id' = true).

Let u := py_str user_id.
Let d := py_str document_id.
Let saved (st : store) : store := saved_store user_id document_id metadata chunks st.

Lemma run_saved st :
  run_cloud (save_embeddings save) (reliable st) =
    (Ok (save_response document_id file_name (length chunks) (chunks_blob_name u d)),
     reliable (saved st)).
Proof. by erewrite run_save_embeddings, run_catch, run_save_body. Qed.

Lemma saved_bucket st :
  saved st !! BUCKET_NAME =
    Some (<[metadata_blob_name u d := json_dumps 2 metadata]>
            (<[chunks_blob_name u d := json_dumps 2 (JArr chunks)]>
               (bucket_objects BUCKET_NAME st))).
Proof. apply lookup_insert_eq. Qed.

(** C5. Save then Retrieve of the same document returns the chunks that
    were saved, in their order, and a metadata list that holds the saved
    metadata and nothing else. *)
Theorem save_then_retrieve st :
  json_ok (JArr chunks) = true → json_ok metadata = true →
  run_cloud (_ ← save_embeddings save; retrieve_embeddings req) (reliable st) =
    (Ok (retrieve_response chunks [metadata]), reliable (saved st)).
Proof.
  intros Hc Hm. destruct Hreq as [rkvs Hmeth Hb Hu Hd]. subst document_id'.
  rewrite run_mbind, run_saved. cbn [fst snd].
  eapply (run_retrieve_one _ _ _ Hmeth Hb Hu _ _ (saved_bucket st) (inr (_, _))); [done|].
  eapply run_retrieve_document_found; [apply saved_bucket|..].
  - rewrite Hsame_user, Hsame_doc, lookup_insert_ne by apply not_eq_sym, chunks_metadata_distinct.
    apply lookup_insert_eq.
  - by apply json_loads_dumps.
  - rewrite Hsame_user, Hsame_doc. apply lookup_insert_eq.
  - by apply json_loads_dumps.
Qed.

(** C24. Save changes no object other than the two of the document. *)
Theorem save_keeps_others st name :
  name ≠ chunks_blob_name u d → name ≠ metadata_blob_name u d →
  object_at (buckets (run_cloud (save_embeddings save) (reliable st)).2) name
  = object_at st name.
Proof.
  intros Hc Hm. rewrite run_saved. cbn [snd buckets reliable].
  unfold saved, saved_store. rewrite object_at_insert, !lookup_insert_ne by done.
  unfold bucket_objects, object_at. by destruct (st !! BUCKET_NAME).
Qed.

(** C35. A document whose id holds a separator, with a second part other than
    the two file names, is saved and then hidden from Retrieve of all
    documents: when nothing else of the user is read, the answer after
    Save is the empty result. *)
Theorem save_hidden_from_retrieve_all st every every_id p q ps :
  asks every user_id' every_id → truthy every_id = false →
  slash_free u → split "/" d = p :: q :: ps →
  q ≠ "chunks.json" → q ≠ "metadata.json" →
  Forall (λ name, unread name = true)
         (list_names (user_prefix u) (bucket_objects BUCKET_NAME st)) →
  run_cloud (_ ← save_embeddings save; retrieve_embeddings every) (reliable st) =
    (Ok (retrieve_response [] []), reliable (saved st)).
Proof.
  intros [rkvs Hmeth Hb Hu Hd] Hfalsy Hfree Hparts Hc Hm Hold.
  assert (truthy (default JNull (dict_lookup "documentId" rkvs)) = false) as Hevery
    by by rewrite Hd.
  rewrite run_mbind, run_saved. cbn [fst snd].
  rewrite (run_retrieve_collected _ _ _ Hmeth Hb Hu Hevery _ _ (saved_bucket st) _ _
             (run_retrieve_groups _ _ (saved_bucket st) _)).
  rewrite read_groups_unread; [done|].
  rewrite Hsame_user. apply Forall_forall. intros name [Hsome Hstart]%elem_of_list_names.
  apply lookup_insert_is_Some in Hsome as [<-|[_ Hsome]];
    [by apply (unread_object_name u d "metadata.json" p q ps)|].
  apply lookup_insert_is_Some in Hsome as [<-|[_ Hsome]];
    [by apply (unread_object_name u d "chunks.json" p q ps)|].
  eapply Forall_forall in Hold; [done|]. by apply elem_of_list_names.
Qed.

(** A second request for the same document. *)
Context (req' : request) (Hreq' : asks req' user_id' document_id').

Lemma saved_listing st :
  list_names (document_prefix (py_str user_id') (py_str document_id'))
             (<[metadata_blob_name u d := json_dumps 2 metadata]>
                (<[chunks_blob_name u d := json_dumps 2 (JArr chunks)]>
                   (bucket_objects BUCKET_NAME st))) ≠ [].
Proof.
  rewrite Hsame_user, Hsame_doc. fold u d. intros Hnil.
  assert (metadata_blob_name u d ∈ @nil string) as Hin; [|by apply elem_of_nil in Hin].
  rewrite <-Hnil. apply elem_of_list_names. split.
  - rewrite lookup_insert_eq. eauto.
  - apply document_prefix_object_name.
Qed.

(** The store after Save and Delete of the document. *)
Definition deleted (st : store) : store :=
  <[BUCKET_NAME :=
      remove_prefix (document_prefix u d)
        (<[metadata_blob_name u d := json_dumps 2 metadata]>
           (<[chunks_blob_name u d := json_dumps 2 (JArr chunks)]>
              (bucket_objects BUCKET_NAME st)))]> (saved st).

Lemma run_saved_deleted st :
  run_cloud (delete_embeddings req) (reliable (saved st)) =
    (Ok (delete_response 1 ("Successfully deleted document " +:+ d)),
     reliable (deleted st)).
Proof.
  destruct Hreq as [rkvs Hmeth Hb Hu Hd].
  eapply (run_delete_one _ _ _ Hmeth Hb Hu _ _ (saved_bucket st) (inr (_, _)));
    rewrite Hd; [done|].
  erewrite run_delete_document_found; [|apply saved_bucket|apply saved_listing].
  by rewrite Hsame_user, Hsame_doc.
Qed.

(** C14. Save, then Delete of the document, then Retrieve of the document:
    Delete reports one document and Retrieve answers 404. *)
Theorem save_delete_retrieve st :
  run_cloud (_ ← save_embeddings save; _ ← delete_embeddings req;
             retrieve_embeddings req') (reliable st) =
    (Ok (document_not_found document_id'), reliable (deleted st)).
Proof.
  rewrite run_mbind, run_saved. cbn [fst snd].
  rewrite run_mbind, run_saved_deleted. cbn [fst snd].
  destruct Hreq' as [rkvs Hmeth Hb Hu Hd]. subst document_id'.
  eapply (run_retrieve_one _ _ _ Hmeth Hb Hu _ _ (lookup_insert_eq _ _ _) (inl _)); [done|].
  eapply run_retrieve_document_missing; [apply lookup_insert_eq|].
  rewrite Hsame_user, Hsame_doc, lookup_remove_prefix.
  by rewrite chunks_blob_name_object, document_prefix_object_name.
Qed.

End saved.

(** ** Every document of a user *)

(** Delete counts the documents the loops of Retrieve group. *)
Lemma size_document_ids blobs : size (document_ids blobs) = length (docs_of blobs).
Proof.
  rewrite <-(size_list_to_set (C := gset string)) by apply NoDup_docs_of. f_equal.
  unfold document_ids, docs_of. generalize (eq_refl : (∅ : gset string) = list_to_set []).
  generalize (∅ : gset string) ([] : list string). intros ids docs Hids.
  revert ids docs Hids. induction blobs as [|name blobs IH]; intros ids docs Hids; [done|].
  cbn [foldl]. apply IH. unfold note_doc.
  destruct (blob_doc_id name) as [d|]; [|done].
  case_decide; [set_solver|]. rewrite list_to_set_app_L. set_solver.
Qed.

Section every.
Context (req req' : request) (user_id user_id' document_id document_id' : json).
Context (Hreq : asks req user_id document_id) (Hreq' : asks req' user_id' document_id').
Context (Hfalsy : truthy document_id = false) (Hfalsy' : truthy document_id' = false).
Context (Hsame_user : py_str user_id' = py_str user_id).
Context (st : store) (objs : objects) (Hbucket : st !! BUCKET_NAME = Some objs).

Let u := py_str user_id.

Lemma run_delete_user :
  run_cloud (delete_embeddings req) (reliable st) =
    (Ok (delete_response
           (size (document_ids (list_names (user_prefix u) objs)))
           ("Successfully deleted "
            +:+ pretty (size (document_ids (list_names (user_prefix u) objs)))
            +:+ " documents for user " +:+ u)),
     reliable (<[BUCKET_NAME := remove_prefix (user_prefix u) objs]> st)).
Proof.
  destruct Hreq as [rkvs Hmeth Hb Hu Hd]. subst document_id.
  eapply (run_delete_every _ _ _ Hmeth Hb Hu _ _ Hbucket (_, _)); [done|].
  by eapply run_delete_all.
Qed.

(** C16. Delete of every document of a user, then Retrieve of every
    document of the user: Retrieve answers the empty result. *)
Theorem delete_all_then_retrieve_all :
  run_cloud (_ ← delete_embeddings req; retrieve_embeddings req') (reliable st) =
    (Ok (retrieve_response [] []),
     reliable (<[BUCKET_NAME := remove_prefix (user_prefix u) objs]> st)).
Proof.
  rewrite run_mbind, run_delete_user. cbn [fst snd].
  destruct Hreq' as [rkvs Hmeth Hb Hu Hd]. subst document_id'.
  eapply (run_retrieve_every _ _ _ Hmeth Hb Hu _ _ (lookup_insert_eq _ _ _) ([], []));
    [done|].
  unfold retrieve_all. run_simpl.
  by rewrite Hsame_user, list_names_remove_prefix.
Qed.

(** C20. Whatever the bucket holds, Retrieve of all documents never counts
    more documents than Delete of all documents reports for the same
    store: Delete counts the documents of the listing, Retrieve those
    for which the listing names a metadata file. *)
Theorem retrieve_counts_at_most_deleted resp resp' :
  (run_cloud (delete_embeddings req) (reliable st)).1 = Ok resp →
  (run_cloud (retrieve_embeddings req') (reliable st)).1 = Ok resp' →
  status resp' = 200 →
  ∃ counted deleted : nat,
    field "documentsCount" resp' = Some (JInt (Z.of_nat counted)) ∧
    field "documentsDeleted" resp = Some (JInt (Z.of_nat deleted)) ∧
    counted ≤ deleted.
Proof.
  rewrite run_delete_user. intros [= <-].
  destruct Hreq' as [rkvs Hmeth Hb Hu Hd].
  assert (truthy (default JNull (dict_lookup "documentId" rkvs)) = false) as Hdoc
    by by rewrite Hd.
  rewrite (run_retrieve_collected _ _ _ Hmeth Hb Hu Hdoc _ _ Hbucket _ _
             (run_retrieve_groups st objs Hbucket _)), Hsame_user. fold u.
  destruct (read_groups objs u) as [[all_chunks all_metadata]|e] eqn:Hall;
    intros [= <-]; [intros _|done].
  eexists _, _. split_and!; [done..|].
  rewrite (read_groups_count _ _ _ _ Hall), size_document_ids. apply length_filter.
Qed.

End every.

(** ** What a call leaves of the other objects *)

Section isolation.
Context (req : request) (user_id document_id : json).
Context (Hreq : asks req user_id document_id).
Context (st : store) (objs : objects) (Hbucket : st !! BUCKET_NAME = Some objs).

Let u := py_str user_id.
Let d := py_str document_id.

(** Delete of every document of a user leaves the objects of every
    other user as they are, when neither user id holds a slash. *)
Theorem delete_all_keeps_other_users u' d' f :
  truthy document_id = false →
  slash_free u → slash_free u' → u ≠ u' →
  object_at (buckets (run_cloud (delete_embeddings req) (reliable st)).2)
            (object_name u' d' f)
  = object_at st (object_name u' d' f).
Proof.
  intros Hfalsy Hu Hu' Hne. erewrite run_delete_user by done. cbn [snd buckets reliable].
  rewrite object_at_insert, (object_at_bucket _ _ _ Hbucket), lookup_remove_prefix.
  destruct (startswith _ _) eqn:Hstart; [|done].
  by apply user_prefix_selects in Hstart.
Qed.

(** C36. Delete of every document of a user removes the objects of every user
    whose id extends [<user>/documents/]: the listed prefix reaches
    them. *)
Theorem delete_all_reaches_nested_users x d' f :
  truthy document_id = false →
  object_at (buckets (run_cloud (delete_embeddings req) (reliable st)).2)
            (object_name (u +:+ "/documents/" +:+ x) d' f) = None.
Proof.
  intros Hfalsy. erewrite run_delete_user by done. cbn [snd buckets reliable].
  by rewrite object_at_insert, lookup_remove_prefix, user_prefix_nested.
Qed.

Lemma run_delete_document :
  truthy document_id = true →
  ∃ resp,
    run_cloud (delete_embeddings req) (reliable st) =
      (Ok resp,
       reliable (if decide (list_names (document_prefix u d) objs = []) then st
                 else <[BUCKET_NAME := remove_prefix (document_prefix u d) objs]> st)).
Proof.
  intros Htruthy. destruct Hreq as [rkvs Hmeth Hb Hu Hd]. case_decide.
  - eexists. eapply (run_delete_one _ _ _ Hmeth Hb Hu _ _ Hbucket (inl _));
      rewrite Hd; [done|]. by eapply run_delete_document_missing.
  - eexists. eapply (run_delete_one _ _ _ Hmeth Hb Hu _ _ Hbucket (inr (_, _)));
      rewrite Hd; [done|]. by eapply run_delete_document_found.
Qed.

(** C23. Delete of a document leaves the objects of every other document
    as they are, when no id holds a slash. *)
Theorem delete_document_keeps_others u' d' f :
  truthy document_id = true →
  slash_free u → slash_free d → slash_free u' → slash_free d' →
  (u, d) ≠ (u', d') →
  object_at (buckets (run_cloud (delete_embeddings req) (reliable st)).2)
            (object_name u' d' f)
  = object_at st (object_name u' d' f).
Proof.
  intros Htruthy Hu Hd Hu' Hd' Hne.
  destruct (run_delete_document Htruthy) as [resp ->]. cbn [snd buckets reliable].
  case_decide; [done|].
  rewrite object_at_insert, (object_at_bucket _ _ _ Hbucket), lookup_remove_prefix.
  destruct (startswith _ _) eqn:Hstart; [|done].
  apply document_prefix_selects in Hstart as [-> ->]; done.
Qed.

End isolation.
End scenarios.

(** ** The theorems at the sample requests *)

Lemma asks_document : asks document_request (JStr "u1") (JStr "d1").
Proof. by apply (Asks _ _ _ document_fields). Defined.

Lemma asks_user : asks user_request (JStr "u1") JNull.
Proof. by apply (Asks _ _ _ user_fields). Defined.

Lemma save_then_retrieve_witness :
  run_cloud (_ ← save_embeddings save_request; retrieve_embeddings document_request)
            (reliable ∅) =
    (Ok (retrieve_response sample_chunks [sample_metadata]),
     reliable (saved_store (JStr "u1") (JStr "d1") sample_metadata sample_chunks ∅)).
Proof.
  eapply save_then_retrieve with (kvs := save_fields) (file_name := JStr "a.pdf");
    first [done | apply asks_document].
Defined.

Lemma save_delete_retrieve_witness :
  (run_cloud (_ ← save_embeddings save_request; _ ← delete_embeddings document_request;
              retrieve_embeddings document_request) (reliable ∅)).1 =
    Ok (document_not_found (JStr "d1")).
Proof.
  erewrite save_delete_retrieve
    with (kvs := save_fields) (file_name := JStr "a.pdf") (metadata := sample_metadata)
         (chunks := sample_chunks);
    first [done | apply asks_document].
Defined.

Lemma save_keeps_others_witness :
  object_at (buckets (run_cloud (save_embeddings save_request) (reliable shared_store)).2)
            (chunks_blob_name "u2" "d1")
  = object_at shared_store (chunks_blob_name "u2" "d1").
Proof.
  eapply save_keeps_others with (kvs := save_fields) (file_name := JStr "a.pdf")
                                (metadata := sample_metadata) (chunks := sample_chunks);
    done.
Defined.

Lemma delete_all_then_retrieve_all_witness :
  run_cloud (_ ← delete_embeddings user_request; retrieve_embeddings user_request)
            (reliable shared_store) =
    (Ok (retrieve_response [] []),
     reliable (<[BUCKET_NAME := remove_prefix (user_prefix "u1") shared_objects]>
                 shared_store)).
Proof.
  eapply delete_all_then_retrieve_all
    with (user_id := JStr "u1") (user_id' := JStr "u1") (document_id := JNull)
         (document_id' := JNull) (objs := shared_objects);
    first [done | apply asks_user].
Defined.

Lemma delete_all_keeps_other_users_witness :
  object_at (buckets (run_cloud (delete_embeddings user_request) (reliable shared_store)).2)
            (object_name "u2" "d1" "chunks.json")
  = object_at shared_store (object_name "u2" "d1" "chunks.json").
Proof.
  eapply delete_all_keeps_other_users
    with (user_id := JStr "u1") (document_id := JNull) (objs := shared_objects);
    first [done | apply asks_user].
Defined.

Lemma delete_document_keeps_others_witness :
  object_at (buckets (run_cloud (delete_embeddings document_request)
                                (reliable shared_store)).2)
            (object_name "u1" "d2" "chunks.json")
  = object_at shared_store (object_name "u1" "d2" "chunks.json").
Proof.
  eapply delete_document_keeps_others
    with (user_id := JStr "u1") (document_id := JStr "d1") (objs := shared_objects);
    first [done | apply asks_document].
Defined.

(** ** Sessions on the sample store *)

(** Save of a second document of [u1], with metadata of its own. *)
Definition second_save : request :=
  post [("userId", JStr "u1"); ("documentId", JStr "d2"); ("fileName", JStr "b.pdf");
        ("chunks", JArr [JStr "gamma"]); ("metadata", JObj [("pages", JInt 1)])].

(** Two documents of a user are read back in the order of their ids, the
    chunks of the first before the chunks of the second, and counted as
    two. *)
Example retrieve_two_documents :
  (run_cloud (_ ← save_embeddings second_save; _ ← save_embeddings save_request;
              retrieve_embeddings user_request) (reliable ∅)).1 =
    Ok (success
          [("success", JBool true);
           ("chunks", JArr (sample_chunks ++ [JStr "gamma"]));
           ("metadata", JArr [sample_metadata; JObj [("pages", JInt 1)]]);
           ("documentsCount", JInt 2);
           ("message", JStr "Retrieved 3 chunks from 2 documents")]).
Proof. by_compute. Qed.

(** A document without metadata gives its chunks and is not counted:
    [documentsCount] is the length of the metadata list. *)
Example retrieve_counts_metadata :
  (run_cloud (retrieve_embeddings user_request) (reliable shared_store)).1 =
    Ok (success
          [("success", JBool true);
           ("chunks", JArr (sample_chunks ++ [JStr "gamma"]));
           ("metadata", JArr [sample_metadata]);
           ("documentsCount", JInt 1);
           ("message", JStr "Retrieved 3 chunks from 1 documents")])
  ∧ size (document_ids (list_names (user_prefix "u1") shared_objects)) = 2.
Proof. split; by_compute. Qed.

(** A document id that is present and falsy selects every document: Delete
    with [documentId = ""] removes both documents of the user. *)
Example delete_empty_document_id :
  (run_cloud (delete_embeddings (post [("userId", JStr "u1"); ("documentId", JStr "")]))
             (reliable shared_store)).1 =
    Ok (delete_response 2 "Successfully deleted 2 documents for user u1").
Proof. by_compute. Qed.

(** The document [a/b] is read back by its id and hidden from the reading
    of every document. *)
Lemma save_hidden_from_retrieve_all_witness :
  run_cloud (_ ← save_embeddings slash_save; retrieve_embeddings user_request)
            (reliable ∅) =
    (Ok (retrieve_response [] []),
     reliable (saved_store (JStr "u1") (JStr "a/b") sample_metadata sample_chunks ∅)).
Proof.
  eapply save_hidden_from_retrieve_all
    with (kvs := dict_set "documentId" (JStr "a/b") save_fields)
         (file_name := JStr "a.pdf") (user_id' := JStr "u1") (every_id := JNull)
         (p := "a") (q := "b") (ps := []);
    first [done | apply asks_user | by_compute].
Defined.

(** Delete of every document of [u1] removes the chunks of the user
    [u1/documents/x]. *)
Lemma delete_all_reaches_nested_users_witness :
  object_at (buckets (run_cloud (delete_embeddings user_request) (reliable nested_store)).2)
            (object_name ("u1" +:+ "/documents/" +:+ "x") "d1" "chunks.json") = None
  ∧ is_Some (object_at nested_store (chunks_blob_name "u1/documents/x" "d1")).
Proof.
  split; [|by eexists].
  eapply delete_all_reaches_nested_users
    with (user_id := JStr "u1") (document_id := JNull) (objs := nested_objects);
    first [done | apply asks_user].
Defined.

Lemma retrieve_counts_at_most_deleted_witness :
  ∃ counted deleted : nat,
    field "documentsCount"
      (retrieve_response (sample_chunks ++ [JStr "gamma"]) [sample_metadata])
      = Some (JInt (Z.of_nat counted)) ∧
    field "documentsDeleted"
      (delete_response 2 "Successfully deleted 2 documents for user u1")
      = Some (JInt (Z.of_nat deleted)) ∧
    counted ≤ deleted.
Proof.
  eapply retrieve_counts_at_most_deleted
    with (req := user_request) (req' := user_request)
         (user_id := JStr "u1") (user_id' := JStr "u1") (document_id := JNull)
         (document_id' := JNull) (st := shared_store) (objs := shared_objects);
    first [apply asks_user | reflexivity | by_compute].
Defined.
