(* ===== verification/Model.v ===== *)
(** * Model: the service as a library of documents

    What the three storage functions promise, without object names: a
    library maps a user and a document id to the chunks and the metadata
    of the document.  Save puts a document, Retrieve looks one up or
    collects those of a user, Delete removes one or those of a user.

    A bucket represents a library when its objects are the two objects of
    every document of the library, named as Save names them and holding
    the encoded values ([represents]).  On a reliable store and for ids
    without separator every handler answers what the library answers and
    leaves a bucket that represents the library after the operation: the
    handlers refine the library. *)

From S2P Require Import Prelude PyStr PyDict Json Prog Gcs KeySpace Codec.
From S2P Require Import JsonLex JsonText Http Samples Save Retrieve RetrieveAll Delete.
From S2P Require Import Concurrent Naming Races Scenarios.

(** ** The library *)

(** The chunks and the metadata of a document. *)
Abbreviation content := (list json * json)%type.

Abbreviation library := (gmap (string * string) content).

Definition lib_save (u d : string) (c : content) (lib : library) : library :=
  <[(u, d) := c]> lib.

Definition lib_delete (u d : string) (lib : library) : library :=
  delete (u, d) lib.

Definition lib_delete_user (u : string) (lib : library) : library :=
  filter (λ kv, kv.1.1 ≠ u) lib.

(** The documents of a user. *)
Definition lib_user (u : string) (lib : library) : library :=
  filter (λ kv, kv.1.1 = u) lib.

(** What Retrieve of a document answers. *)
Definition lib_retrieve (document_id : json) (found : option content) : response :=
  match found with
  | Some (chunks, metadata) => retrieve_response chunks [metadata]
  | None => document_not_found document_id
  end.

(** What Delete of a document answers. *)
Definition lib_deleted (document_id : json) (found : option content) : response :=
  match found with
  | Some _ => delete_response 1 ("Successfully deleted document " +:+ py_str document_id)
  | None => document_not_found document_id
  end.

(** The content of a document of the library, empty when there is none. *)
Definition doc_content (lib : library) (u d : string) : content :=
  default ([], JNull) (lib !! (u, d)).

(** ** The operations of a client *)

(** What a client does to the library, with the ids as strings. *)
Inductive op : Type :=
| Put (u d file_name : string) (c : content)
| Get (u d : string)
| Drop (u d : string)
| DropAll (u : string).

Definition put_request (u d file_name : string) (c : content) : request :=
  post [("userId", JStr u); ("documentId", JStr d); ("fileName", JStr file_name);
        ("chunks", JArr c.1); ("metadata", c.2)].

Definition doc_request (u d : string) : request :=
  post [("userId", JStr u); ("documentId", JStr d)].

Definition all_request (u : string) : request := post [("userId", JStr u)].

(** The library after an operation. *)
Definition lib_step (lib : library) (o : op) : library :=
  match o with
  | Put u d _ c => lib_save u d c lib
  | Get _ _ => lib
  | Drop u d => lib_delete u d lib
  | DropAll u => lib_delete_user u lib
  end.

(** The answer of the library to an operation. *)
Definition lib_answer (lib : library) (o : op) : response :=
  match o with
  | Put u d file_name c =>
      save_response (JStr d) (JStr file_name) (length c.1) (chunks_blob_name u d)
  | Get u d => lib_retrieve (JStr d) (lib !! (u, d))
  | Drop u d => lib_deleted (JStr d) (lib !! (u, d))
  | DropAll u =>
      delete_response (size (lib_user u lib))
        ("Successfully deleted " +:+ pretty (size (lib_user u lib))
         +:+ " documents for user " +:+ u)
  end.

(** The answers to a sequence of operations and the library after it. *)
Fixpoint lib_run (ops : list op) (lib : library) : list response * library :=
  match ops with
  | [] => ([], lib)
  | o :: ops' =>
      let rest := lib_run ops' (lib_step lib o) in
      (lib_answer lib o :: rest.1, rest.2)
  end.

(** The names of the two objects of a document. *)
Definition doc_objects (u d name : string) : Prop :=
  name = chunks_blob_name u d ∨ name = metadata_blob_name u d.

Section model.
Context `{JsonCodec}.

(** A bucket that holds the documents of a library and nothing else. *)
Record represents (objs : objects) (lib : library) : Prop := {
  rep_names name :
    is_Some (objs !! name) → ∃ u d, is_Some (lib !! (u, d)) ∧ doc_objects u d name;
  rep_docs u d c :
    lib !! (u, d) = Some c → slash_free u ∧ slash_free d ∧ held objs u d c
}.

End model.

(** ** Names of documents *)

Lemma doc_objects_inj u d u' d' name :
  slash_free u → slash_free d → slash_free u' → slash_free d' →
  doc_objects u d name → doc_objects u' d' name → u = u' ∧ d = d'.
Proof.
  intros Hu Hd Hu' Hd' [->| ->] [Hname|Hname];
    rewrite ?chunks_blob_name_object, ?metadata_blob_name_object in Hname.
  - by apply object_name_inj in Hname as (-> & -> & _).
  - by apply chunks_metadata_distinct in Hname.
  - symmetry in Hname. by apply chunks_metadata_distinct in Hname.
  - by apply object_name_inj in Hname as (-> & -> & _).
Qed.

Lemma doc_objects_under u d name :
  doc_objects u d name → startswith name (document_prefix u d) = true.
Proof. intros [->| ->]; apply document_prefix_object_name. Qed.

Lemma doc_objects_name_ok u d name :
  slash_free u → slash_free d → doc_objects u d name → name_ok name = true.
Proof. intros Hu Hd [->| ->]; by apply name_ok_object_name. Qed.

(** ** What a represented library says of the bucket *)

Section represents_facts.
Context `{JsonCodec}.

Lemma represents_empty : represents ∅ ∅.
Proof. split; [by intros name [? ?%lookup_empty_Some]|by intros ??? ?%lookup_empty_Some]. Qed.

Section represented.
Context (objs : objects) (lib : library) (Hrep : represents objs lib).

Lemma rep_slash_free u d : is_Some (lib !! (u, d)) → slash_free u ∧ slash_free d.
Proof. intros [c Hc]. by destruct (rep_docs _ _ Hrep _ _ _ Hc) as (? & ? & _). Qed.

(** The objects of a document that is not in the library are not in the
    bucket. *)
Lemma rep_absent u d name :
  slash_free u → slash_free d → lib !! (u, d) = None →
  doc_objects u d name → objs !! name = None.
Proof.
  intros Hu Hd Hnone Hname. apply eq_None_not_Some. intros Hsome.
  destruct (rep_names _ _ Hrep _ Hsome) as (u' & d' & Hdoc & Hname').
  destruct (rep_slash_free _ _ Hdoc) as [Hu' Hd'].
  destruct (doc_objects_inj u d u' d' name) as [-> ->]; [done..|].
  rewrite Hnone in Hdoc. by destruct Hdoc.
Qed.

Lemma represents_well_named : well_named objs.
Proof.
  intros name data Hname.
  destruct (rep_names _ _ Hrep name) as (u & d & Hdoc & Hobj); [eauto|].
  destruct (rep_slash_free _ _ Hdoc). by apply (doc_objects_name_ok u d).
Qed.

Lemma represents_tidy u : slash_free u → tidy u objs.
Proof. intros Hu. apply well_named_tidy, represents_well_named. done. Qed.

(** The documents the listing loops find for a user are the documents
    of the user in the library. *)
Lemma represents_docs_of u d :
  slash_free u →
  d ∈ docs_of (list_names (user_prefix u) objs) ↔ is_Some (lib !! (u, d)).
Proof.
  intros Hu. rewrite elem_of_docs_of_listing by by apply represents_tidy. split.
  - intros (f & Hd & Hf & Hobj).
    destruct (rep_names _ _ Hrep _ Hobj) as (u' & d' & Hdoc & Hname).
    destruct (rep_slash_free _ _ Hdoc) as [Hu' Hd'].
    enough (u = u' ∧ d = d') as [-> ->] by done.
    destruct Hname as [Hname|Hname];
      rewrite ?chunks_blob_name_object, ?metadata_blob_name_object in Hname;
      by apply object_name_inj in Hname as (-> & -> & _).
  - intros [c Hc]. destruct (rep_docs _ _ Hrep _ _ _ Hc) as (_ & Hd & cd & md & Hcd & _).
    exists "chunks.json". split_and!; [done..|]. rewrite <-chunks_blob_name_object. eauto.
Qed.

(** The documents the listing loops find, with their content, are the
    documents of the user in the library, in some order. *)
Lemma represents_user_docs u :
  slash_free u →
  (λ d, ((u, d), doc_content lib u d)) <$> docs_of (list_names (user_prefix u) objs)
  ≡ₚ map_to_list (lib_user u lib).
Proof.
  intros Hu. apply NoDup_Permutation.
  - apply NoDup_fmap_2_strong; [|apply NoDup_docs_of]. by intros d d' _ _ [= ->].
  - apply NoDup_map_to_list.
  - intros [[u' d'] c]. rewrite list_elem_of_fmap, elem_of_map_to_list.
    unfold lib_user. rewrite map_lookup_filter_Some. cbn. split.
    + intros (d & Heq & [c' Hc]%represents_docs_of); [|done].
      injection Heq as -> -> ->. unfold doc_content. by rewrite Hc.
    + intros [Hc ->]. exists d'. unfold doc_content. rewrite Hc.
      split; [done|]. apply represents_docs_of; eauto.
Qed.

Lemma represents_held u :
  slash_free u →
  Forall (λ d, held objs u d (doc_content lib u d))
         (docs_of (list_names (user_prefix u) objs)).
Proof.
  intros Hu. apply Forall_forall. intros d [c Hc]%represents_docs_of; [|done].
  unfold doc_content. rewrite Hc. by destruct (rep_docs _ _ Hrep _ _ _ Hc) as (_ & _ & ?).
Qed.

(** The listing of a document is empty exactly when the library has no
    such document. *)
Lemma represents_listing u d :
  slash_free u → slash_free d →
  list_names (document_prefix u d) objs = [] ↔ lib !! (u, d) = None.
Proof.
  intros Hu Hd. rewrite list_names_nil. split.
  - intros Hnone. apply eq_None_not_Some. intros [c Hc].
    destruct (rep_docs _ _ Hrep _ _ _ Hc) as (_ & _ & cd & md & Hcd & _).
    specialize (Hnone (chunks_blob_name u d) (mk_is_Some _ _ Hcd)).
    by rewrite chunks_blob_name_object, document_prefix_object_name in Hnone.
  - intros Hnone name Hname. apply not_true_is_false. intros Hp.
    destruct (rep_names _ _ Hrep _ Hname) as (u' & d' & Hdoc & Hobj).
    destruct (rep_slash_free _ _ Hdoc) as [Hu' Hd'].
    destruct Hobj as [->| ->]; apply document_prefix_selects in Hp as [-> ->];
      try done; rewrite Hnone in Hdoc; by destruct Hdoc.
Qed.

End represented.

End represents_facts.

(** ** The operations on a represented library *)

Section operations.
Context `{JsonCodec}.

Lemma held_agree objs objs' u d c :
  (∀ name, doc_objects u d name → objs' !! name = objs !! name) →
  held objs u d c → held objs' u d c.
Proof.
  intros Hagree (cd & md & Hcd & Hc & Hmd & Hm). exists cd, md.
  rewrite (Hagree (chunks_blob_name u d)) by by left.
  by rewrite (Hagree (metadata_blob_name u d)) by by right.
Qed.

Context (objs : objects) (lib : library) (Hrep : represents objs lib).
Context (u d : string) (Hu : slash_free u) (Hd : slash_free d).

(** The two uploads of Save put the document into the library. *)
Lemma represents_save chunks metadata :
  json_ok (JArr chunks) = true → json_ok metadata = true →
  represents
    (<[metadata_blob_name u d := json_dumps 2 metadata]>
       (<[chunks_blob_name u d := json_dumps 2 (JArr chunks)]> objs))
    (lib_save u d (chunks, metadata) lib).
Proof.
  intros Hc Hm. unfold lib_save. split.
  - intros name [<-|[_ [<-|[_ Hname]]%lookup_insert_is_Some]]%lookup_insert_is_Some.
    + exists u, d. split; [apply lookup_insert_is_Some'; by left|by right].
    + exists u, d. split; [apply lookup_insert_is_Some'; by left|by left].
    + destruct (rep_names _ _ Hrep _ Hname) as (u' & d' & Hdoc & Hobj).
      exists u', d'. split; [|done]. apply lookup_insert_is_Some'. by right.
  - intros u' d' c [[[= <- <-] <-]|[Hne Hdoc]]%lookup_insert_Some.
    + split_and!; [done..|]. eexists _, _. cbn.
      rewrite lookup_insert_ne by apply not_eq_sym, chunks_metadata_distinct.
      rewrite !lookup_insert_eq. by rewrite !json_loads_dumps.
    + destruct (rep_docs _ _ Hrep _ _ _ Hdoc) as (Hu' & Hd' & Hheld).
      split_and!; [done..|]. eapply held_agree; [|done]. intros name Hname.
      assert (¬ doc_objects u d name) as Hout.
      { intros Hin. by destruct (doc_objects_inj u d u' d' name) as [-> ->]. }
      rewrite !lookup_insert_ne; [done|intros <-; apply Hout..]; first [by left|by right].
Qed.

(** Removing what is under the prefix of a document removes the document
    from the library. *)
Lemma represents_delete :
  represents (remove_prefix (document_prefix u d) objs) (lib_delete u d lib).
Proof.
  unfold lib_delete. split.
  - intros name [data Hname]. rewrite lookup_remove_prefix in Hname.
    destruct (startswith name (document_prefix u d)) eqn:Hp; [done|].
    destruct (rep_names _ _ Hrep name) as (u' & d' & Hdoc & Hobj); [eauto|].
    exists u', d'. split; [|done]. rewrite lookup_delete_ne; [done|].
    intros [= <- <-]. apply doc_objects_under in Hobj. congruence.
  - intros u' d' c [Hne Hdoc]%lookup_delete_Some.
    destruct (rep_docs _ _ Hrep _ _ _ Hdoc) as (Hu' & Hd' & Hheld).
    split_and!; [done..|]. eapply held_agree; [|done]. intros name Hname.
    rewrite lookup_remove_prefix.
    destruct (startswith name (document_prefix u d)) eqn:Hp; [|done].
    destruct Hname as [->| ->]; apply document_prefix_selects in Hp as [-> ->]; done.
Qed.

(** Removing what is under the prefix of a user removes the documents of
    the user from the library. *)
Lemma represents_delete_user :
  represents (remove_prefix (user_prefix u) objs) (lib_delete_user u lib).
Proof.
  unfold lib_delete_user. split.
  - intros name [data Hname]. rewrite lookup_remove_prefix in Hname.
    destruct (startswith name (user_prefix u)) eqn:Hp; [done|].
    destruct (rep_names _ _ Hrep name) as (u' & d' & [c Hdoc] & Hobj); [eauto|].
    exists u', d'. split; [|done]. exists c. apply map_lookup_filter_Some. split; [done|].
    cbn. intros ->. apply doc_objects_under in Hobj.
    rewrite (startswith_trans _ _ _ Hobj (user_prefix_document_prefix _ _)) in Hp. done.
  - intros u' d' c [Hdoc Hne]%map_lookup_filter_Some. cbn in Hne.
    destruct (rep_docs _ _ Hrep _ _ _ Hdoc) as (Hu' & Hd' & Hheld).
    split_and!; [done..|]. eapply held_agree; [|done]. intros name Hname.
    rewrite lookup_remove_prefix.
    destruct (startswith name (user_prefix u)) eqn:Hp; [|done].
    destruct Hname as [->| ->]; apply user_prefix_selects in Hp as ->; done.
Qed.

End operations.

(** ** The handlers refine the library *)

Section refinement.
Context `{JsonCodec}.
Context (st : store) (lib : library).

Context (objs : objects) (Hbucket : st !! BUCKET_NAME = Some objs).
Context (Hrep : represents objs lib).

(** Save refines [lib_save]: a valid Save of ids without separator
    answers 200 and leaves a store that represents the library with the
    document put in. *)
Lemma save_step req user_id document_id file_name metadata chunks :
  saves req user_id document_id file_name metadata chunks →
  slash_free (py_str user_id) → slash_free (py_str document_id) →
  json_ok (JArr chunks) = true → json_ok metadata = true →
  ∃ objs',
    run_cloud (save_embeddings req) (reliable st) =
      (Ok (save_response document_id file_name (length chunks)
             (chunks_blob_name (py_str user_id) (py_str document_id))),
       reliable (<[BUCKET_NAME := objs']> st))
    ∧ represents objs'
        (lib_save (py_str user_id) (py_str document_id) (chunks, metadata) lib).
Proof.
  intros [kvs Hmethod Hbody Hu Hd Hf Hc Hm Hne] Hsu Hsd Hok Hokm.
  eexists. split; [by eapply run_saved|].
  unfold bucket_objects. rewrite Hbucket. by apply represents_save.
Qed.

Context (req : request) (user_id document_id : json).
Context (Hreq : asks req user_id document_id).
Context (Hu : slash_free (py_str user_id)).

Let u := py_str user_id.
Let d := py_str document_id.

(** Retrieve of a document refines the lookup in the library: the
    chunks and the one metadata of the document, or 404. *)
Lemma retrieve_step :
  truthy document_id = true → slash_free d →
  run_cloud (retrieve_embeddings req) (reliable st) =
    (Ok (lib_retrieve document_id (lib !! (u, d))), reliable st).
Proof.
  intros Htruthy Hd. destruct Hreq as [rkvs Hmeth Hb Hur Hdr].
  destruct (lib !! (u, d)) as [[chunks metadata]|] eqn:Hdoc; cbn.
  - destruct (rep_docs _ _ Hrep _ _ _ Hdoc) as (_ & _ & cd & md & Hcd & Hc & Hmd & Hm).
    eapply (run_retrieve_one _ _ _ Hmeth Hb Hur _ _ Hbucket (inr (_, _)));
      rewrite Hdr; [done|]. by eapply run_retrieve_document_found.
  - eapply (run_retrieve_one _ _ _ Hmeth Hb Hur _ _ Hbucket (inl _));
      rewrite Hdr; [done|]. eapply run_retrieve_document_missing; [done|].
    by apply (rep_absent objs lib Hrep u d); [..|left].
Qed.

(** Retrieve of all documents answers the documents the listing loops
    find with the content the library has for them. *)
Lemma retrieve_all_step :
  truthy document_id = false →
  run_cloud (retrieve_embeddings req) (reliable st) =
    (Ok (retrieve_response
           (concat (doc_content lib u <$> docs_of (list_names (user_prefix u) objs)).*1)
           (doc_content lib u <$> docs_of (list_names (user_prefix u) objs)).*2),
     reliable st).
Proof.
  intros Hfalsy. destruct Hreq as [rkvs Hmeth Hb Hur Hdr]. rewrite <-Hdr in Hfalsy.
  erewrite (run_retrieve_collected _ _ _ Hmeth Hb Hur Hfalsy _ _ Hbucket);
    [|by apply run_retrieve_all, (represents_tidy objs lib)].
  rewrite (read_all_held _ _ (doc_content lib u))
    by by apply (represents_held objs lib).
  by rewrite <-!list_fmap_compose.
Qed.

Lemma found_user_docs :
  doc_content lib u <$> docs_of (list_names (user_prefix u) objs)
  ≡ₚ (map_to_list (lib_user u lib)).*2.
Proof.
  rewrite <-(represents_user_docs objs lib Hrep u Hu). by rewrite <-list_fmap_compose.
Qed.

(** C12. Retrieve of all documents refines the library: it answers the
    documents of the user, in some order, their chunks concatenated in
    that order and one metadata each. *)
Theorem retrieve_all_refines :
  truthy document_id = false →
  ∃ found : list content,
    found ≡ₚ (map_to_list (lib_user u lib)).*2 ∧
    run_cloud (retrieve_embeddings req) (reliable st) =
      (Ok (retrieve_response (concat found.*1) found.*2), reliable st).
Proof.
  intros Hfalsy. eexists. split; [apply found_user_docs|by apply retrieve_all_step].
Qed.

(** Delete of a document refines [lib_delete]: 404 and no change when
    the library has no such document, else 200 and a store that
    represents the library without it. *)
Lemma delete_step :
  truthy document_id = true → slash_free d →
  ∃ objs',
    run_cloud (delete_embeddings req) (reliable st) =
      (Ok (lib_deleted document_id (lib !! (u, d))),
       reliable (<[BUCKET_NAME := objs']> st))
    ∧ represents objs' (lib_delete u d lib).
Proof.
  intros Htruthy Hd. destruct Hreq as [rkvs Hmeth Hb Hur Hdr].
  pose proof (represents_listing objs lib Hrep u d Hu Hd) as Hlisting.
  destruct (lib !! (u, d)) as [c|] eqn:Hdoc; cbn.
  - exists (remove_prefix (document_prefix u d) objs). split; [|by apply represents_delete].
    eapply (run_delete_one _ _ _ Hmeth Hb Hur _ _ Hbucket (inr (_, _)));
      rewrite Hdr; [done|]. eapply run_delete_document_found; [done|].
    intros Hnil%Hlisting. done.
  - exists objs. rewrite insert_id by done. unfold lib_delete.
    rewrite delete_id by done. split; [|done].
    eapply (run_delete_one _ _ _ Hmeth Hb Hur _ _ Hbucket (inl _));
      rewrite Hdr; [done|]. eapply run_delete_document_missing; [done|].
    by apply Hlisting.
Qed.

(** Delete of all documents refines [lib_delete_user]: it reports the
    number of documents of the user in the library and leaves a store
    that represents the library without them. *)
Lemma delete_all_step :
  truthy document_id = false →
  run_cloud (delete_embeddings req) (reliable st) =
    (Ok (delete_response (size (lib_user u lib))
           ("Successfully deleted " +:+ pretty (size (lib_user u lib))
            +:+ " documents for user " +:+ u)),
     reliable (<[BUCKET_NAME := remove_prefix (user_prefix u) objs]> st))
  ∧ represents (remove_prefix (user_prefix u) objs) (lib_delete_user u lib).
Proof.
  intros Hfalsy. split; [|by apply represents_delete_user].
  erewrite run_delete_user by done. rewrite size_document_ids.
  rewrite <-(length_map_to_list (lib_user u lib)).
  rewrite <-(represents_user_docs objs lib Hrep u Hu). by rewrite length_fmap.
Qed.

End refinement.

(** ** Sequences of operations *)

Section client.
Context `{JsonCodec}.

(** The handler that serves an operation. *)
Definition op_handler (o : op) : prog storeE response :=
  match o with
  | Put u d file_name c => save_embeddings (put_request u d file_name c)
  | Get u d => retrieve_embeddings (doc_request u d)
  | Drop u d => delete_embeddings (doc_request u d)
  | DropAll u => delete_embeddings (all_request u)
  end.

(** The operations the library models: ids without separator, a document
    id that is not empty, chunks and metadata that Save accepts and the
    codec gives back. *)
Definition op_ok (o : op) : Prop :=
  match o with
  | Put u d _ c =>
      slash_free u ∧ slash_free d ∧ c.1 ≠ []
      ∧ json_ok (JArr c.1) = true ∧ json_ok c.2 = true
  | Get u d | Drop u d => slash_free u ∧ slash_free d ∧ d ≠ ""
  | DropAll u => slash_free u
  end.

(** The handlers of a sequence of operations, one after the other: the
    outcomes and the cloud they leave. *)
Fixpoint run_ops (ops : list op) (c : cloud) : list (res response) * cloud :=
  match ops with
  | [] => ([], c)
  | o :: ops' =>
      let rest := run_ops ops' (run_cloud (op_handler o) c).2 in
      ((run_cloud (op_handler o) c).1 :: rest.1, rest.2)
  end.

Lemma saves_put u d file_name c :
  c.1 ≠ [] → saves (put_request u d file_name c) (JStr u) (JStr d) (JStr file_name) c.2 c.1.
Proof. intros Hc. by eapply Saves. Qed.

Lemma asks_doc u d : asks (doc_request u d) (JStr u) (JStr d).
Proof. by eapply Asks. Qed.

Lemma asks_all u : asks (all_request u) (JStr u) JNull.
Proof. by eapply Asks. Qed.

(** One operation: the handler answers what the library answers and
    leaves a bucket that represents the library after the operation. *)
Lemma op_step o st objs lib :
  op_ok o → st !! BUCKET_NAME = Some objs → represents objs lib →
  ∃ objs',
    run_cloud (op_handler o) (reliable st) =
      (Ok (lib_answer lib o), reliable (<[BUCKET_NAME := objs']> st))
    ∧ represents objs' (lib_step lib o).
Proof.
  intros Ho Hbucket Hrep. destruct o as [u d f [chunks metadata]|u d|u d|u]; cbn in Ho.
  - destruct Ho as (Hu & Hd & Hne & Hc & Hm).
    by apply (save_step st lib objs Hbucket Hrep _ _ _ _ _ _
                (saves_put u d f (chunks, metadata) Hne)).
  - destruct Ho as (Hu & Hd & Hne). exists objs. rewrite insert_id by done.
    split; [|done]. apply (retrieve_step st lib objs Hbucket Hrep _ _ _ (asks_doc u d));
      [done| |done]. by apply truthy_JStr.
  - destruct Ho as (Hu & Hd & Hne).
    apply (delete_step st lib objs Hbucket Hrep _ _ _ (asks_doc u d)); [done| |done].
    by apply truthy_JStr.
  - eexists. by apply (delete_all_step st lib objs Hbucket Hrep _ _ _ (asks_all u)).
Qed.

(** C11. The handlers refine the library: a sequence of operations on ids
    without separator, served one after the other from a reliable store
    that represents a library, is answered as the library answers it and
    leaves a store that represents the library after the sequence. *)
Theorem ops_refine ops st objs lib :
  Forall op_ok ops → st !! BUCKET_NAME = Some objs → represents objs lib →
  ∃ objs',
    run_ops ops (reliable st) =
      (Ok <$> (lib_run ops lib).1, reliable (<[BUCKET_NAME := objs']> st))
    ∧ represents objs' (lib_run ops lib).2.
Proof.
  intros Hops. revert st objs lib.
  induction Hops as [|o ops Ho _ IH]; intros st objs lib Hbucket Hrep.
  { exists objs. by rewrite insert_id. }
  destruct (op_step o st objs lib Ho Hbucket Hrep) as (objs1 & Hrun & Hrep1).
  destruct (IH (<[BUCKET_NAME := objs1]> st) objs1 _ (lookup_insert_eq _ _ _) Hrep1)
    as (objs2 & Hrest & Hrep2).
  exists objs2. cbn [run_ops lib_run]. rewrite Hrun. cbn [fst snd]. rewrite Hrest.
  by rewrite insert_insert_eq.
Qed.

(** The documents of a user after a Save for the user. *)
Lemma lib_user_save u d c lib :
  lib_user u (lib_save u d c lib) = <[(u, d) := c]> (lib_user u lib).
Proof. unfold lib_user, lib_save. by rewrite map_filter_insert_True. Qed.

Lemma length_concat_Permutation {A} (l k : list (list A)) :
  l ≡ₚ k → length (concat l) = length (concat k).
Proof.
  induction 1 as [|x l k _ IH|x y l|l k m _ IH1 _ IH2]; cbn;
    rewrite ?length_app; [done|lia|lia|congruence].
Qed.

(** C13. Two documents saved for a user who had none, then Retrieve of all
    documents: the answer counts two documents and holds as many chunks
    as the two documents together. *)
Theorem two_documents_retrieved u d1 d2 f1 f2 c1 c2 st objs lib :
  op_ok (Put u d1 f1 c1) → op_ok (Put u d2 f2 c2) → d1 ≠ d2 →
  lib_user u lib = ∅ →
  st !! BUCKET_NAME = Some objs → represents objs lib →
  ∃ chunks metadata c',
    run_cloud (_ ← op_handler (Put u d1 f1 c1); _ ← op_handler (Put u d2 f2 c2);
               retrieve_embeddings (all_request u)) (reliable st) =
      (Ok (retrieve_response chunks metadata), c')
    ∧ length metadata = 2
    ∧ length chunks = length c1.1 + length c2.1.
Proof.
  intros Ho1 Ho2 Hne Hnone Hbucket Hrep.
  destruct (op_step _ st objs lib Ho1 Hbucket Hrep) as (objs1 & Hrun1 & Hrep1).
  set (st1 := <[BUCKET_NAME := objs1]> st) in *.
  destruct (op_step _ st1 objs1 _ Ho2 (lookup_insert_eq _ _ _) Hrep1)
    as (objs2 & Hrun2 & Hrep2).
  set (st2 := <[BUCKET_NAME := objs2]> st1) in *.
  rewrite run_mbind, Hrun1. cbn [fst snd]. rewrite run_mbind, Hrun2. cbn [fst snd].
  rewrite (retrieve_all_step st2 _ objs2 (lookup_insert_eq _ _ _) Hrep2 _ _ _ (asks_all u))
    by (done || apply Ho1).
  pose proof (found_user_docs _ _ Hrep2 (JStr u) (proj1 Ho1)) as Hfound.
  cbn [lib_step py_str] in Hfound. rewrite !lib_user_save, Hnone in Hfound.
  rewrite map_to_list_insert in Hfound
    by (rewrite lookup_insert_ne, lookup_empty; congruence).
  rewrite insert_empty, map_to_list_singleton in Hfound.
  eexists _, _, _. split; [done|]. cbn [lib_step py_str]. split.
  - by rewrite length_fmap, (Permutation_length Hfound).
  - rewrite (length_concat_Permutation _ _ (fmap_Permutation fst _ _ Hfound)).
    cbn. rewrite length_app, length_app. cbn. lia.
Qed.

End client.

(** ** The theorems at the sample requests *)

(** The library with document [d1] of user [u1], and a bucket that
    represents it. *)
Definition sample_lib : library := lib_save "u1" "d1" (sample_chunks, sample_metadata) ∅.

Definition model_objects : objects :=
  <[metadata_blob_name "u1" "d1" := dump 2 0 sample_metadata]>
    (<[chunks_blob_name "u1" "d1" := dump 2 0 (JArr sample_chunks)]> ∅).

Definition model_store : store := {[BUCKET_NAME := model_objects]}.

Lemma represents_sample : represents model_objects sample_lib.
Proof.
  exact (represents_save ∅ ∅ represents_empty "u1" "d1" eq_refl eq_refl
           sample_chunks sample_metadata sample_chunks_valid sample_metadata_valid).
Qed.

Lemma retrieve_all_refines_witness :
  ∃ found : list content,
    found ≡ₚ (map_to_list (lib_user (py_str (JStr "u1")) sample_lib)).*2 ∧
    run_cloud (retrieve_embeddings user_request) (reliable model_store) =
      (Ok (retrieve_response (concat found.*1) found.*2), reliable model_store).
Proof.
  apply (retrieve_all_refines model_store sample_lib model_objects eq_refl
           represents_sample user_request (JStr "u1") JNull asks_user); reflexivity.
Defined.

(** What the library answers at the samples. *)
Example lib_retrieve_sample :
  lib_retrieve (JStr "d1") (sample_lib !! ("u1", "d1"))
  = retrieve_response sample_chunks [sample_metadata]
  ∧ lib_retrieve (JStr "d2") (sample_lib !! ("u1", "d2")) = document_not_found (JStr "d2")
  ∧ size (lib_user "u1" sample_lib) = 1
  ∧ size (lib_user "u2" sample_lib) = 0.
Proof. by_compute. Qed.

(** A session of a client: a second document, a lookup, and the two ways
    to delete. *)
Definition sample_ops : list op :=
  [Put "u1" "d2" "b.pdf" ([JStr "gamma"], JObj [("pages", JInt 1)]);
   Get "u1" "d1"; Drop "u1" "d1"; Get "u1" "d1"; DropAll "u1"].

Lemma sample_ops_ok : Forall op_ok sample_ops.
Proof. repeat constructor; by_compute. Qed.

Lemma ops_refine_witness :
  ∃ objs',
    run_ops sample_ops (reliable model_store) =
      (Ok <$> (lib_run sample_ops sample_lib).1,
       reliable (<[BUCKET_NAME := objs']> model_store))
    ∧ represents objs' (lib_run sample_ops sample_lib).2.
Proof.
  apply (ops_refine sample_ops model_store model_objects sample_lib sample_ops_ok eq_refl
           represents_sample).
Defined.

(** What the library answers to the session. *)
Example lib_run_sample :
  (lib_run sample_ops sample_lib).1 =
    [save_response (JStr "d2") (JStr "b.pdf") 1 (chunks_blob_name "u1" "d2");
     retrieve_response sample_chunks [sample_metadata];
     delete_response 1 "Successfully deleted document d1";
     document_not_found (JStr "d1");
     delete_response 1 "Successfully deleted 1 documents for user u1"].
Proof. by_compute. Qed.

Lemma two_documents_retrieved_witness :
  ∃ chunks metadata c',
    run_cloud (_ ← op_handler (Put "u1" "d1" "a.pdf" (sample_chunks, sample_metadata));
               _ ← op_handler (Put "u1" "d2" "b.pdf" ([JStr "gamma"], JObj []));
               retrieve_embeddings (all_request "u1")) (reliable empty_bucket) =
      (Ok (retrieve_response chunks metadata), c')
    ∧ length metadata = 2
    ∧ length chunks = length (sample_chunks, sample_metadata).1
                      + length ([JStr "gamma"], JObj []).1.
Proof.
  apply (two_documents_retrieved "u1" "d1" "d2" "a.pdf" "b.pdf" _ _ empty_bucket ∅ ∅);
    [by_compute|by_compute|done|reflexivity|reflexivity|apply represents_empty].
Defined.
